(** * Buzz: the vibration relay and its web client

    A shallow embedding of the TypeScript client of the Buzz repository
    (haptic utility, WebSocket hook, session-join form, session view,
    wire types, the two revisions of the App) and of the relay core the
    specification describes (code generator, registry, session, reaper),
    followed by the properties established about them.

    Conventions of the embedding:
    - a JavaScript [number] that the code compares with [===] or [>] is a
      binary64 [float]; [PrimFloat.eqb] is IEEE equality, as [===] on
      numbers is ([NaN] differs from itself, [+0] equals [-0]);
    - member counts and millisecond delays are integers of [Z];
    - a JavaScript string is a [string];
    - an optional property ([field?: T]) is an [option]; [None] is
      [undefined];
    - a function that may throw runs in the small monad [Js] below, which
      threads the console/device trace and an exception. *)

From Stdlib Require Import ZArith List Bool Ascii String Lia.
From Stdlib Require Import PrimFloat.
From stdpp Require Import gmap strings list pretty.
Import ListNotations.

Open Scope Z_scope.

(* ===================================================================== *)
(** * Part I. Definitions                                                 *)
(* ===================================================================== *)

(** ** JavaScript effects: a trace and an exception *)

Module Js.

Inductive ImpactStyle := Light | Medium | Heavy.

(** What the haptic utility does to the outside world. *)
Inductive Effect :=
| HapticsImpact (style : ImpactStyle)
| Sleep (ms : Z)
| NavigatorVibrate (pattern : list float)
| ConsoleWarn (text : string)
| ConsoleInfo (text : string)
| ConsoleLog (text : string)
| SetUserHasInteracted.

(** A thrown value; the code only logs it. *)
Inductive Exn := Thrown (what : string).

(** A computation leaves a trace and either throws or returns. *)
Definition M (A : Type) : Type := list Effect * (Exn + A).

Definition ret {A} (a : A) : M A := ([], inr a).
Definition throw {A} (e : Exn) : M A := ([], inl e).
Definition emit (e : Effect) : M unit := ([e], inr tt).

Definition bind {A B} (m : M A) (k : A -> M B) : M B :=
  match m with
  | (tr, inl e) => (tr, inl e)
  | (tr, inr a) => let '(tr', r) := k a in (tr ++ tr', r)
  end.

(** [try { body } catch (e) { handler e }] *)
Definition try_catch {A} (body : M A) (handler : Exn -> M A) : M A :=
  match body with
  | (tr, inl e) => let '(tr', r) := handler e in (tr ++ tr', r)
  | (tr, inr a) => (tr, inr a)
  end.

Definition trace {A} (m : M A) : list Effect := fst m.
Definition resolved {A} (m : M A) : bool :=
  match snd m with inr _ => true | inl _ => false end.

End Js.

(** stdpp's monad notations ([x ← m; k] and [m ;; k]) for [Js.M]. *)
#[global] Instance js_ret : MRet Js.M := @Js.ret.
#[global] Instance js_bind : MBind Js.M := fun A B k m => Js.bind m k.

(** ** src/unnamed/part_004: the haptic utility (two revisions) *)

(** What the two revisions share: the platform probes and the helpers,
    which are textually identical in both. *)
Module HapticEnv.

(** The device the utility runs on. *)
Record Platform := {
  (* typeof window !== 'undefined' && window.Capacitor !== undefined *)
  isCapacitor : bool;
  (* import('@capacitor/haptics') resolves (true) or rejects (false) *)
  hapticsImport : bool;
  (* the i-th Haptics.impact call resolves (true) or rejects (false) *)
  impactOk : nat -> bool;
  (* typeof navigator !== 'undefined' && 'vibrate' in navigator *)
  isVibrationAPISupported : bool;
  (* the i-th call navigator.vibrate(p): None when it throws, else the
     boolean returned *)
  vibrate : nat -> list float -> option bool;
  (* /iPhone|iPad|iPod/.test(navigator.userAgent) *)
  isIOS : bool
}.

Inductive HapticType := light | medium | heavy.

Definition patternToHapticType (pattern : float) : HapticType :=
  if PrimFloat.eqb pattern 1 then light
  else if PrimFloat.eqb pattern 2 then medium
  else if PrimFloat.eqb pattern 3 then heavy
  else if PrimFloat.eqb pattern 4 then heavy
  else medium.

(** [pattern.filter((v, i) => i % 2 === 0 && v > 0)] from index [i] on. *)
Fixpoint vibrationPeriods (i : nat) (pattern : list float) : list float :=
  match pattern with
  | [] => []
  | v :: rest =>
      if Nat.even i && PrimFloat.ltb 0 v
      then v :: vibrationPeriods (S i) rest
      else vibrationPeriods (S i) rest
  end.

Definition getVibrationCount (pattern : list float) : nat :=
  length (vibrationPeriods 0 pattern).

(** An array length as a JavaScript number. *)
Fixpoint numberOfNat (n : nat) : float :=
  match n with
  | O => 0%float
  | S k => (numberOfNat k + 1)%float
  end.

Definition styleOf (hapticType : HapticType) : Js.ImpactStyle :=
  match hapticType with
  | light => Js.Light
  | heavy => Js.Heavy
  | medium => Js.Medium
  end.

(** [await Haptics.impact({ style })] as the [i]-th call. *)
Definition hapticsImpact (env : Platform) (i : nat) (style : Js.ImpactStyle)
  : Js.M unit :=
  if impactOk env i
  then Js.emit (Js.HapticsImpact style)
  else Js.throw (Js.Thrown "Haptics.impact rejected").

(** [for (let i = 0; i < count; i++) { await impact; if (i < count - 1) await sleep }]
    with [todo = count - i] iterations left. *)
Fixpoint impactLoop (env : Platform) (style : Js.ImpactStyle) (pause : Z)
  (i todo : nat) : Js.M unit :=
  match todo with
  | O => Js.ret tt
  | S todo' =>
      hapticsImpact env i style ;;
      match todo' with
      | O => Js.ret tt
      | S _ => Js.emit (Js.Sleep pause)
      end ;;
      impactLoop env style pause (S i) todo'
  end.

(** [await import('@capacitor/haptics')] *)
Definition importHaptics (env : Platform) : Js.M unit :=
  if hapticsImport env then Js.ret tt
  else Js.throw (Js.Thrown "Cannot find module @capacitor/haptics").

(** [navigator.vibrate(p)] as the [i]-th call. *)
Definition navigatorVibrate (env : Platform) (i : nat) (p : list float)
  : Js.M bool :=
  match vibrate env i p with
  | Some b => ([Js.NavigatorVibrate p], inr b)
  | None => ([Js.NavigatorVibrate p], inl (Js.Thrown "vibrate failed"))
  end.

(** The line feed of a string literal. *)
Definition newline : string := String (ascii_of_nat 10) EmptyString.

(** How a block of the function ends: it fell through, or ran [return]. *)
Inductive Completion := FallThrough | Return.

End HapticEnv.

(** The first revision (lines 1-177). *)
Module Haptic1.
Import HapticEnv.

(** The [switch (pattern)] of [triggerHaptic], lines 62-77. *)
Definition patternArrayOf (pattern : float) : list float :=
  if PrimFloat.eqb pattern 1 then [200]%float
  else if PrimFloat.eqb pattern 2 then [200; 100; 200]%float
  else if PrimFloat.eqb pattern 3 then [200; 100; 200; 100; 200]%float
  else if PrimFloat.eqb pattern 4 then [200; 100; 200; 100; 200; 100; 200]%float
  else [200]%float.

(** Lines 56-81: [patternArray] and [patternNumber] from the argument,
    a number ([inl]) or an array of numbers ([inr]). *)
Definition decode (pattern : float + list float) : list float * float :=
  match pattern with
  | inl n => (patternArrayOf n, n)
  | inr arr => (arr, numberOfNat (getVibrationCount arr))
  end.

(** Lines 84-106. *)
Definition capacitorBranch (env : Platform) (patternArray : list float)
  (patternNumber : float) : Js.M Completion :=
  if isCapacitor env then
    Js.try_catch
      (importHaptics env ;;
       let hapticType := patternToHapticType patternNumber in
       let style := styleOf hapticType in
       let count := getVibrationCount patternArray in
       impactLoop env style 150 0 count ;;
       Js.ret Return)
      (fun e =>
         Js.emit (Js.ConsoleWarn "Capacitor Haptics not available:") ;;
         Js.ret FallThrough)
  else Js.ret FallThrough.

(** Lines 109-116. *)
Definition vibrationBranch (env : Platform) (patternArray : list float)
  : Js.M Completion :=
  if isVibrationAPISupported env then
    Js.try_catch
      (navigatorVibrate env 0 patternArray ;;
       Js.ret Return)
      (fun e =>
         Js.emit (Js.ConsoleWarn "Vibration API failed:") ;;
         Js.ret FallThrough)
  else Js.ret FallThrough.

(** Lines 55-131. *)
Definition triggerHaptic (env : Platform) (pattern : float + list float)
  : Js.M unit :=
  let '(patternArray, patternNumber) := decode pattern in
  c1 ← capacitorBranch env patternArray patternNumber;
  match c1 with
  | Return => Js.ret tt
  | FallThrough =>
      c2 ← vibrationBranch env patternArray;
      match c2 with
      | Return => Js.ret tt
      | FallThrough =>
          if isIOS env && negb (isCapacitor env) then
            Js.emit (Js.ConsoleInfo
              "iOS Safari: Haptic feedback requires user interaction or Capacitor wrapper")
          else
            Js.emit (Js.ConsoleWarn
              "No haptic/vibration support available on this device")
      end
  end.

End Haptic1.

(** The second revision (lines 179-432); it adds pattern 5. *)
Module Haptic2.
Import HapticEnv.

(** The [switch (pattern)] of [triggerHaptic], lines 255-274. *)
Definition patternArrayOf (pattern : float) : list float :=
  if PrimFloat.eqb pattern 1 then [200]%float
  else if PrimFloat.eqb pattern 2 then [200; 100; 200]%float
  else if PrimFloat.eqb pattern 3 then [200; 100; 200; 100; 200]%float
  else if PrimFloat.eqb pattern 4 then [200; 100; 200; 100; 200; 100; 200]%float
  else if PrimFloat.eqb pattern 5 then [5000]%float
  else [200]%float.

(** Lines 249-278. *)
Definition decode (pattern : float + list float) : list float * float :=
  match pattern with
  | inl n => (patternArrayOf n, n)
  | inr arr => (arr, numberOfNat (getVibrationCount arr))
  end.

(** Lines 281-320; [totalImpacts] is [5000 / 100]. *)
Definition capacitorBranch (env : Platform) (patternArray : list float)
  (patternNumber : float) : Js.M Completion :=
  if isCapacitor env then
    Js.try_catch
      (importHaptics env ;;
       if PrimFloat.eqb patternNumber 5 then
         impactLoop env Js.Heavy 100 0 50 ;;
         Js.ret Return
       else
         let hapticType := patternToHapticType patternNumber in
         let style := styleOf hapticType in
         let count := getVibrationCount patternArray in
         impactLoop env style 150 0 count ;;
         Js.ret Return)
      (fun e =>
         Js.emit (Js.ConsoleWarn "Capacitor Haptics not available:") ;;
         Js.ret FallThrough)
  else Js.ret FallThrough.

(** Lines 326-346. *)
Definition vibrationBranch (env : Platform) (patternArray : list float)
  : Js.M Completion :=
  if isVibrationAPISupported env then
    Js.try_catch
      (result ← navigatorVibrate env 0 patternArray;
       if negb result && isIOS env then
         Js.emit (Js.ConsoleLog
           "iOS: Vibration blocked - no active user interaction context") ;;
         Js.ret FallThrough
       else
         Js.emit (Js.ConsoleLog "Vibration triggered:") ;;
         (if isIOS env then Js.emit Js.SetUserHasInteracted else Js.ret tt) ;;
         Js.ret Return)
      (fun e =>
         Js.emit (Js.ConsoleWarn "Vibration API error:") ;;
         Js.ret FallThrough)
  else Js.ret FallThrough.

(** Lines 352-382. Where this block calls [navigator.vibrate] the block
    before it has called it once, so the calls here are the second and
    the third. *)
Definition iosBranch (env : Platform) (patternArray : list float)
  : Js.M unit :=
  if isIOS env && negb (isCapacitor env) then
    (if isVibrationAPISupported env then
       Js.try_catch
         (vibrateResult ← navigatorVibrate env 1 patternArray;
          Js.emit (Js.ConsoleLog "iOS: Vibration API called") ;;
          if negb vibrateResult then
            navigatorVibrate env 2 [100]%float ;;
            Js.emit (Js.ConsoleLog "iOS: Attempted simple vibration pattern")
          else Js.ret tt)
         (fun e =>
            Js.emit (Js.ConsoleWarn
              "iOS: Vibration API threw error (expected when no user interaction):"))
     else Js.ret tt) ;;
    Js.emit (Js.ConsoleWarn
      ("iOS WebKit Limitation: Chrome and Safari on iOS block programmatic vibration."
       +:+ newline +:+
       "Vibration only works during direct user interactions (button presses), not when receiving WebSocket messages."
       +:+ newline +:+
       "This is a browser security restriction, not a bug in this app."
       +:+ newline +:+
       "Solution: Use Capacitor to build a native app for full iOS haptic support."))
  else Js.ret tt.

(** Lines 248-386. *)
Definition triggerHaptic (env : Platform) (pattern : float + list float)
  : Js.M unit :=
  let '(patternArray, patternNumber) := decode pattern in
  c1 ← capacitorBranch env patternArray patternNumber;
  match c1 with
  | Return => Js.ret tt
  | FallThrough =>
      c2 ← vibrationBranch env patternArray;
      match c2 with
      | Return => Js.ret tt
      | FallThrough =>
          iosBranch env patternArray ;;
          Js.emit (Js.ConsoleWarn
            "No haptic/vibration support available on this device")
      end
  end.

End Haptic2.

(** [getHapticSupport] and [triggerButtonHaptic], the same text in both
    revisions (lines 137-177 and 392-432). *)
Module HapticSupport.

Inductive Method := capacitor | vibration | ios_haptic | none.

(** The declared values of [platform]; the function has no path to
    [unknown]. *)
Inductive PlatformName := ios | android | desktop | unknown.

Record t := {
  supported : bool;
  method : Method;
  platform : PlatformName
}.

(** [isAndroid] is [/Android/.test(navigator.userAgent)], which is only
    evaluated when [isIOS()] is false; it is [None] where [navigator] is
    not defined, and reading it throws. *)
Definition getHapticSupport (env : HapticEnv.Platform)
  (isAndroid : option bool) : Js.M t :=
  p ← (if HapticEnv.isIOS env then Js.ret ios
       else match isAndroid with
            | Some true => Js.ret android
            | Some false => Js.ret desktop
            | None => Js.throw (Js.Thrown "navigator is not defined")
            end);
  if HapticEnv.isCapacitor env then
    Js.ret {| supported := true; method := capacitor; platform := p |}
  else if HapticEnv.isVibrationAPISupported env then
    Js.ret {| supported := true; method := vibration; platform := p |}
  else if HapticEnv.isIOS env then
    Js.ret {| supported := true;
              method := if HapticEnv.isCapacitor env then capacitor
                        else ios_haptic;
              platform := p |}
  else
    Js.ret {| supported := false; method := none; platform := p |}.

(** The body is empty. *)
Definition triggerButtonHaptic : Js.M unit := Js.ret tt.

End HapticSupport.


(** ** src/frontend/src/types/websocket.ts: the wire types *)

Module MessageType.
Inductive t :=
| create_session | join_session | vibrate
| partner_connected | partner_disconnected
| session_created | session_joined | error.
End MessageType.

(** [type: "create_session" | "join_session"] of [SessionMessage]. *)
Module SessionType.
Inductive t := create_session | join_session.
End SessionType.

(** The [type] union of [StatusMessage]. *)
Module StatusType.
Inductive t :=
| partner_connected | partner_disconnected
| session_created | session_joined | error.
End StatusType.

Module ConnectionStatus.
Inductive t := connecting | connected | disconnected | error.
End ConnectionStatus.

Module Wire.

(** [WebSocketMessage = VibrateMessage | SessionMessage | StatusMessage];
    each constructor lists the interface's properties after [type]. *)
Inductive WebSocketMessage :=
| VibrateMessage (pattern : float)
| SessionMessage (type : SessionType.t) (session_code : option string)
| StatusMessage (type : StatusType.t) (session_code : option string)
    (message : option string) (user_count : option Z).

Definition sessionTag (t : SessionType.t) : MessageType.t :=
  match t with
  | SessionType.create_session => MessageType.create_session
  | SessionType.join_session => MessageType.join_session
  end.

Definition statusTag (t : StatusType.t) : MessageType.t :=
  match t with
  | StatusType.partner_connected => MessageType.partner_connected
  | StatusType.partner_disconnected => MessageType.partner_disconnected
  | StatusType.session_created => MessageType.session_created
  | StatusType.session_joined => MessageType.session_joined
  | StatusType.error => MessageType.error
  end.

(** The value of a message's [type] property. *)
Definition typeOf (m : WebSocketMessage) : MessageType.t :=
  match m with
  | VibrateMessage _ => MessageType.vibrate
  | SessionMessage t _ => sessionTag t
  | StatusMessage t _ _ _ => statusTag t
  end.

(** The string literal of each member of [MessageType]. *)
Definition tagName (t : MessageType.t) : string :=
  match t with
  | MessageType.create_session => "create_session"
  | MessageType.join_session => "join_session"
  | MessageType.vibrate => "vibrate"
  | MessageType.partner_connected => "partner_connected"
  | MessageType.partner_disconnected => "partner_disconnected"
  | MessageType.session_created => "session_created"
  | MessageType.session_joined => "session_joined"
  | MessageType.error => "error"
  end.

(** The JSON type of a property's value. *)
Inductive JsonType := JsonString | JsonNumber.

(** An optional property is an own property of the object only when set;
    [JSON.stringify] writes the own properties that are not [undefined]. *)
Definition optionalField {A} (name : string) (ty : JsonType) (v : option A)
  : list (string * JsonType) :=
  match v with
  | Some _ => [(name, ty)]
  | None => []
  end.

(** The properties [JSON.stringify(message)] writes, in declaration order. *)
Definition fields (m : WebSocketMessage) : list (string * JsonType) :=
  match m with
  | VibrateMessage _ =>
      [("type", JsonString); ("pattern", JsonNumber)]
  | SessionMessage _ session_code =>
      ("type", JsonString) :: optionalField "session_code" JsonString session_code
  | StatusMessage _ session_code message user_count =>
      ("type", JsonString)
        :: optionalField "session_code" JsonString session_code
        ++ optionalField "message" JsonString message
        ++ optionalField "user_count" JsonNumber user_count
  end.

Definition fieldNames (m : WebSocketMessage) : list string :=
  map fst (fields m).

(** The variant-specific field names, [type] apart. *)
Definition variantFields (m : WebSocketMessage) : list string :=
  tail (fieldNames m).

End Wire.

(** ** JavaScript strings *)

Module JsString.

(** An optional string in a condition: [undefined] and [''] are falsy. *)
Definition truthy (s : option string) : bool :=
  match s with
  | Some s => negb (String.eqb s "")
  | None => false
  end.

(** [haystack.includes(needle)] *)
Fixpoint includes (haystack needle : string) : bool :=
  String.prefix needle haystack ||
  match haystack with
  | EmptyString => false
  | String _ rest => includes rest needle
  end.

(** [s?.includes(needle)] in a condition: [undefined] is falsy. *)
Definition optIncludes (s : option string) (needle : string) : bool :=
  match s with
  | Some s => includes s needle
  | None => false
  end.

(** [\d] *)
Definition isDigit (c : ascii) : bool :=
  (48 <=? nat_of_ascii c)%nat && (nat_of_ascii c <=? 57)%nat.

(** [/^\d{n}$/.test(s)]: exactly [n] digits and then the end of input. *)
Fixpoint testDigits (n : nat) (s : string) : bool :=
  match n, s with
  | O, EmptyString => true
  | S n', String c rest => isDigit c && testDigits n' rest
  | _, _ => false
  end.

(** [s.replace(/\D/g, '')] *)
Fixpoint removeNonDigits (s : string) : string :=
  match s with
  | EmptyString => EmptyString
  | String c rest =>
      if isDigit c then String c (removeNonDigits rest)
      else removeNonDigits rest
  end.

(** [s.slice(0, n)] *)
Definition slice0 (n : nat) (s : string) : string := String.substring 0 n s.

(** [s.endsWith(t)]: [t] is [s] or one of its suffixes. *)
Fixpoint endsWith (s t : string) : bool :=
  String.eqb s t ||
  match s with
  | EmptyString => false
  | String _ rest => endsWith rest t
  end.


End JsString.

(** ** JavaScript numbers *)

Module JsNumber.

(** A number in a condition: [0], [-0] and [NaN] are falsy. *)
Definition truthy (x : float) : bool :=
  negb (PrimFloat.eqb x 0) && PrimFloat.eqb x x.

End JsNumber.


(** ** src/unnamed/part_003: the useWebSocket hook *)

Module UseWebSocket.
Import Wire.

Definition maxReconnectAttempts : nat := 5.
Definition baseReconnectDelay : Z := 1000.

(** The hook's React state and refs, and a log of what it asked of the
    browser: the sockets it opened and the timers it set. *)
Record Hook := {
  connectionStatus : ConnectionStatus.t;
  lastMessage : option WebSocketMessage;
  error : option string;
  (* wsRef.current: the target of the current socket *)
  wsRef : option string;
  (* reconnectTimeoutRef.current: the delay of the last timer set *)
  reconnectTimeoutRef : option Z;
  reconnectAttemptsRef : nat;
  (* every [new WebSocket(url)], oldest first *)
  opened : list string;
  (* every [window.setTimeout(connect, delay)], oldest first *)
  scheduled : list Z
}.

Definition initial : Hook := {|
  connectionStatus := ConnectionStatus.disconnected;
  lastMessage := None;
  error := None;
  wsRef := None;
  reconnectTimeoutRef := None;
  reconnectAttemptsRef := 0%nat;
  opened := [];
  scheduled := []
|}.

(** [connect()], lines 22-80; [ctorOk] tells whether [new WebSocket(url)]
    returns (it throws on a malformed URL). *)
Definition connect (url : option string) (ctorOk : bool) (h : Hook) : Hook :=
  if negb (JsString.truthy url) then h
  else
    let target := default "" url in
    if ctorOk then
      {| connectionStatus := ConnectionStatus.connecting;
         lastMessage := lastMessage h;
         error := None;
         wsRef := Some target;
         reconnectTimeoutRef := reconnectTimeoutRef h;
         reconnectAttemptsRef := reconnectAttemptsRef h;
         opened := opened h ++ [target];
         scheduled := scheduled h |}
    else
      {| connectionStatus := ConnectionStatus.error;
         lastMessage := lastMessage h;
         error := Some "Failed to create WebSocket connection";
         wsRef := wsRef h;
         reconnectTimeoutRef := reconnectTimeoutRef h;
         reconnectAttemptsRef := reconnectAttemptsRef h;
         opened := opened h;
         scheduled := scheduled h |}.

(** [ws.onopen], lines 34-41. *)
Definition onopen (h : Hook) : Hook :=
  {| connectionStatus := ConnectionStatus.connected;
     lastMessage := lastMessage h;
     error := error h;
     wsRef := wsRef h;
     reconnectTimeoutRef := None;
     reconnectAttemptsRef := 0%nat;
     opened := opened h;
     scheduled := scheduled h |}.

(** [ws.onmessage], lines 43-51; [parsed] is [JSON.parse(event.data)],
    [None] when it throws. *)
Definition onmessage (parsed : option WebSocketMessage) (h : Hook) : Hook :=
  match parsed with
  | Some data =>
      {| connectionStatus := connectionStatus h;
         lastMessage := Some data;
         error := error h;
         wsRef := wsRef h;
         reconnectTimeoutRef := reconnectTimeoutRef h;
         reconnectAttemptsRef := reconnectAttemptsRef h;
         opened := opened h;
         scheduled := scheduled h |}
  | None =>
      {| connectionStatus := connectionStatus h;
         lastMessage := lastMessage h;
         error := Some "Failed to parse message";
         wsRef := wsRef h;
         reconnectTimeoutRef := reconnectTimeoutRef h;
         reconnectAttemptsRef := reconnectAttemptsRef h;
         opened := opened h;
         scheduled := scheduled h |}
  end.

(** [ws.onerror], lines 53-57. *)
Definition onerror (h : Hook) : Hook :=
  {| connectionStatus := ConnectionStatus.error;
     lastMessage := lastMessage h;
     error := Some "WebSocket connection error";
     wsRef := wsRef h;
     reconnectTimeoutRef := reconnectTimeoutRef h;
     reconnectAttemptsRef := reconnectAttemptsRef h;
     opened := opened h;
     scheduled := scheduled h |}.

(** [ws.onclose], lines 59-74. *)
Definition onclose (url : option string) (h : Hook) : Hook :=
  if (reconnectAttemptsRef h <? maxReconnectAttempts)%nat && JsString.truthy url
  then
    let delay := baseReconnectDelay * 2 ^ Z.of_nat (reconnectAttemptsRef h) in
    {| connectionStatus := ConnectionStatus.disconnected;
       lastMessage := lastMessage h;
       error := error h;
       wsRef := wsRef h;
       reconnectTimeoutRef := Some delay;
       reconnectAttemptsRef := S (reconnectAttemptsRef h);
       opened := opened h;
       scheduled := scheduled h ++ [delay] |}
  else if (maxReconnectAttempts <=? reconnectAttemptsRef h)%nat then
    {| connectionStatus := ConnectionStatus.error;
       lastMessage := lastMessage h;
       error := Some "Failed to reconnect after multiple attempts";
       wsRef := wsRef h;
       reconnectTimeoutRef := reconnectTimeoutRef h;
       reconnectAttemptsRef := reconnectAttemptsRef h;
       opened := opened h;
       scheduled := scheduled h |}
  else
    {| connectionStatus := ConnectionStatus.disconnected;
       lastMessage := lastMessage h;
       error := error h;
       wsRef := wsRef h;
       reconnectTimeoutRef := reconnectTimeoutRef h;
       reconnectAttemptsRef := reconnectAttemptsRef h;
       opened := opened h;
       scheduled := scheduled h |}.

(** What can happen to the hook while its [url] stays the same. *)
Inductive Event :=
| TimerFires (ctorOk : bool)      (* the pending timer runs [connect()] *)
| SocketOpens
| SocketMessage (parsed : option WebSocketMessage)
| SocketError
| SocketCloses.

Definition step (url : option string) (h : Hook) (e : Event) : Hook :=
  match e with
  | TimerFires ctorOk => connect url ctorOk h
  | SocketOpens => onopen h
  | SocketMessage parsed => onmessage parsed h
  | SocketError => onerror h
  | SocketCloses => onclose url h
  end.

Definition run (url : option string) (h : Hook) (events : list Event) : Hook :=
  fold_left (step url) events h.

(** One reconnection that fails: the timer fires and opens a socket to
    [url], the socket reports an error or not, and it closes without
    having opened. *)
Definition failedRetry (withError : bool) : list Event :=
  TimerFires true :: (if withError then [SocketError] else []) ++ [SocketCloses].

(** An established connection drops, and the retries named by
    [withErrors] (one entry per retry) all fail. *)
Definition dropThenFail (withErrors : list bool) : list Event :=
  SocketCloses :: concat (map failedRetry withErrors).

Definition setError (e : option string) (h : Hook) : Hook :=
  {| connectionStatus := connectionStatus h;
     lastMessage := lastMessage h;
     error := e;
     wsRef := wsRef h;
     reconnectTimeoutRef := reconnectTimeoutRef h;
     reconnectAttemptsRef := reconnectAttemptsRef h;
     opened := opened h;
     scheduled := scheduled h |}.

(** [sendMessage], lines 98-109. [readyStateOpen] is
    [wsRef.current.readyState === WebSocket.OPEN] and [sendOk] tells
    whether [send] returns (it throws otherwise). The result is the new
    state and the object whose [JSON.stringify] went out on the socket,
    if one did. *)
Definition sendMessage (readyStateOpen sendOk : bool)
  (message : WebSocketMessage) (h : Hook) : Hook * option WebSocketMessage :=
  match wsRef h with
  | Some _ =>
      if readyStateOpen then
        if sendOk then (h, Some message)
        else (setError (Some "Failed to send message") h, None)
      else (setError (Some "WebSocket is not connected") h, None)
  | None => (setError (Some "WebSocket is not connected") h, None)
  end.

(** What the cleanup of the effect on [url] does besides changing the
    refs: the timer it cancels and the socket it closes. *)
Record Cleanup := {
  after : Hook;
  clearedTimeout : option Z;
  closedSocket : option string
}.

(** The cleanup the effect on [url] returns, lines 87-95; React runs it
    when [url] changes and when the component unmounts. *)
Definition cleanup (h : Hook) : Cleanup :=
  {| after :=
       {| connectionStatus := connectionStatus h;
          lastMessage := lastMessage h;
          error := error h;
          wsRef := None;
          reconnectTimeoutRef := reconnectTimeoutRef h;
          reconnectAttemptsRef := reconnectAttemptsRef h;
          opened := opened h;
          scheduled := scheduled h |};
     clearedTimeout := reconnectTimeoutRef h;
     closedSocket := wsRef h |}.

(** The effect on [url], lines 82-96, when [url] changes from the one of
    the previous render: the previous cleanup runs, then the body. *)
Definition onUrlChange (url : option string) (ctorOk : bool) (h : Hook)
  : Hook :=
  let h := after (cleanup h) in
  if JsString.truthy url then connect url ctorOk h else h.


End UseWebSocket.

(** ** src/unnamed/part_002: the VibrationControl component *)

Module VibrationControl.

(** [getStatusText], lines 94-113: the text next to the status dot;
    [ConnectionStatus] has no fifth value, so the [default] is not
    reached. *)
Definition getStatusText (connectionStatus : ConnectionStatus.t)
  (partnerConnected : bool) (userCount : Z) : string :=
  match connectionStatus with
  | ConnectionStatus.connected =>
      if partnerConnected then
        if 1 <? userCount then pretty userCount +:+ " Users Connected"
        else "Partner Connected"
      else "Waiting for Others"
  | ConnectionStatus.connecting => "Connecting..."
  | ConnectionStatus.error => "Connection Error"
  | ConnectionStatus.disconnected => "Disconnected"
  end.

(** [getStatusColor], lines 80-92. *)
Definition getStatusColor (connectionStatus : ConnectionStatus.t)
  (userCount : Z) : string :=
  match connectionStatus with
  | ConnectionStatus.connected =>
      if 2 <=? userCount then "bg-green-500" else "bg-yellow-500"
  | ConnectionStatus.connecting => "bg-yellow-500"
  | ConnectionStatus.error | ConnectionStatus.disconnected => "bg-red-500"
  end.

(** One entry of the array the buttons are drawn from, lines 192-197. *)
Record Button := {
  label : string;
  pattern : float;
  description : string
}.

Definition buttons : list Button := [
  {| label := "A"; pattern := 1; description := "1 vibration" |};
  {| label := "B"; pattern := 2; description := "2 vibrations" |};
  {| label := "C"; pattern := 3; description := "3 vibrations" |};
  {| label := "D"; pattern := 4; description := "4 vibrations" |}
].

(** [connectionStatus === 'connected'] *)
Definition isConnected (connectionStatus : ConnectionStatus.t) : bool :=
  match connectionStatus with
  | ConnectionStatus.connected => true
  | _ => false
  end.

(** [disabled={connectionStatus !== 'connected' || userCount < 2}],
    line 201. *)
Definition disabled (connectionStatus : ConnectionStatus.t) (userCount : Z)
  : bool :=
  negb (isConnected connectionStatus) || (userCount <? 2).

(** A pending [setTimeout] of the component and its delay. *)
Inductive Timer :=
| ClearReceivedVibration (ms : Z)
| ClearPressedButton (ms : Z).

(** The component's React state and the timers it has set, oldest
    first. *)
Record State := {
  pressedButton : option float;
  receivedVibration : option float;
  timers : list Timer
}.

Definition initial : State :=
  {| pressedButton := None; receivedVibration := None; timers := [] |}.

(** The effect on [lastMessage], lines 34-56: the new state and the
    argument of the [triggerHaptic] call, if the call is made.
    [indicatorMs] is the time the indicator stays: 2000 in part_002,
    1000 in src/frontend/src/components/VibrationControl.tsx (lines
    32-48). *)
Definition onLastMessage (indicatorMs : Z)
  (lastMessage : option Wire.WebSocketMessage) (st : State)
  : State * option float :=
  match lastMessage with
  | Some (Wire.VibrateMessage pattern) =>
      if JsNumber.truthy pattern then
        ({| pressedButton := pressedButton st;
            receivedVibration := Some pattern;
            timers := timers st ++ [ClearReceivedVibration indicatorMs] |},
         Some pattern)
      else (st, None)
  | _ => (st, None)
  end.

(** [handleButtonClick], lines 58-78: the new state and the argument of
    the [onVibrate] call. *)
Definition handleButtonClick (pattern : float) (st : State) : State * float :=
  ({| pressedButton := Some pattern;
      receivedVibration := receivedVibration st;
      timers := timers st ++ [ClearPressedButton 300] |},
   pattern).

(** A click on the button drawn for [b]; a disabled button has no click. *)
Definition click (b : Button) (connectionStatus : ConnectionStatus.t)
  (userCount : Z) (st : State) : State * option float :=
  if disabled connectionStatus userCount then (st, None)
  else let '(st, p) := handleButtonClick (pattern b) st in (st, Some p).


End VibrationControl.

(** ** src/frontend/src/components/SessionJoin.tsx *)

Module SessionJoin.

Record State := {
  sessionCode : string;
  error : string
}.

Definition initial : State := {| sessionCode := ""; error := "" |}.

(** The input's [onChange], lines 39-43. *)
Definition onChange (value : string) (st : State) : State :=
  let value := JsString.slice0 6 (JsString.removeNonDigits value) in
  {| sessionCode := value; error := "" |}.

(** [handleSubmit], lines 12-23: the new state and the argument of the
    [onJoinSession] call, if the call is made. *)
Definition handleSubmit (st : State) : State * option string :=
  let st := {| sessionCode := sessionCode st; error := "" |} in
  if negb (JsString.testDigits 6 (sessionCode st)) then
    ({| sessionCode := sessionCode st;
        error := "Please enter a valid 6-digit session code" |}, None)
  else
    (st, Some (sessionCode st)).

(** [disabled={sessionCode.length !== 6}] of the submit button, line 62. *)
Definition submitDisabled (st : State) : bool :=
  negb (String.length (sessionCode st) =? 6)%nat.


End SessionJoin.

(** ** src/unnamed/part_001: the App component, current revision *)

Module AppPart001.
Import Wire.

Inductive View := landing | create | join | session.

Definition SESSION_CODE_KEY : string := "buzz_session_code".
Definition SESSION_TYPE_KEY : string := "buzz_session_type".

(** The component's React state, the browser's [localStorage], and the
    texts shown with [alert], oldest first. *)
Record State := {
  view : View;
  sessionCode : string;
  partnerConnected : bool;
  userCount : Z;
  wsUrl : option string;
  localStorage : gmap string string;
  alerts : list string
}.

Definition setView (v : View) (st : State) : State :=
  {| view := v; sessionCode := sessionCode st;
     partnerConnected := partnerConnected st; userCount := userCount st;
     wsUrl := wsUrl st; localStorage := localStorage st; alerts := alerts st |}.

Definition setSessionCode (c : string) (st : State) : State :=
  {| view := view st; sessionCode := c;
     partnerConnected := partnerConnected st; userCount := userCount st;
     wsUrl := wsUrl st; localStorage := localStorage st; alerts := alerts st |}.

Definition setPartnerConnected (b : bool) (st : State) : State :=
  {| view := view st; sessionCode := sessionCode st;
     partnerConnected := b; userCount := userCount st;
     wsUrl := wsUrl st; localStorage := localStorage st; alerts := alerts st |}.

(** [setUserCount(prev => f(prev))]; [setUserCount(n)] is [fun _ => n]. *)
Definition setUserCount (f : Z -> Z) (st : State) : State :=
  {| view := view st; sessionCode := sessionCode st;
     partnerConnected := partnerConnected st; userCount := f (userCount st);
     wsUrl := wsUrl st; localStorage := localStorage st; alerts := alerts st |}.

Definition setWsUrl (u : option string) (st : State) : State :=
  {| view := view st; sessionCode := sessionCode st;
     partnerConnected := partnerConnected st; userCount := userCount st;
     wsUrl := u; localStorage := localStorage st; alerts := alerts st |}.

Definition storageSetItem (k v : string) (st : State) : State :=
  {| view := view st; sessionCode := sessionCode st;
     partnerConnected := partnerConnected st; userCount := userCount st;
     wsUrl := wsUrl st; localStorage := <[k := v]> (localStorage st);
     alerts := alerts st |}.

Definition storageRemoveItem (k : string) (st : State) : State :=
  {| view := view st; sessionCode := sessionCode st;
     partnerConnected := partnerConnected st; userCount := userCount st;
     wsUrl := wsUrl st; localStorage := delete k (localStorage st);
     alerts := alerts st |}.

Definition alert (text : string) (st : State) : State :=
  {| view := view st; sessionCode := sessionCode st;
     partnerConnected := partnerConnected st; userCount := userCount st;
     wsUrl := wsUrl st; localStorage := localStorage st;
     alerts := alerts st ++ [text] |}.

Definition initial (storage : gmap string string) : State := {|
  view := landing;
  sessionCode := default "" (storage !! SESSION_CODE_KEY);
  partnerConnected := false;
  userCount := 1;
  wsUrl := None;
  localStorage := storage;
  alerts := []
|}.

(** The effect on [lastMessage], lines 51-120. *)
Definition onLastMessage (lastMessage : option WebSocketMessage) (st : State)
  : State :=
  match lastMessage with
  | None => st
  | Some (StatusMessage StatusType.session_created session_code _ _) =>
      if JsString.truthy session_code then
        setView session
          (storageSetItem SESSION_TYPE_KEY "created"
             (setPartnerConnected false
                (setUserCount (fun _ => 1)
                   (setSessionCode (default "" session_code) st))))
      else st
  | Some (StatusMessage StatusType.session_joined session_code _ _) =>
      if JsString.truthy session_code then
        setView session
          (storageSetItem SESSION_TYPE_KEY "joined"
             (setSessionCode (default "" session_code) st))
      else st
  | Some (StatusMessage StatusType.partner_connected _ _ user_count) =>
      let st := setPartnerConnected true st in
      match user_count with
      | Some n => setUserCount (fun _ => n) st
      | None =>
          (* Fallback: increment if we don't have user_count *)
          setUserCount (fun prev => Z.min (prev + 1) 5) st
      end
  | Some (StatusMessage StatusType.partner_disconnected _ _ user_count) =>
      match user_count with
      | Some n => setPartnerConnected (1 <? n) (setUserCount (fun _ => n) st)
      | None =>
          (* Fallback: decrement if we don't have user_count *)
          let newCount := Z.max (userCount st - 1) 1 in
          setUserCount (fun _ => newCount)
            (setPartnerConnected (1 <? newCount) st)
      end
  | Some (StatusMessage StatusType.error _ message _) =>
      if JsString.optIncludes message "Session is full" then
        storageRemoveItem SESSION_TYPE_KEY
          (storageRemoveItem SESSION_CODE_KEY
             (setWsUrl None
                (setView landing
                   (alert "Session is full. Maximum 5 users allowed." st))))
      else if JsString.optIncludes message "Session not found" then
        storageRemoveItem SESSION_TYPE_KEY
          (storageRemoveItem SESSION_CODE_KEY
             (setWsUrl None
                (setView landing
                   (alert
                      "Session not found. The session may have expired. Please create or join a new session."
                      st))))
      else st
  | Some (VibrateMessage _) => st
  | Some (SessionMessage _ _) => st
  end.

(** [handleJoinSession], lines 133-142; [wsBaseUrl] is the endpoint of
    lines 30-36, [undefined] ([None]) when none is configured; the test
    [!wsBaseUrl] also holds of the empty string. *)
Definition handleJoinSession (wsBaseUrl : option string) (code : string)
  (st : State) : State :=
  if negb (JsString.truthy wsBaseUrl) then
    alert
      "WebSocket URL is not configured. Please set VITE_WS_URL environment variable in Vercel."
      st
  else
    setWsUrl (Some (default "" wsBaseUrl +:+ "/" +:+ code)) st.

(** [rawWsUrl], line 25: [viteWsUrl] is [import.meta.env.VITE_WS_URL]
    and [dev] is [import.meta.env.DEV]. *)
Definition rawWsUrl (viteWsUrl : option string) (dev : bool) : option string :=
  if JsString.truthy viteWsUrl then viteWsUrl
  else if dev then Some "ws://localhost:8000/ws" else None.

(** [wsBaseUrl], lines 30-36. *)
Definition wsBaseUrl (rawWsUrl : option string) : option string :=
  if JsString.truthy rawWsUrl then
    let raw := default "" rawWsUrl in
    if JsString.endsWith raw "/ws" then Some raw
    else if JsString.endsWith raw "/" then Some (raw +:+ "ws")
    else Some (raw +:+ "/ws")
  else None.

(** The effect on [sessionCode], lines 41-48. *)
Definition sessionCodeEffect (st : State) : State :=
  if JsString.truthy (Some (sessionCode st)) then
    storageSetItem SESSION_CODE_KEY (sessionCode st) st
  else
    storageRemoveItem SESSION_TYPE_KEY (storageRemoveItem SESSION_CODE_KEY st).

(** [handleCreateSession], lines 122-131. *)
Definition handleCreateSession (wsBaseUrl : option string) (st : State)
  : State :=
  if negb (JsString.truthy wsBaseUrl) then
    alert
      "WebSocket URL is not configured. Please set VITE_WS_URL environment variable in Vercel."
      st
  else
    setWsUrl (Some (default "" wsBaseUrl +:+ "/new")) (setView create st).

(** [handleBackToLanding], lines 144-153. *)
Definition handleBackToLanding (st : State) : State :=
  storageRemoveItem SESSION_TYPE_KEY
    (storageRemoveItem SESSION_CODE_KEY
       (setWsUrl None
          (setUserCount (fun _ => 1)
             (setPartnerConnected false
                (setSessionCode "" (setView landing st)))))).

(** [view === 'landing'] *)
Definition isLanding (v : View) : bool :=
  match v with landing => true | _ => false end.

(** The effect on [wsBaseUrl], [wsUrl] and [view], lines 156-169. *)
Definition reconnectEffect (wsBaseUrl : option string) (st : State) : State :=
  let savedSessionCode := localStorage st !! SESSION_CODE_KEY in
  if JsString.truthy savedSessionCode && JsString.truthy wsBaseUrl
     && negb (JsString.truthy (wsUrl st)) && isLanding (view st)
  then
    let saved := default "" savedSessionCode in
    setView session
      (setWsUrl (Some (default "" wsBaseUrl +:+ "/" +:+ saved))
         (setSessionCode saved st))
  else st.

(** [handleVibrate], lines 171-177: the hook's [sendMessage] on the
    message it builds. *)
Definition handleVibrate (readyStateOpen sendOk : bool) (pattern : float)
  (hook : UseWebSocket.Hook)
  : UseWebSocket.Hook * option WebSocketMessage :=
  UseWebSocket.sendMessage readyStateOpen sendOk (VibrateMessage pattern) hook.

(** What the component returns, lines 179-251. *)
Inductive Screen :=
| LandingPage
| SessionJoinForm
| SessionView (sessionCode : string) (connectionStatus : ConnectionStatus.t)
    (partnerConnected : bool) (userCount : Z)
    (lastMessage : option WebSocketMessage)
| CreatingPage (text : string) (error : option string)
| Nothing.

(** [connectionStatus === 'connecting'] *)
Definition isConnecting (connectionStatus : ConnectionStatus.t) : bool :=
  match connectionStatus with
  | ConnectionStatus.connecting => true
  | _ => false
  end.

Definition render (hook : UseWebSocket.Hook) (st : State) : Screen :=
  match view st with
  | landing => LandingPage
  | join => SessionJoinForm
  | session =>
      if JsString.truthy (Some (sessionCode st)) then
        SessionView (sessionCode st) (UseWebSocket.connectionStatus hook)
          (partnerConnected st) (userCount st) (UseWebSocket.lastMessage hook)
      else Nothing
  | create =>
      CreatingPage
        (if isConnecting (UseWebSocket.connectionStatus hook)
         then "Creating session..." else "Connecting...")
        (if JsString.truthy (UseWebSocket.error hook)
         then UseWebSocket.error hook else None)
  end.

(** What can happen to the component while [wsBaseUrl] stays the same:
    its effects run and its handlers are called. *)
Inductive Event :=
| LastMessage (lastMessage : option WebSocketMessage)
| SessionCodeEffect
| ReconnectEffect
| ClickCreateSession
| ClickJoinSession          (* [() => setView('join')], line 198 *)
| JoinSession (code : string)
| BackToLanding.

Definition step (wsBaseUrl : option string) (st : State) (e : Event) : State :=
  match e with
  | LastMessage lastMessage => onLastMessage lastMessage st
  | SessionCodeEffect => sessionCodeEffect st
  | ReconnectEffect => reconnectEffect wsBaseUrl st
  | ClickCreateSession => handleCreateSession wsBaseUrl st
  | ClickJoinSession => setView join st
  | JoinSession code => handleJoinSession wsBaseUrl code st
  | BackToLanding => handleBackToLanding st
  end.

Definition run (wsBaseUrl : option string) (st : State) (events : list Event)
  : State :=
  fold_left (step wsBaseUrl) events st.


End AppPart001.

(** ** src/frontend/src/App.tsx: the App component, earlier revision *)

Module AppTsx.
Import Wire.

Inductive View := landing | create | join | session.

Record State := {
  view : View;
  sessionCode : string;
  partnerConnected : bool;
  wsUrl : option string;
  alerts : list string
}.

Definition setView (v : View) (st : State) : State :=
  {| view := v; sessionCode := sessionCode st;
     partnerConnected := partnerConnected st; wsUrl := wsUrl st;
     alerts := alerts st |}.

Definition setSessionCode (c : string) (st : State) : State :=
  {| view := view st; sessionCode := c;
     partnerConnected := partnerConnected st; wsUrl := wsUrl st;
     alerts := alerts st |}.

Definition setPartnerConnected (b : bool) (st : State) : State :=
  {| view := view st; sessionCode := sessionCode st;
     partnerConnected := b; wsUrl := wsUrl st; alerts := alerts st |}.

Definition setWsUrl (u : option string) (st : State) : State :=
  {| view := view st; sessionCode := sessionCode st;
     partnerConnected := partnerConnected st; wsUrl := u;
     alerts := alerts st |}.

Definition alert (text : string) (st : State) : State :=
  {| view := view st; sessionCode := sessionCode st;
     partnerConnected := partnerConnected st; wsUrl := wsUrl st;
     alerts := alerts st ++ [text] |}.

Definition initial : State := {|
  view := landing;
  sessionCode := "";
  partnerConnected := false;
  wsUrl := None;
  alerts := []
|}.

(** The effect on [lastMessage], lines 22-63. *)
Definition onLastMessage (lastMessage : option WebSocketMessage) (st : State)
  : State :=
  match lastMessage with
  | None => st
  | Some (StatusMessage StatusType.session_created session_code _ _) =>
      if JsString.truthy session_code then
        setView session (setSessionCode (default "" session_code) st)
      else st
  | Some (StatusMessage StatusType.session_joined session_code _ _) =>
      if JsString.truthy session_code then
        setView session (setSessionCode (default "" session_code) st)
      else st
  | Some (StatusMessage StatusType.partner_connected _ _ _) =>
      setPartnerConnected true st
  | Some (StatusMessage StatusType.partner_disconnected _ _ _) =>
      setPartnerConnected false st
  | Some (StatusMessage StatusType.error _ message _) =>
      if JsString.optIncludes message "Session is full" then
        setWsUrl None
          (setView landing
             (alert "Session is full. Maximum 2 users allowed." st))
      else if JsString.optIncludes message "Session not found" then
        setView join
          (alert "Session not found. Please check the session code." st)
      else st
  | Some (VibrateMessage _) => st
  | Some (SessionMessage _ _) => st
  end.

(** [handleJoinSession], lines 72-77. *)
Definition handleJoinSession (wsBaseUrl : string) (code : string) (st : State)
  : State :=
  setWsUrl (Some (wsBaseUrl +:+ "/" +:+ code)) st.

(** [wsBaseUrl], line 17. *)
Definition wsBaseUrl (viteWsUrl : option string) : string :=
  if JsString.truthy viteWsUrl then default "" viteWsUrl
  else "ws://localhost:8000/ws".

(** [handleCreateSession], lines 65-70. *)
Definition handleCreateSession (wsBaseUrl : string) (st : State) : State :=
  setWsUrl (Some (wsBaseUrl +:+ "/new")) (setView create st).

(** [handleBackToLanding], lines 79-84. *)
Definition handleBackToLanding (st : State) : State :=
  setWsUrl None
    (setPartnerConnected false (setSessionCode "" (setView landing st))).


End AppTsx.

(** ** The format of a session code *)

(** One of the ten decimal digits. *)
Definition decimal_digit (c : ascii) : bool :=
  existsb (Ascii.eqb c) (list_ascii_of_string "0123456789").

(** Exactly six characters, each a decimal digit: the strings that match
    [^\d{6}$]. *)
Definition six_digits (s : string) : bool :=
  (String.length s =? 6)%nat && forallb decimal_digit (list_ascii_of_string s).

(** ** The relay core (sections 3 and 4 of the specification)

    The relay is the Python backend ([backend/main.py],
    [backend/session_manager.py]); the repository's sources at hand hold
    the client only, so every definition of this module follows the
    specification's text. Time is in seconds. *)

Module Relay.

(** Modelled from the spec: the Member's [identity], "opaque send-capable
    handle tied to exactly one live connection"; the backend's connection
    objects are missing. *)
Definition Identity := nat.

(** Modelled from the spec: section 3, Member (the backend's session
    records are missing). *)
Record Member := {
  identity : Identity;
  joined_at : Z
}.

(** Modelled from the spec: section 3, Session (the backend's session
    records are missing). *)
Record Session := {
  code : string;
  members : list Member;
  last_activity : Z
}.

(** Modelled from the spec: section 3, the Message table (the backend's
    models are missing). *)
Inductive Message :=
| create_session
| join_session (code : string)
| vibrate (pattern : Z)
| session_created (code : string)
| session_joined (code : string)
| partner_connected (user_count : nat)
| partner_disconnected (user_count : nat)
| error (message : string).

(** Modelled from the spec: section 7, the error taxonomy, with the
    resource exhaustion of section 4.2 (the backend is missing). *)
Inductive Error :=
| SessionNotFound
| SessionFull
| SessionInvalidCode
| InvalidPattern
| InvalidMessage
| ResourceExhausted.

(** Modelled from the spec: section 6, "session capacity (fixed at 5)",
    "idle-session timeout (default 1 hour)", "reaper sweep interval
    (default 5 minutes)" (the backend's configuration is missing). *)
Definition capacity : nat := 5.
Definition idle_timeout : Z := 3600.
Definition sweep_interval : Z := 300.

(** *** 4.1 Code Generator *)

(** Modelled from the spec: one decimal digit of a code (the backend's
    generator is missing). *)
Definition digit_char (d : Z) : ascii :=
  ascii_of_nat (48 + Z.to_nat (d mod 10)).

(** Modelled from the spec: "a 6-digit decimal string (leading zeros
    allowed, so the space is 000000-999999)", here the string of one draw
    of the random source (the backend's generator is missing). *)
Definition code_of (draw : Z) : string :=
  let n := draw mod 1000000 in
  string_of_list_ascii
    (map (fun k => digit_char (n / 10 ^ k)) [5; 4; 3; 2; 1; 0]).

(** Modelled from the spec: [generate() -> code], "re-sampled until it
    does not collide with any code currently present in the Registry";
    [draws] is what the random source yields, in order, and the result is
    [None] when they all collide (the backend's generator is missing). *)
Fixpoint generate (draws : list Z) (registry : gmap string Session)
  : option string :=
  match draws with
  | [] => None
  | d :: rest =>
      match registry !! code_of d with
      | None => Some (code_of d)
      | Some _ => generate rest registry
      end
  end.

(** *** 4.2 Session Registry *)

(** Modelled from the spec: [create() -> Session], "generates a fresh
    code via 4.1, inserts an empty Session keyed by that code, returns
    it" (the backend's session manager is missing). *)
Definition create (now : Z) (draws : list Z) (registry : gmap string Session)
  : option (Session * gmap string Session) :=
  c ← generate draws registry;
  let s := {| code := c; members := []; last_activity := now |} in
  Some (s, <[c := s]> registry).

(** Modelled from the spec: [lookup(code) -> Session | NotFound] (the
    backend's session manager is missing). *)
Definition lookup (c : string) (registry : gmap string Session)
  : Session + Error :=
  match registry !! c with
  | Some s => inl s
  | None => inr SessionNotFound
  end.

(** Modelled from the spec: [delete(code)], "removes entry; idempotent"
    (the backend's session manager is missing). *)
Definition delete_session (c : string) (registry : gmap string Session)
  : gmap string Session :=
  delete c registry.

(** *** 4.3 Session: join, leave, broadcast *)

(** Modelled from the spec: one message handed to one member's
    connection, "fire-and-forget per recipient" (the backend's sends are
    missing). *)
Record Delivery := {
  recipient : Identity;
  payload : Message
}.

(** Modelled from the spec: a broadcast as it starts, "the instant of
    emission": the message, and the Session as it is at that instant (the
    backend's session manager is missing). *)
Record Emission := {
  message : Message;
  at_session : Session
}.

(** Modelled from the spec: what an operation on a Session leaves: the
    Session, the members the operation's own payload was delivered to
    (in order), every delivery made on the way (the notices of implicit
    leaves included), and every broadcast started on the way, oldest
    first (the backend's session manager is missing). *)
Record Outcome := {
  session : Session;
  recipients : list Identity;
  log : list Delivery;
  emitted : list Emission
}.

(** Modelled from the spec: the outcome of a no-op (the backend's
    session manager is missing). *)
Definition silent (s : Session) : Outcome :=
  {| session := s; recipients := []; log := []; emitted := [] |}.

(** Modelled from the spec: the identities of the members, in join
    order (the backend's session records are missing). *)
Definition identities (s : Session) : list Identity :=
  identity <$> members s.

(** Modelled from the spec: "updates last_activity" (the backend's
    session manager is missing). *)
Definition touch (now : Z) (s : Session) : Session :=
  {| code := code s; members := members s; last_activity := now |}.

(** Modelled from the spec: "removes the Member" (the backend's session
    manager is missing). *)
Definition without (id : Identity) (s : Session) : Session :=
  {| code := code s;
     members := filter (fun m => identity m ≠ id) (members s);
     last_activity := last_activity s |}.

(** Modelled from the spec: "appends the Member, updates
    last_activity" (the backend's session manager is missing). *)
Definition enroll (now : Z) (id : Identity) (s : Session) : Session :=
  {| code := code s;
     members := members s ++ [{| identity := id; joined_at := now |}];
     last_activity := now |}.

(** Modelled from the spec: [partner_connected{user_count=|members|}]
    (the backend's session manager is missing). *)
Definition connected_notice (s : Session) : Message :=
  partner_connected (length (members s)).

(** Modelled from the spec: [partner_disconnected{user_count=|members|}]
    (the backend's session manager is missing). *)
Definition disconnected_notice (s : Session) : Message :=
  partner_disconnected (length (members s)).

Section Transport.

(** Modelled from the spec: whether a delivery to a member succeeds,
    that is, whether its connection is open (the backend's sockets are
    missing). *)
Variable alive : Identity -> bool.

(** Modelled from the spec: [leave(identity)], "removes the Member if
    present (no-op otherwise ...), updates last_activity, and broadcasts
    partner_disconnected{user_count=|members|} to the remaining
    members"; [bc] is the broadcast that carries the notice (the
    backend's session manager is missing). *)
Definition leave_with
  (bc : Identity -> Message -> Session -> option Outcome)
  (now : Z) (id : Identity) (s : Session) : option Outcome :=
  if bool_decide (id ∈ identities s) then
    let s1 := touch now (without id s) in
    bc id (disconnected_notice s1) s1
  else Some (silent s).

(** Modelled from the spec: the fan-out of [broadcast], "Delivery to an
    individual member that fails (connection already dead) is treated as
    an implicit leave for that member, processed before continuing the
    fan-out to the rest" (the backend's session manager is missing). *)
Fixpoint fan_out
  (leave : Identity -> Session -> option Outcome)
  (msg : Message) (targets : list Identity) (acc : Outcome)
  : option Outcome :=
  match targets with
  | [] => Some acc
  | r :: rest =>
      if alive r then
        fan_out leave msg rest
          {| session := session acc;
             recipients := recipients acc ++ [r];
             log := log acc ++ [{| recipient := r; payload := msg |}];
             emitted := emitted acc |}
      else
        gone ← leave r (session acc);
        fan_out leave msg rest
          {| session := session gone;
             recipients := recipients acc;
             log := log acc ++ log gone;
             emitted := emitted acc ++ emitted gone |}
  end.

(** Modelled from the spec: [broadcast(sender_identity, payload)],
    "delivers payload to every member except sender_identity; updates
    last_activity; never delivers back to the sender". An implicit leave
    broadcasts in turn; [fuel] bounds that nesting, and [None] means it
    ran out (the backend's session manager is missing). *)
Fixpoint broadcast_fuel (fuel : nat) (now : Z) (sender : Identity)
  (msg : Message) (s : Session) : option Outcome :=
  match fuel with
  | O => None
  | S fuel' =>
      fan_out (leave_with (broadcast_fuel fuel' now) now) msg
        (filter (fun r => r ≠ sender) (identities s))
        {| session := touch now s; recipients := []; log := [];
           emitted := [{| message := msg; at_session := touch now s |}] |}
  end.

(** Modelled from the spec: [broadcast], with the fuel it needs: each
    nested leave removes a member, so one more than the number of members
    is enough ([broadcast_fuel_enough] below) (the backend's session
    manager is missing). *)
Definition broadcast (now : Z) (sender : Identity) (msg : Message)
  (s : Session) : Outcome :=
  default (silent (touch now s))
    (broadcast_fuel (S (length (members s))) now sender msg s).

(** Modelled from the spec: [leave(identity)] as a closing connection
    runs it (the backend's session manager is missing). *)
Definition leave (now : Z) (id : Identity) (s : Session) : Outcome :=
  default (silent s)
    (leave_with (fun sender msg s1 => Some (broadcast now sender msg s1))
       now id s).

(** Modelled from the spec: [Ok | Full], the results of a join (the
    backend's session manager is missing). *)
Inductive JoinResult :=
| Joined (out : Outcome)
| Full.

(** Modelled from the spec: [join(identity) -> Ok | Full], "fails with
    SessionFull when |members| == 5; otherwise appends the Member,
    updates last_activity, and as a side effect enqueues a
    partner_connected{user_count=|members|} broadcast to every other
    current member" (the backend's session manager is missing). *)
Definition join (now : Z) (id : Identity) (s : Session) : JoinResult :=
  if bool_decide (length (members s) = capacity) then Full
  else
    let s1 := enroll now id s in
    Joined (broadcast now id (connected_notice s1) s1).

(** *** 4.5 Connection Handler *)

(** Modelled from the spec: the states of section 4.5, "CONNECTING ->
    {AWAITING_TARGET} -> JOINED -> CLOSED" (the backend's endpoint is
    missing). *)
Inductive ConnState :=
| CONNECTING
| AWAITING_TARGET
| JOINED (c : string)
| CLOSED.

(** Modelled from the spec: what handling one event of a connection
    leaves: the Registry, the connection's state, the deliveries made,
    and the failure reported, if any (the backend's endpoint is
    missing). *)
Record Reply := {
  registry : gmap string Session;
  state : ConnState;
  outbox : list Delivery;
  failure : option Error
}.

(** Modelled from the spec: a message emitted to one connection (the
    backend's sends are missing). *)
Definition to (id : Identity) (m : Message) : Delivery :=
  {| recipient := id; payload := m |}.

(** Modelled from the spec: the opening request of section 4.5, target
    "new" or a 6-digit code. The creator of a Session is its first member
    (scenario 2 of section 8 counts it: the second connection's join is
    announced as [user_count:2]) (the backend's endpoint is missing). *)
Definition open_connection (now : Z) (draws : list Z) (id : Identity)
  (target : string) (reg : gmap string Session) : Reply :=
  if String.eqb target "new" then
    match create now draws reg with
    | None =>
        {| registry := reg; state := CLOSED; outbox := [];
           failure := Some ResourceExhausted |}
    | Some (s, reg1) =>
        match join now id s with
        | Full =>
            {| registry := reg1; state := CLOSED;
               outbox := [to id (error "Session is full")];
               failure := Some SessionFull |}
        | Joined out =>
            {| registry := <[code s := session out]> reg1;
               state := JOINED (code s);
               outbox := to id (session_created (code s)) :: log out;
               failure := None |}
        end
    end
  else if negb (six_digits target) then
    {| registry := reg; state := CLOSED; outbox := [];
       failure := Some SessionInvalidCode |}
  else
    match lookup target reg with
    | inr e =>
        {| registry := reg; state := CLOSED;
           outbox := [to id (error "Session not found")];
           failure := Some e |}
    | inl s =>
        match join now id s with
        | Full =>
            {| registry := reg; state := CLOSED;
               outbox := [to id (error "Session is full")];
               failure := Some SessionFull |}
        | Joined out =>
            {| registry := <[target := session out]> reg;
               state := JOINED target;
               outbox := to id (session_joined target) :: log out;
               failure := None |}
        end
    end.

(** Modelled from the spec: "While JOINED: accepts inbound
    vibrate{pattern} messages (pattern outside 1-4 is rejected with a
    local error, connection stays open) and forwards them to
    Session.broadcast. Accepts no other inbound message types" (the
    backend's endpoint is missing). *)
Definition receive (now : Z) (id : Identity) (c : string) (m : Message)
  (reg : gmap string Session) : Reply :=
  match m with
  | vibrate pattern =>
      if (1 <=? pattern) && (pattern <=? 4) then
        match reg !! c with
        | Some s =>
            let out := broadcast now id (vibrate pattern) s in
            {| registry := <[c := session out]> reg; state := JOINED c;
               outbox := log out; failure := None |}
        | None =>
            {| registry := reg; state := JOINED c; outbox := [];
               failure := Some SessionNotFound |}
        end
      else
        {| registry := reg; state := JOINED c;
           outbox := [to id (error "Invalid pattern")];
           failure := Some InvalidPattern |}
  | _ =>
      {| registry := reg; state := JOINED c;
         outbox := [to id (error "Invalid message")];
         failure := Some InvalidMessage |}
  end.

(** Modelled from the spec: "On transition to CLOSED from JOINED ...:
    calls Session.leave" (the backend's endpoint is missing). *)
Definition close_connection (now : Z) (id : Identity) (c : string)
  (reg : gmap string Session) : Reply :=
  match reg !! c with
  | Some s =>
      let out := leave now id s in
      {| registry := <[c := session out]> reg; state := CLOSED;
         outbox := log out; failure := None |}
  | None =>
      {| registry := reg; state := CLOSED; outbox := []; failure := None |}
  end.

(** Modelled from the spec: the operations of section 4.3, as the
    single writer of a Session takes them from its "ordered queue of
    operations" (the backend's session manager is missing). *)
Inductive Op :=
| OpJoin (id : Identity)
| OpLeave (id : Identity)
| OpBroadcast (sender : Identity) (msg : Message).

(** Modelled from the spec: the Session an operation leaves; a refused
    join leaves it as it was (the backend's session manager is
    missing). *)
Definition perform (now : Z) (op : Op) (s : Session) : Session :=
  match op with
  | OpJoin id =>
      match join now id s with
      | Joined out => session out
      | Full => s
      end
  | OpLeave id => session (leave now id s)
  | OpBroadcast sender msg => session (broadcast now sender msg s)
  end.

End Transport.

(** Modelled from the spec: a Session's history, "within one Session,
    joins/leaves/broadcasts are totally ordered": each operation with its
    instant and with the state of the connections at that instant (the
    backend's session manager is missing). *)
Definition history (s : Session)
  (ops : list ((Identity -> bool) * Z * Op)) : Session :=
  fold_left (fun s '(alive, now, op) => perform alive now op s) ops s.

(** *** 4.4 Idle Reaper *)

(** Modelled from the spec: "in ACTIVE-EMPTY state" and "now -
    last_activity >= 1 hour" (the backend's cleanup task is missing). *)
Definition reclaimable (now : Z) (s : Session) : Prop :=
  members s = [] ∧ idle_timeout ≤ now - last_activity s.

#[global] Instance reclaimable_dec now s : Decision (reclaimable now s).
Proof. unfold reclaimable. apply _. Defined.

(** Modelled from the spec: one sweep of the Reaper, "For every Session
    in ACTIVE-EMPTY state whose now - last_activity >= 1 hour, deletes it
    from the Registry" (the backend's cleanup task is missing). *)
Definition sweep (now : Z) (registry : gmap string Session)
  : gmap string Session :=
  filter (fun kv => ¬ reclaimable now kv.2) registry.

(** Modelled from the spec: the instants of the sweeps in the interval
    from [t0] (excluded) to [t1] (included), "Runs on a fixed period (5
    minutes)", here at the multiples of the period (the backend's cleanup
    task is missing). *)
Definition sweep_times (t0 t1 : Z) : list Z :=
  (fun k => k * sweep_interval) <$>
    seqZ (t0 / sweep_interval + 1)
         (t1 / sweep_interval - t0 / sweep_interval).

(** Modelled from the spec: the Reaper at work from [t0] to [t1] with no
    other event in between (the backend's cleanup task is missing). *)
Definition reaper (t0 t1 : Z) (registry : gmap string Session)
  : gmap string Session :=
  fold_left (fun reg t => sweep t reg) (sweep_times t0 t1) registry.

End Relay.

(** ** Reference values the properties compare the code with *)

(** [n] pulses of 200 ms separated by pauses of 100 ms, as a vibration
    pattern array. *)
Fixpoint pulses (n : nat) : list float :=
  match n with
  | O => []
  | S O => [200]%float
  | S m => (200 :: 100 :: pulses m)%float
  end.

(** The delay before retry [i] (counted from 0): one second, doubled
    [i] times. *)
Definition backoff (i : nat) : Z := 1000 * 2 ^ Z.of_nat i.

(** The Message table of the specification (section 3), with the wire
    names of section 6 ([code] travels as [session_code]): the fields the
    specification gives each variant. *)
Definition tableFields (t : MessageType.t) : list string :=
  match t with
  | MessageType.create_session => []
  | MessageType.join_session => ["session_code"]
  | MessageType.vibrate => ["pattern"]
  | MessageType.session_created => ["session_code"]
  | MessageType.session_joined => ["session_code"]
  | MessageType.partner_connected => ["user_count"]
  | MessageType.partner_disconnected => ["user_count"]
  | MessageType.error => ["message"]
  end.

(** The relay's refusal of a join to a full Session, as the client
    receives it: [{"type": "error", "message": "Session is full"}]. *)
Definition session_full_error : Wire.WebSocketMessage :=
  Wire.StatusMessage StatusType.error None (Some "Session is full") None.

(** [<SessionJoin onJoinSession={handleJoinSession} />] of the App
    (part_001, lines 210-216): submitting the form with the App in state
    [app]. *)
Definition submitJoin (wsBaseUrl : option string) (form : SessionJoin.State)
  (app : AppPart001.State) : SessionJoin.State * AppPart001.State :=
  match SessionJoin.handleSubmit form with
  | (form', Some c) => (form', AppPart001.handleJoinSession wsBaseUrl c app)
  | (form', None) => (form', app)
  end.

(** [count] impacts of one style with a pause of [pause] ms between two
    of them: what the loop over [Haptics.impact] does when no impact is
    rejected. *)
Fixpoint impacts (style : Js.ImpactStyle) (pause : Z) (count : nat)
  : list Js.Effect :=
  match count with
  | O => []
  | S O => [Js.HapticsImpact style]
  | S m => Js.HapticsImpact style :: Js.Sleep pause :: impacts style pause m
  end.

(** [k] impacts, each followed by its pause: the loop up to an impact
    that is not the last. *)
Fixpoint impactsThenPause (style : Js.ImpactStyle) (pause : Z) (k : nat)
  : list Js.Effect :=
  match k with
  | O => []
  | S m =>
      Js.HapticsImpact style :: Js.Sleep pause :: impactsThenPause style pause m
  end.

(** The effects that reach the device: impacts, the pauses between them
    and calls of [navigator.vibrate]; the console and the module's flag
    do not. *)
Definition onDevice (e : Js.Effect) : bool :=
  match e with
  | Js.HapticsImpact _ | Js.Sleep _ | Js.NavigatorVibrate _ => true
  | _ => false
  end.

Definition deviceCalls (tr : list Js.Effect) : list Js.Effect :=
  List.filter onDevice tr.

Definition isVibrate (e : Js.Effect) : bool :=
  match e with
  | Js.NavigatorVibrate _ => true
  | _ => false
  end.

(** How many times a run called [navigator.vibrate]. *)
Definition vibrateCalls (tr : list Js.Effect) : nat :=
  length (List.filter isVibrate tr).

(** A device on which [/Android/.test(navigator.userAgent)] can be
    evaluated. *)
Definition supportOf (env : HapticEnv.Platform) (isAndroid : bool)
  : Js.M HapticSupport.t :=
  HapticSupport.getHapticSupport env (Some isAndroid).

(** [<VibrationControl onVibrate={handleVibrate} ... />] of the App
    (part_001, lines 220-232): a click on the button drawn for [b], with
    the App in state [app] and the hook in state [hook]. The result is
    the state of the view, the state of the hook and the message that
    went out, if one did. *)
Definition pressButton (b : VibrationControl.Button)
  (readyStateOpen sendOk : bool) (app : AppPart001.State)
  (hook : UseWebSocket.Hook) (vc : VibrationControl.State)
  : VibrationControl.State * UseWebSocket.Hook * option Wire.WebSocketMessage :=
  match VibrationControl.click b (UseWebSocket.connectionStatus hook)
          (AppPart001.userCount app) vc with
  | (vc', Some p) =>
      let '(hook', sent) :=
        AppPart001.handleVibrate readyStateOpen sendOk p hook in
      (vc', hook', sent)
  | (vc', None) => (vc', hook, None)
  end.

(** The session view of a client whose hook delivers [lastMessage]: the
    new state of the view and what [triggerHaptic] does on the device
    [env]; [trigger] is the revision of [triggerHaptic] in use. *)
Definition receive
  (trigger : HapticEnv.Platform -> float + list float -> Js.M unit)
  (env : HapticEnv.Platform) (indicatorMs : Z)
  (lastMessage : option Wire.WebSocketMessage) (vc : VibrationControl.State)
  : VibrationControl.State * Js.M unit :=
  match VibrationControl.onLastMessage indicatorMs lastMessage vc with
  | (vc', Some p) => (vc', trigger env (inl p))
  | (vc', None) => (vc', Js.ret tt)
  end.

(** The text the button array gives a count of vibrations. *)
Definition describeCount (n : nat) : string :=
  pretty n +:+ (if (n =? 1)%nat then " vibration" else " vibrations").

(** The views of the earlier App among those of the current one. *)
Definition currentView (v : AppTsx.View) : AppPart001.View :=
  match v with
  | AppTsx.landing => AppPart001.landing
  | AppTsx.create => AppPart001.create
  | AppTsx.join => AppPart001.join
  | AppTsx.session => AppPart001.session
  end.

(** The two Apps show the same view of the same session over the same
    socket target. *)
Definition sameScreen (old : AppTsx.State) (cur : AppPart001.State) : Prop :=
  currentView (AppTsx.view old) = AppPart001.view cur /\
  AppTsx.sessionCode old = AppPart001.sessionCode cur /\
  AppTsx.wsUrl old = AppPart001.wsUrl cur.

(** An [error] whose text names a missing Session and not a full one:
    the one message on which the two Apps part. *)
Definition isNotFoundError (m : option Wire.WebSocketMessage) : bool :=
  match m with
  | Some (Wire.StatusMessage StatusType.error _ message _) =>
      negb (JsString.optIncludes message "Session is full") &&
      JsString.optIncludes message "Session not found"
  | _ => false
  end.

(** The [user_count] of a membership notice handed to the App is, when
    present, between 1 and 5. *)
Definition countInRange (e : AppPart001.Event) : Prop :=
  match e with
  | AppPart001.LastMessage
      (Some (Wire.StatusMessage StatusType.partner_connected _ _ (Some n)))
  | AppPart001.LastMessage
      (Some (Wire.StatusMessage StatusType.partner_disconnected _ _ (Some n))) =>
      1 <= n <= 5
  | _ => True
  end.

Definition isSocketCloses (e : UseWebSocket.Event) : bool :=
  match e with
  | UseWebSocket.SocketCloses => true
  | _ => false
  end.

(** The delays of the reconnection timers. *)
Definition backoffDelays : list Z := [1000; 2000; 4000; 8000; 16000].


(** What every run keeps true of the hook given [url]. *)
Definition hookInv (url : option string) (h : UseWebSocket.Hook) : Prop :=
  (UseWebSocket.reconnectAttemptsRef h <= 5)%nat /\
  Forall (fun d => d ∈ backoffDelays) (UseWebSocket.scheduled h) /\
  Forall (fun target => url = Some target) (UseWebSocket.opened h).

(** Two states of the App that differ at most in what [localStorage]
    holds under [buzz_session_type]. *)
Definition sameButSessionType (a b : AppPart001.State) : Prop :=
  AppPart001.view a = AppPart001.view b /\
  AppPart001.sessionCode a = AppPart001.sessionCode b /\
  AppPart001.partnerConnected a = AppPart001.partnerConnected b /\
  AppPart001.userCount a = AppPart001.userCount b /\
  AppPart001.wsUrl a = AppPart001.wsUrl b /\
  AppPart001.alerts a = AppPart001.alerts b /\
  delete AppPart001.SESSION_TYPE_KEY (AppPart001.localStorage a) =
    delete AppPart001.SESSION_TYPE_KEY (AppPart001.localStorage b).

(** An [error] message on which the App gives the session up: its text
    names a full or a missing session. *)
Definition isRefusal (e : AppPart001.Event) : bool :=
  match e with
  | AppPart001.LastMessage
      (Some (Wire.StatusMessage StatusType.error _ message _)) =>
      JsString.optIncludes message "Session is full"
      || JsString.optIncludes message "Session not found"
  | _ => false
  end.

(** The texts of the App's [alert] calls. *)
Definition alertTexts : list string := [
  "Session is full. Maximum 5 users allowed.";
  "Session not found. The session may have expired. Please create or join a new session.";
  "WebSocket URL is not configured. Please set VITE_WS_URL environment variable in Vercel."
].


(** ** What the operations of a Session guarantee *)

(** A [partner_disconnected] notice. *)
Definition is_disconnect (m : Relay.Message) : Prop :=
  exists n, m = Relay.partner_disconnected n.

(** The count a membership notice carries is the number of members of
    the Session at the instant the notice is broadcast. *)
Definition count_is_current (e : Relay.Emission) : Prop :=
  match Relay.message e with
  | Relay.partner_connected n | Relay.partner_disconnected n =>
      n = length (Relay.members (Relay.at_session e))
  | _ => True
  end.

(** What a leave, explicit or implicit, guarantees. *)
Record leave_ok (now : Z) (s : Relay.Session) (gone : Relay.Outcome)
  : Prop := {
  leave_code : Relay.code (Relay.session gone) = Relay.code s;
  leave_members :
    Relay.members (Relay.session gone) `sublist_of` Relay.members s;
  leave_activity :
    Relay.last_activity (Relay.session gone) = now \/
    Relay.last_activity (Relay.session gone) = Relay.last_activity s;
  leave_log :
    Forall (fun d => is_disconnect (Relay.payload d)) (Relay.log gone);
  leave_emitted :
    Forall (fun e => is_disconnect (Relay.message e) /\ count_is_current e)
      (Relay.emitted gone)
}.

(** What a broadcast guarantees. *)
Record broadcast_ok (alive : Relay.Identity -> bool) (now : Z)
  (sender : Relay.Identity) (msg : Relay.Message)
  (s : Relay.Session) (out : Relay.Outcome) : Prop := {
  bc_code : Relay.code (Relay.session out) = Relay.code s;
  bc_members :
    Relay.members (Relay.session out) `sublist_of` Relay.members s;
  bc_activity : Relay.last_activity (Relay.session out) = now;
  bc_recipients :
    Relay.recipients out =
      filter (fun r => alive r = true)
        (filter (fun r => r ≠ sender) (Relay.identities s));
  bc_log :
    Forall (fun d => Relay.payload d = msg \/ is_disconnect (Relay.payload d))
      (Relay.log out);
  bc_emitted :
    exists nested,
      Relay.emitted out =
        {| Relay.message := msg; Relay.at_session := Relay.touch now s |}
          :: nested /\
      Forall (fun e => is_disconnect (Relay.message e) /\ count_is_current e)
        nested
}.

(* ===================================================================== *)
(** * Part II. Properties                                                 *)
(* ===================================================================== *)

(** Proves that a list of distinct literals is a sublist of another. *)
Ltac sublist_of_literal :=
  repeat first [apply sublist_nil | apply sublist_skip | apply sublist_cons].

(** ** The haptic utility *)

Section JsMonad.
Context {A B : Type}.

Lemma resolved_ret (a : A) : Js.resolved (Js.ret a) = true.
Proof. reflexivity. Qed.

Lemma resolved_emit e : Js.resolved (Js.emit e) = true.
Proof. reflexivity. Qed.

Lemma resolved_bind (m : Js.M A) (k : A -> Js.M B) :
  Js.resolved m = true ->
  (forall a, Js.resolved (k a) = true) ->
  Js.resolved (m ≫= k) = true.
Proof.
  unfold mbind, js_bind, Js.bind, Js.resolved.
  destruct m as [tr [e | a]]; simpl; [discriminate |].
  intros _ Hk. specialize (Hk a). destruct (k a) as [tr' r]. exact Hk.
Qed.

(** A [try] whose handler cannot throw cannot throw. *)
Lemma resolved_try_catch (body : Js.M A) (handler : Js.Exn -> Js.M A) :
  (forall e, Js.resolved (handler e) = true) ->
  Js.resolved (Js.try_catch body handler) = true.
Proof.
  unfold Js.try_catch, Js.resolved.
  destruct body as [tr [e | a]]; simpl; [| reflexivity].
  intros Hh. specialize (Hh e). destruct (handler e) as [tr' r]. exact Hh.
Qed.

End JsMonad.

Lemma capacitorBranch_resolved env arr n :
  Js.resolved (Haptic1.capacitorBranch env arr n) = true.
Proof.
  unfold Haptic1.capacitorBranch.
  destruct (HapticEnv.isCapacitor env); [| reflexivity].
  apply resolved_try_catch. intros e. reflexivity.
Qed.

Lemma vibrationBranch_resolved env arr :
  Js.resolved (Haptic1.vibrationBranch env arr) = true.
Proof.
  unfold Haptic1.vibrationBranch.
  destruct (HapticEnv.isVibrationAPISupported env); [| reflexivity].
  apply resolved_try_catch. intros e. reflexivity.
Qed.

(** On every device and for every argument, number or array, the promise
    of the first revision resolves. *)
Lemma triggerHaptic_resolved env pattern :
  Js.resolved (Haptic1.triggerHaptic env pattern) = true.
Proof.
  unfold Haptic1.triggerHaptic.
  destruct (Haptic1.decode pattern) as [arr n].
  apply resolved_bind; [apply capacitorBranch_resolved |].
  intros [|]; [| reflexivity].
  apply resolved_bind; [apply vibrationBranch_resolved |].
  intros [|]; [| reflexivity].
  destruct (HapticEnv.isIOS env && negb (HapticEnv.isCapacitor env));
    reflexivity.
Qed.

(** So does the promise of the second revision. *)
Lemma triggerHaptic2_resolved env pattern :
  Js.resolved (Haptic2.triggerHaptic env pattern) = true.
Proof.
  unfold Haptic2.triggerHaptic.
  destruct (Haptic2.decode pattern) as [arr n].
  apply resolved_bind.
  { unfold Haptic2.capacitorBranch.
    destruct (HapticEnv.isCapacitor env); [| reflexivity].
    apply resolved_try_catch. intros e. reflexivity. }
  intros [|]; [| reflexivity].
  apply resolved_bind.
  { unfold Haptic2.vibrationBranch.
    destruct (HapticEnv.isVibrationAPISupported env); [| reflexivity].
    apply resolved_try_catch. intros e. reflexivity. }
  intros [|]; [| reflexivity].
  apply resolved_bind; [| reflexivity].
  unfold Haptic2.iosBranch.
  destruct (HapticEnv.isIOS env && negb (HapticEnv.isCapacitor env));
    [| reflexivity].
  apply resolved_bind; [| reflexivity].
  destruct (HapticEnv.isVibrationAPISupported env); [| reflexivity].
  apply resolved_try_catch. intros e. reflexivity.
Qed.

(** The [switch] of the first revision, case by case. *)
Lemma patternArrayOf_cases (p : float) :
  (PrimFloat.eqb p 1 = true /\ Haptic1.patternArrayOf p = pulses 1) \/
  (PrimFloat.eqb p 2 = true /\ Haptic1.patternArrayOf p = pulses 2) \/
  (PrimFloat.eqb p 3 = true /\ Haptic1.patternArrayOf p = pulses 3) \/
  (PrimFloat.eqb p 4 = true /\ Haptic1.patternArrayOf p = pulses 4) \/
  (PrimFloat.eqb p 1 = false /\ PrimFloat.eqb p 2 = false /\
   PrimFloat.eqb p 3 = false /\ PrimFloat.eqb p 4 = false /\
   Haptic1.patternArrayOf p = [200]%float).
Proof.
  unfold Haptic1.patternArrayOf.
  destruct (PrimFloat.eqb p 1); [left; split; reflexivity | right].
  destruct (PrimFloat.eqb p 2); [left; split; reflexivity | right].
  destruct (PrimFloat.eqb p 3); [left; split; reflexivity | right].
  destruct (PrimFloat.eqb p 4); [left; split; reflexivity | right].
  repeat split; reflexivity.
Qed.

Example pulses_table :
  pulses 1 = [200]%float /\
  pulses 2 = [200; 100; 200]%float /\
  pulses 3 = [200; 100; 200; 100; 200]%float /\
  pulses 4 = [200; 100; 200; 100; 200; 100; 200]%float.
Proof. repeat split; reflexivity. Qed.

(** The two revisions differ only at pattern 5. *)
Lemma revisions_agree_off_5 (p : float) :
  PrimFloat.eqb p 5 = false ->
  Haptic1.patternArrayOf p = Haptic2.patternArrayOf p.
Proof.
  intros H5. unfold Haptic1.patternArrayOf, Haptic2.patternArrayOf.
  rewrite H5. reflexivity.
Qed.

(** Through Capacitor the first revision fires one impact per pulse. *)
Example vibration_count_of_pulses :
  HapticEnv.getVibrationCount <$> (pulses <$> [1; 2; 3; 4]%nat) =
    [1; 2; 3; 4]%nat.
Proof. reflexivity. Qed.

Example revisions_differ_at_5 :
  Haptic1.patternArrayOf 5 = [200]%float /\
  Haptic2.patternArrayOf 5 = [5000]%float.
Proof. split; reflexivity. Qed.

(** On a device with the Vibration API and no Capacitor, the array that
    was selected is the one handed to [navigator.vibrate]. *)
Lemma triggerHaptic_vibrates env (p : float) b :
  HapticEnv.isCapacitor env = false ->
  HapticEnv.isVibrationAPISupported env = true ->
  HapticEnv.vibrate env 0%nat (Haptic1.patternArrayOf p) = Some b ->
  Haptic1.triggerHaptic env (inl p) =
    ([Js.NavigatorVibrate (Haptic1.patternArrayOf p)], inr tt).
Proof.
  intros Hc Hv Hb.
  unfold Haptic1.triggerHaptic, Haptic1.decode, Haptic1.capacitorBranch,
    Haptic1.vibrationBranch, HapticEnv.navigatorVibrate.
  rewrite Hc, Hv. cbn. rewrite Hb. reflexivity.
Qed.

(** On a device that is not an iPhone, has the Vibration API and no
    Capacitor, the second revision hands [navigator.vibrate] the array it
    selected, and logs the call. *)
Lemma triggerHaptic2_vibrates env (p : float) b :
  HapticEnv.isCapacitor env = false ->
  HapticEnv.isVibrationAPISupported env = true ->
  HapticEnv.isIOS env = false ->
  HapticEnv.vibrate env 0%nat (Haptic2.patternArrayOf p) = Some b ->
  Haptic2.triggerHaptic env (inl p) =
    ([Js.NavigatorVibrate (Haptic2.patternArrayOf p);
      Js.ConsoleLog "Vibration triggered:"], inr tt).
Proof.
  intros Hc Hv Hi Hb.
  unfold Haptic2.triggerHaptic, Haptic2.decode, Haptic2.capacitorBranch,
    Haptic2.vibrationBranch, HapticEnv.navigatorVibrate.
  rewrite Hc, Hv. cbn. rewrite Hb. cbn. rewrite Hi, andb_false_r. reflexivity.
Qed.

(** C9. For every pattern 1, 2, 3, 4 the two revisions of [triggerHaptic]
    in part_004 compute the same vibration pattern array, and it is the
    array of that many 200 ms pulses separated by 100 ms pauses:
    [200], [200,100,200], [200,100,200,100,200],
    [200,100,200,100,200,100,200] (see [pulses_table]); they derive the
    same pattern number too. *)
Theorem triggerHaptic_revisions_agree (n : nat) :
  (1 <= n <= 4)%nat ->
  Haptic1.decode (inl (HapticEnv.numberOfNat n)) =
    (pulses n, HapticEnv.numberOfNat n) /\
  Haptic2.decode (inl (HapticEnv.numberOfNat n)) =
    (pulses n, HapticEnv.numberOfNat n).
Proof.
  intros [Hlo Hhi].
  destruct n as [| [| [| [| [| n]]]]]; try lia; split; reflexivity.
Qed.

Lemma triggerHaptic_revisions_agree_witness :
  Haptic1.decode (inl 3%float) = ([200; 100; 200; 100; 200]%float, 3%float) /\
  Haptic2.decode (inl 3%float) = ([200; 100; 200; 100; 200]%float, 3%float).
Proof. apply (triggerHaptic_revisions_agree 3). lia. Defined.

(** C10. The first revision of [triggerHaptic] is total on numbers: for
    every number [p] and on every device the promise resolves (the
    failures of the Capacitor import, of [Haptics.impact] and of
    [navigator.vibrate] are caught inside), and the array it selects is
    [n] pulses of 200 ms separated by 100 ms pauses when [p] is [n] in
    1..4, and [200] for every other number. *)
Theorem triggerHaptic_total (env : HapticEnv.Platform) (p : float) :
  Js.resolved (Haptic1.triggerHaptic env (inl p)) = true /\
  ((exists n, (1 <= n <= 4)%nat /\
      PrimFloat.eqb p (HapticEnv.numberOfNat n) = true /\
      fst (Haptic1.decode (inl p)) = pulses n) \/
   (PrimFloat.eqb p 1 = false /\ PrimFloat.eqb p 2 = false /\
    PrimFloat.eqb p 3 = false /\ PrimFloat.eqb p 4 = false /\
    fst (Haptic1.decode (inl p)) = [200]%float)).
Proof.
  split; [apply triggerHaptic_resolved |].
  simpl.
  destruct (patternArrayOf_cases p)
    as [[H E] | [[H E] | [[H E] | [[H E] | H]]]].
  - left. exists 1%nat. repeat split; [lia | lia | exact H | exact E].
  - left. exists 2%nat. repeat split; [lia | lia | exact H | exact E].
  - left. exists 3%nat. repeat split; [lia | lia | exact H | exact E].
  - left. exists 4%nat. repeat split; [lia | lia | exact H | exact E].
  - right. exact H.
Qed.

(** ** The useWebSocket hook *)

Section Reconnect.
Import UseWebSocket.

Variable url : string.
Hypothesis url_truthy : JsString.truthy (Some url) = true.

(** A closure while retries remain schedules the next one. *)
Lemma onclose_retries (h : Hook) :
  (reconnectAttemptsRef h < 5)%nat ->
  onclose (Some url) h =
    {| connectionStatus := ConnectionStatus.disconnected;
       lastMessage := lastMessage h;
       error := error h;
       wsRef := wsRef h;
       reconnectTimeoutRef := Some (backoff (reconnectAttemptsRef h));
       reconnectAttemptsRef := S (reconnectAttemptsRef h);
       opened := opened h;
       scheduled := scheduled h ++ [backoff (reconnectAttemptsRef h)] |}.
Proof.
  intros Hlt. unfold onclose, maxReconnectAttempts. rewrite url_truthy.
  destruct (Nat.ltb_spec (reconnectAttemptsRef h) 5) as [_ | Hge]; [| lia].
  reflexivity.
Qed.

(** A closure after the fifth retry gives up. *)
Lemma onclose_gives_up (h : Hook) :
  (5 <= reconnectAttemptsRef h)%nat ->
  onclose (Some url) h =
    {| connectionStatus := ConnectionStatus.error;
       lastMessage := lastMessage h;
       error := Some "Failed to reconnect after multiple attempts";
       wsRef := wsRef h;
       reconnectTimeoutRef := reconnectTimeoutRef h;
       reconnectAttemptsRef := reconnectAttemptsRef h;
       opened := opened h;
       scheduled := scheduled h |}.
Proof.
  intros Hge. unfold onclose, maxReconnectAttempts.
  destruct (Nat.ltb_spec (reconnectAttemptsRef h) 5) as [Hlt | _]; [lia |].
  destruct (Nat.leb_spec 5 (reconnectAttemptsRef h)) as [_ | Hlt]; [| lia].
  reflexivity.
Qed.

Lemma connect_opens (h : Hook) :
  connect (Some url) true h =
    {| connectionStatus := ConnectionStatus.connecting;
       lastMessage := lastMessage h;
       error := None;
       wsRef := Some url;
       reconnectTimeoutRef := reconnectTimeoutRef h;
       reconnectAttemptsRef := reconnectAttemptsRef h;
       opened := opened h ++ [url];
       scheduled := scheduled h |}.
Proof. unfold connect. rewrite url_truthy. reflexivity. Qed.

(** What one event does to the retry counter, the timers and the
    sockets, as long as it is not a successful open. *)
Lemma step_no_open (h : Hook) (e : Event) :
  e <> SocketOpens ->
  (reconnectAttemptsRef h <= 5)%nat ->
  exists k j,
    (reconnectAttemptsRef h + k <= 5)%nat /\
    reconnectAttemptsRef (step (Some url) h e) = (reconnectAttemptsRef h + k)%nat /\
    scheduled (step (Some url) h e) =
      scheduled h ++ map backoff (seq (reconnectAttemptsRef h) k) /\
    opened (step (Some url) h e) = opened h ++ replicate j url.
Proof.
  intros Hne Hle. destruct e as [ok | | parsed | |]; simpl.
  - destruct ok.
    + rewrite connect_opens. exists 0%nat, 1%nat. simpl.
      rewrite Nat.add_0_r, app_nil_r. auto.
    + exists 0%nat, 0%nat. unfold connect. rewrite url_truthy. simpl.
      rewrite Nat.add_0_r, !app_nil_r. auto.
  - congruence.
  - exists 0%nat, 0%nat. destruct parsed; simpl;
      rewrite Nat.add_0_r, !app_nil_r; auto.
  - exists 0%nat, 0%nat. simpl. rewrite Nat.add_0_r, !app_nil_r. auto.
  - destruct (Nat.lt_ge_cases (reconnectAttemptsRef h) 5) as [Hlt | Hge].
    + rewrite onclose_retries by exact Hlt. exists 1%nat, 0%nat. simpl.
      rewrite app_nil_r. repeat split; [lia | lia].
    + rewrite onclose_gives_up by exact Hge. exists 0%nat, 0%nat. simpl.
      rewrite Nat.add_0_r, !app_nil_r. auto.
Qed.

(** Between two successful opens the hook sets at most five timers, and
    their delays are 1 s, 2 s, 4 s, ... in this order; every socket it
    opens has the same target. *)
Lemma run_no_open (events : list Event) (h : Hook) :
  SocketOpens ∉ events ->
  (reconnectAttemptsRef h <= 5)%nat ->
  exists k j,
    (reconnectAttemptsRef h + k <= 5)%nat /\
    reconnectAttemptsRef (run (Some url) h events) = (reconnectAttemptsRef h + k)%nat /\
    scheduled (run (Some url) h events) =
      scheduled h ++ map backoff (seq (reconnectAttemptsRef h) k) /\
    opened (run (Some url) h events) = opened h ++ replicate j url.
Proof.
  revert h. induction events as [| e events IH]; intros h Hno Hle.
  - exists 0%nat, 0%nat. simpl. rewrite Nat.add_0_r, !app_nil_r. auto.
  - apply not_elem_of_cons in Hno as [Hne Hno].
    destruct (step_no_open h e) as (k1 & j1 & Hk1 & Ha1 & Hs1 & Ho1);
      [congruence | exact Hle |].
    destruct (IH (step (Some url) h e) Hno) as (k2 & j2 & Hk2 & Ha2 & Hs2 & Ho2);
      [lia |].
    exists (k1 + k2)%nat, (j1 + j2)%nat. unfold run in *. simpl.
    rewrite Ha2, Hs2, Ho2, Ha1, Hs1, Ho1.
    repeat split.
    + lia.
    + lia.
    + rewrite <- app_assoc, seq_app, map_app. reflexivity.
    + rewrite <- app_assoc, replicate_add. reflexivity.
Qed.

(** One failed retry while retries remain. *)
Lemma failedRetry_retries (b : bool) (h : Hook) :
  (reconnectAttemptsRef h < 5)%nat ->
  let h' := run (Some url) h (failedRetry b) in
  reconnectAttemptsRef h' = S (reconnectAttemptsRef h) /\
  scheduled h' = scheduled h ++ [backoff (reconnectAttemptsRef h)] /\
  opened h' = opened h ++ [url] /\
  connectionStatus h' = ConnectionStatus.disconnected.
Proof.
  intros Hlt. unfold run, failedRetry.
  destruct b; simpl; rewrite connect_opens, onclose_retries by exact Hlt;
    simpl; auto.
Qed.

(** The fifth retry fails: the hook gives up. *)
Lemma failedRetry_gives_up (b : bool) (h : Hook) :
  (5 <= reconnectAttemptsRef h)%nat ->
  let h' := run (Some url) h (failedRetry b) in
  reconnectAttemptsRef h' = reconnectAttemptsRef h /\
  scheduled h' = scheduled h /\
  opened h' = opened h ++ [url] /\
  connectionStatus h' = ConnectionStatus.error /\
  error h' = Some "Failed to reconnect after multiple attempts".
Proof.
  intros Hge. unfold run, failedRetry.
  destruct b; simpl; rewrite connect_opens, onclose_gives_up by exact Hge;
    simpl; auto.
Qed.

End Reconnect.

Section ReconnectRuns.
Import UseWebSocket.

Variable url : string.
Hypothesis url_truthy : JsString.truthy (Some url) = true.

Lemma run_app (h : Hook) (l1 l2 : list Event) :
  run (Some url) h (l1 ++ l2) = run (Some url) (run (Some url) h l1) l2.
Proof. unfold run. apply fold_left_app. Qed.

(** Retries that fail one after the other, while retries remain. *)
Lemma retries_progress (withErrors : list bool) (h : Hook) :
  (reconnectAttemptsRef h + length withErrors <= 5)%nat ->
  let h' := run (Some url) h (concat (map failedRetry withErrors)) in
  reconnectAttemptsRef h' = (reconnectAttemptsRef h + length withErrors)%nat /\
  scheduled h' =
    scheduled h ++ map backoff (seq (reconnectAttemptsRef h) (length withErrors)) /\
  opened h' = opened h ++ replicate (length withErrors) url /\
  (withErrors <> [] -> connectionStatus h' = ConnectionStatus.disconnected).
Proof.
  revert h. induction withErrors as [| b ws IH] using rev_ind; intros h Hle.
  - simpl. rewrite Nat.add_0_r, !app_nil_r.
    split; [| split; [| split]]; try reflexivity. congruence.
  - rewrite length_app in Hle. simpl in Hle.
    rewrite map_app, concat_app. cbn [map concat].
    rewrite app_nil_r, run_app.
    destruct (IH h) as (Ha & Hs & Ho & _); [lia |].
    destruct (failedRetry_retries url url_truthy b
                (run (Some url) h (concat (map failedRetry ws))))
      as (Ha' & Hs' & Ho' & Hc'); [lia |].
    rewrite Ha', Hs', Ho', Ha, Hs, Ho, length_app. simpl.
    repeat split.
    + lia.
    + rewrite <- app_assoc, seq_app, map_app. reflexivity.
    + rewrite <- app_assoc, replicate_add. reflexivity.
    + intros _. exact Hc'.
Qed.

(** A drop followed by fewer than five failed retries leaves the hook
    waiting for the next retry. *)
Lemma dropThenFail_waits (withErrors : list bool) (h : Hook) :
  (length withErrors < 5)%nat ->
  let h' := run (Some url) (onopen h) (dropThenFail withErrors) in
  reconnectAttemptsRef h' = S (length withErrors) /\
  scheduled h' = scheduled h ++ map backoff (seq 0 (S (length withErrors))) /\
  opened h' = opened h ++ replicate (length withErrors) url /\
  connectionStatus h' = ConnectionStatus.disconnected.
Proof.
  intros Hlt. unfold dropThenFail.
  change (run (Some url) (onopen h) (SocketCloses :: ?l))
    with (run (Some url) (onclose (Some url) (onopen h)) l).
  rewrite onclose_retries by (exact url_truthy || (simpl; lia)).
  match goal with |- context [run _ ?h0 _] => set (h1 := h0) end.
  destruct (retries_progress withErrors h1) as (Ha & Hs & Ho & Hc);
    [simpl; lia |].
  rewrite Ha, Hs, Ho. simpl. repeat split.
  - rewrite <- app_assoc. reflexivity.
  - destruct withErrors as [| b ws]; [reflexivity | apply Hc; discriminate].
Qed.

(** A drop followed by five failed retries: the delays were 1, 2, 4, 8
    and 16 seconds, and the hook has given up. *)
Lemma dropThenFail_gives_up (withErrors : list bool) (h : Hook) :
  length withErrors = 5%nat ->
  let h' := run (Some url) (onopen h) (dropThenFail withErrors) in
  scheduled h' = scheduled h ++ [1000; 2000; 4000; 8000; 16000] /\
  opened h' = opened h ++ replicate 5 url /\
  connectionStatus h' = ConnectionStatus.error /\
  error h' = Some "Failed to reconnect after multiple attempts".
Proof.
  intros Hlen.
  destruct withErrors as [| b ws] using rev_ind; [discriminate |].
  clear IHws. rewrite length_app in Hlen. simpl in Hlen.
  assert (Hws : length ws = 4%nat) by lia.
  unfold dropThenFail. rewrite map_app, concat_app. cbn [map concat].
  rewrite app_nil_r, app_comm_cons, run_app.
  destruct (dropThenFail_waits ws h) as (Ha & Hs & Ho & _); [lia |].
  unfold dropThenFail in Ha, Hs, Ho.
  match goal with |- context [run _ ?h0 (failedRetry b)] => set (h4 := h0) in * end.
  destruct (failedRetry_gives_up url url_truthy b h4) as (_ & Hs' & Ho' & Hc' & He');
    [lia |].
  rewrite Hs', Ho', Hs, Ho, Hws. simpl. rewrite <- app_assoc. auto.
Qed.

End ReconnectRuns.

(** C3. After an unexpected closure of an established connection the
    hook retries the same target with exponential backoff: between two
    successful opens it sets at most five timers, with delays 1 s, 2 s,
    4 s, 8 s, 16 s in this order, and every socket it opens targets the
    same [url]; while fewer than five retries have failed it waits for the
    next one, and when the fifth has failed it reports the terminal error
    "Failed to reconnect after multiple attempts" with status [error],
    which the session view shows as "Connection Error". *)
Theorem reconnect_backoff (url : string) (h : UseWebSocket.Hook)
  (events : list UseWebSocket.Event) (fewer five : list bool)
  (partnerConnected : bool) (userCount : Z) :
  JsString.truthy (Some url) = true ->
  UseWebSocket.SocketOpens ∉ events ->
  (length fewer < 5)%nat ->
  length five = 5%nat ->
  (exists k j, (k <= 5)%nat /\
     UseWebSocket.scheduled
       (UseWebSocket.run (Some url) (UseWebSocket.onopen h) events) =
       UseWebSocket.scheduled h ++ map backoff (seq 0 k) /\
     UseWebSocket.opened
       (UseWebSocket.run (Some url) (UseWebSocket.onopen h) events) =
       UseWebSocket.opened h ++ replicate j url) /\
  (let h' := UseWebSocket.run (Some url) (UseWebSocket.onopen h)
               (UseWebSocket.dropThenFail fewer) in
   UseWebSocket.scheduled h' =
     UseWebSocket.scheduled h ++ map backoff (seq 0 (S (length fewer))) /\
   UseWebSocket.connectionStatus h' = ConnectionStatus.disconnected) /\
  (let h' := UseWebSocket.run (Some url) (UseWebSocket.onopen h)
               (UseWebSocket.dropThenFail five) in
   UseWebSocket.scheduled h' =
     UseWebSocket.scheduled h ++ [1000; 2000; 4000; 8000; 16000] /\
   UseWebSocket.opened h' = UseWebSocket.opened h ++ replicate 5 url /\
   UseWebSocket.connectionStatus h' = ConnectionStatus.error /\
   UseWebSocket.error h' = Some "Failed to reconnect after multiple attempts" /\
   VibrationControl.getStatusText (UseWebSocket.connectionStatus h')
     partnerConnected userCount = "Connection Error").
Proof.
  intros Hurl Hno Hfewer Hfive. split; [| split].
  - destruct (run_no_open url Hurl events (UseWebSocket.onopen h) Hno)
      as (k & j & Hk & _ & Hs & Ho); [simpl; lia |].
    exists k, j. simpl in Hk, Hs, Ho. auto.
  - destruct (dropThenFail_waits url Hurl fewer h Hfewer) as (_ & Hs & _ & Hc).
    split; assumption.
  - destruct (dropThenFail_gives_up url Hurl five h Hfive)
      as (Hs & Ho & Hc & He).
    cbv zeta. rewrite Hc. auto.
Qed.

Lemma reconnect_backoff_witness :
  let url := "ws://localhost:8000/ws/483920" in
  let events := [UseWebSocket.SocketCloses; UseWebSocket.TimerFires true;
                 UseWebSocket.SocketError; UseWebSocket.SocketCloses] in
  let h' := UseWebSocket.run (Some url)
              (UseWebSocket.onopen UseWebSocket.initial)
              (UseWebSocket.dropThenFail [true; false; true; false; true]) in
  UseWebSocket.scheduled h' = [1000; 2000; 4000; 8000; 16000] /\
  UseWebSocket.opened h' = replicate 5 url /\
  UseWebSocket.connectionStatus h' = ConnectionStatus.error /\
  UseWebSocket.error h' = Some "Failed to reconnect after multiple attempts" /\
  VibrationControl.getStatusText (UseWebSocket.connectionStatus h') true 2 =
    "Connection Error".
Proof.
  intros url events h'.
  refine (proj2 (proj2 (reconnect_backoff url UseWebSocket.initial events
                          [true; false] [true; false; true; false; true]
                          true 2 _ _ _ _))).
  - reflexivity.
  - unfold events. intros Hin. repeat (apply elem_of_cons in Hin as [Hin | Hin];
      [discriminate |]). inversion Hin.
  - simpl. lia.
  - reflexivity.
Defined.

(** ** The relay core: sessions *)

Section SessionFacts.
Import Relay.

Variable alive : Identity -> bool.

Lemma broadcast_fuel_unfold fuel now sender msg s :
  broadcast_fuel alive (S fuel) now sender msg s =
    fan_out alive (leave_with (broadcast_fuel alive fuel now) now) msg
      (filter (fun r => r ≠ sender) (identities s))
      {| session := touch now s; recipients := []; log := [];
         emitted := [{| message := msg; at_session := touch now s |}] |}.
Proof. reflexivity. Qed.

(** A fan-out that ends with one way of leaving ends the same with any
    way of leaving that agrees with it. *)
Lemma fan_out_mono leave1 leave2 msg targets acc out :
  (forall r s gone, leave1 r s = Some gone -> leave2 r s = Some gone) ->
  fan_out alive leave1 msg targets acc = Some out ->
  fan_out alive leave2 msg targets acc = Some out.
Proof.
  intros Hl. revert acc.
  induction targets as [| r rest IH]; intros acc; simpl; [done |].
  destruct (alive r); [apply IH |].
  destruct (leave1 r (session acc)) as [gone |] eqn:E; simpl; [| done].
  rewrite (Hl _ _ _ E). simpl. apply IH.
Qed.

(** More fuel changes nothing once a broadcast has ended. *)
Lemma broadcast_fuel_S fuel : forall now sender msg s out,
  broadcast_fuel alive fuel now sender msg s = Some out ->
  broadcast_fuel alive (S fuel) now sender msg s = Some out.
Proof.
  induction fuel as [| fuel IH]; intros now sender msg s out; [done |].
  rewrite !broadcast_fuel_unfold. apply fan_out_mono.
  intros r s0 gone. unfold leave_with.
  destruct (bool_decide (r ∈ identities s0)); [apply IH | done].
Qed.

Lemma broadcast_fuel_le fuel fuel' now sender msg s out :
  (fuel <= fuel')%nat ->
  broadcast_fuel alive fuel now sender msg s = Some out ->
  broadcast_fuel alive fuel' now sender msg s = Some out.
Proof.
  induction 1 as [| fuel' _ IH]; [done |].
  intros H. apply broadcast_fuel_S, IH, H.
Qed.

Lemma without_shrinks id s :
  id ∈ identities s ->
  (length (members (without id s)) < length (members s))%nat.
Proof.
  unfold identities. intros (m & -> & Hm)%list_elem_of_fmap.
  simpl. apply (length_filter_lt _ _ m); [exact Hm | tauto].
Qed.

Lemma without_sublist id s :
  members (without id s) `sublist_of` members s.
Proof. apply sublist_filter. Qed.

(** The fan-out, given that leaving behaves on every Session of at most
    [bound] members. *)
Lemma fan_out_spec leave now msg bound targets : forall acc,
  (forall r s, (length (members s) <= bound)%nat ->
     exists gone, leave r s = Some gone /\ leave_ok now s gone) ->
  (length (members (session acc)) <= bound)%nat ->
  exists out,
    fan_out alive leave msg targets acc = Some out /\
    code (session out) = code (session acc) /\
    members (session out) `sublist_of` members (session acc) /\
    (last_activity (session out) = now \/
     last_activity (session out) = last_activity (session acc)) /\
    recipients out =
      recipients acc ++ filter (fun r => alive r = true) targets /\
    (exists more, log out = log acc ++ more /\
       Forall (fun d => payload d = msg \/ is_disconnect (payload d)) more) /\
    (exists more, emitted out = emitted acc ++ more /\
       Forall (fun e => is_disconnect (message e) /\ count_is_current e) more).
Proof.
  induction targets as [| r rest IH]; intros acc Hleave Hacc; simpl.
  - exists acc. rewrite !app_nil_r. repeat split; try done.
    + by right.
    + exists []. by rewrite app_nil_r.
    + exists []. by rewrite app_nil_r.
  - destruct (alive r) eqn:Hr.
    + edestruct (IH {| session := session acc;
                       recipients := recipients acc ++ [r];
                       log := log acc ++ [{| recipient := r; payload := msg |}];
                       emitted := emitted acc |})
        as (out & Hout & Hc & Hm & Ha & Hrec & (l & Hl & Fl) & He);
        [exact Hleave | exact Hacc |].
      exists out. rewrite Hout. simpl in *.
      rewrite filter_cons_True by exact Hr.
      repeat split; try done.
      * rewrite Hrec, <- app_assoc. done.
      * exists ({| recipient := r; payload := msg |} :: l).
        rewrite Hl, <- app_assoc. split; [done |].
        constructor; [by left | exact Fl].
    + destruct (Hleave r (session acc) Hacc) as (gone & Hgone & Hok).
      rewrite Hgone. simpl.
      destruct Hok as [Gc Gm Ga Gl Ge].
      edestruct (IH {| session := session gone;
                       recipients := recipients acc;
                       log := log acc ++ log gone;
                       emitted := emitted acc ++ emitted gone |})
        as (out & Hout & Hc & Hm & Ha & Hrec & (l & Hl & Fl) & (e & He & Fe));
        [exact Hleave | |].
      { simpl. apply sublist_length in Gm. lia. }
      exists out. rewrite Hout. simpl in *.
      rewrite filter_cons_False by (rewrite Hr; done).
      repeat split.
      * congruence.
      * by etrans.
      * destruct Ha as [Ha | Ha]; [by left |].
        rewrite Ha. exact Ga.
      * exact Hrec.
      * exists (log gone ++ l). rewrite Hl, <- app_assoc. split; [done |].
        apply Forall_app. split; [| exact Fl].
        eapply Forall_impl; [exact Gl |]. intros d Hd. by right.
      * exists (emitted gone ++ e). rewrite He, <- app_assoc. split; [done |].
        apply Forall_app. by split.
Qed.

(** With fuel beyond the number of members a broadcast ends, and ends
    well. *)
Lemma broadcast_fuel_spec fuel : forall now sender msg s,
  (length (members s) < fuel)%nat ->
  exists out,
    broadcast_fuel alive fuel now sender msg s = Some out /\
    broadcast_ok alive now sender msg s out.
Proof.
  induction fuel as [| fuel IH]; intros now sender msg s Hlen; [lia |].
  rewrite broadcast_fuel_unfold.
  edestruct (fan_out_spec (leave_with (broadcast_fuel alive fuel now) now)
               now msg fuel (filter (fun r => r ≠ sender) (identities s))
               {| session := touch now s; recipients := []; log := [];
                  emitted := [{| message := msg; at_session := touch now s |}] |})
    as (out & Hout & Hc & Hm & Ha & Hrec & (l & Hl & Fl) & (e & He & Fe)).
  - intros r s0 Hs0. unfold leave_with.
    destruct (bool_decide_reflect (r ∈ identities s0)) as [Hin | Hnot].
    + pose proof (without_shrinks r s0 Hin) as Hlt.
      destruct (IH now r (disconnected_notice (touch now (without r s0)))
                  (touch now (without r s0))) as (gone & Hgone & Hok);
        [simpl in *; lia |].
      exists gone. split; [exact Hgone |].
      destruct Hok as [Bc Bm Ba Br Bl (nested & Be & Fe)].
      split.
      * exact Bc.
      * etrans; [exact Bm | apply without_sublist].
      * by left.
      * eapply Forall_impl; [exact Bl |].
        intros d [-> | Hd]; [by eexists | exact Hd].
      * rewrite Be. constructor; [| exact Fe].
        split; [by eexists | reflexivity].
    + exists (silent s0). split; [done |].
      split; simpl; try done. by right.
  - simpl. lia.
  - exists out. split; [exact Hout |]. simpl in *.
    split; try done.
    + destruct Ha as [Ha | Ha]; done.
    + rewrite Hl. exact Fl.
    + exists e. by split.
Qed.

Lemma broadcast_fuel_enough fuel now sender msg s :
  (length (members s) < fuel)%nat ->
  broadcast_fuel alive fuel now sender msg s =
    Some (broadcast alive now sender msg s).
Proof.
  intros Hlen. unfold broadcast.
  destruct (broadcast_fuel_spec (S (length (members s))) now sender msg s)
    as (out & Hout & _); [lia |].
  rewrite Hout. simpl.
  eapply broadcast_fuel_le; [| exact Hout]. lia.
Qed.

Lemma broadcast_spec now sender msg s :
  broadcast_ok alive now sender msg s (broadcast alive now sender msg s).
Proof.
  destruct (broadcast_fuel_spec (S (length (members s))) now sender msg s)
    as (out & Hout & Hok); [lia |].
  unfold broadcast. rewrite Hout. exact Hok.
Qed.

(** An implicit leave inside a broadcast is the leave a closing
    connection runs. *)
Lemma leave_with_broadcast_fuel fuel now id s :
  (length (members s) <= fuel)%nat ->
  leave_with (broadcast_fuel alive fuel now) now id s =
    Some (leave alive now id s).
Proof.
  intros Hlen. unfold leave, leave_with.
  destruct (bool_decide_reflect (id ∈ identities s)) as [Hin | Hnot]; [| done].
  simpl. apply broadcast_fuel_enough.
  pose proof (without_shrinks id s Hin). simpl in *. lia.
Qed.

Lemma leave_member now id s :
  id ∈ identities s ->
  leave alive now id s =
    broadcast alive now id (disconnected_notice (touch now (without id s)))
      (touch now (without id s)).
Proof.
  intros Hin. unfold leave, leave_with.
  rewrite bool_decide_eq_true_2 by exact Hin. reflexivity.
Qed.

Lemma leave_stranger now id s :
  id ∉ identities s -> leave alive now id s = silent s.
Proof.
  intros Hnot. unfold leave, leave_with.
  rewrite bool_decide_eq_false_2 by exact Hnot. reflexivity.
Qed.

Lemma leave_spec now id s : leave_ok now s (leave alive now id s).
Proof.
  destruct (decide (id ∈ identities s)) as [Hin | Hnot].
  - rewrite leave_member by exact Hin.
    destruct (broadcast_spec now id
                (disconnected_notice (touch now (without id s)))
                (touch now (without id s)))
      as [Bc Bm Ba Br Bl (nested & Be & Fe)].
    split.
    + exact Bc.
    + etrans; [exact Bm | apply without_sublist].
    + by left.
    + eapply Forall_impl; [exact Bl |].
      intros d [-> | Hd]; [by eexists | exact Hd].
    + rewrite Be. constructor; [| exact Fe].
      split; [by eexists | reflexivity].
  - rewrite leave_stranger by exact Hnot.
    split; simpl; try done. by right.
Qed.

End SessionFacts.

Section SessionOperations.
Import Relay.

Variable alive : Identity -> bool.

(** When every target is alive the fan-out is a plain loop. *)
Lemma fan_out_all_alive leave msg targets : forall acc,
  Forall (fun r => alive r = true) targets ->
  fan_out alive leave msg targets acc =
    Some {| session := session acc;
            recipients := recipients acc ++ targets;
            log := log acc ++ ((fun r => to r msg) <$> targets);
            emitted := emitted acc |}.
Proof.
  induction targets as [| r rest IH]; intros acc Hall; simpl.
  - rewrite !app_nil_r. by destruct acc.
  - apply Forall_cons in Hall as [Hr Hrest]. rewrite Hr, IH by exact Hrest.
    simpl. rewrite <- !app_assoc. reflexivity.
Qed.

Lemma broadcast_all_alive now sender msg s :
  (forall m, m ∈ identities s -> m ≠ sender -> alive m = true) ->
  broadcast alive now sender msg s =
    {| session := touch now s;
       recipients := filter (fun r => r ≠ sender) (identities s);
       log := (fun r => to r msg) <$> filter (fun r => r ≠ sender) (identities s);
       emitted := [{| message := msg; at_session := touch now s |}] |}.
Proof.
  intros Hall. unfold broadcast. rewrite broadcast_fuel_unfold.
  rewrite fan_out_all_alive; [reflexivity |].
  apply Forall_forall. intros r [Hne Hin]%list_elem_of_filter. by apply Hall.
Qed.

Lemma join_full now id s :
  length (members s) = capacity -> join alive now id s = Full.
Proof. intros H. unfold join. by rewrite bool_decide_eq_true_2. Qed.

Lemma join_room now id s :
  length (members s) ≠ capacity ->
  join alive now id s =
    Joined (broadcast alive now id (connected_notice (enroll now id s))
              (enroll now id s)).
Proof. intros H. unfold join. by rewrite bool_decide_eq_false_2. Qed.

(** No operation takes a Session beyond its capacity. *)
Lemma perform_within_capacity now op s :
  (length (members s) <= capacity)%nat ->
  (length (members (perform alive now op s)) <= capacity)%nat.
Proof.
  intros Hcap. destruct op as [id | id | sender msg]; simpl.
  - destruct (decide (length (members s) = capacity)) as [Hfull | Hroom].
    + by rewrite join_full.
    + rewrite join_room by exact Hroom.
      destruct (broadcast_spec alive now id (connected_notice (enroll now id s))
                  (enroll now id s)) as [_ Hm _ _ _ _].
      apply sublist_length in Hm. simpl in Hm. rewrite length_app in Hm.
      simpl in Hm. lia.
  - destruct (leave_spec alive now id s) as [_ Hm _ _ _].
    apply sublist_length in Hm. lia.
  - destruct (broadcast_spec alive now sender msg s) as [_ Hm _ _ _ _].
    apply sublist_length in Hm. lia.
Qed.

(** Members stay distinct as long as no connection joins twice. *)
Lemma perform_keeps_distinct now op s :
  NoDup (identities s) ->
  (forall id, op = OpJoin id -> id ∉ identities s) ->
  NoDup (identities (perform alive now op s)).
Proof.
  intros Hnd Hnew.
  assert (Hsub : forall s1 s2, members s2 `sublist_of` members s1 ->
                   NoDup (identities s1) -> NoDup (identities s2)).
  { intros s1 s2 Hm Hs1. apply (sublist_NoDup _ (identities s1)); [exact Hs1 |].
    unfold identities. by apply fmap_sublist. }
  destruct op as [id | id | sender msg]; simpl.
  - destruct (decide (length (members s) = capacity)) as [Hfull | Hroom].
    + by rewrite join_full.
    + rewrite join_room by exact Hroom.
      apply (Hsub (enroll now id s)).
      * apply (broadcast_spec alive now id (connected_notice (enroll now id s))
                 (enroll now id s)).
      * unfold identities, enroll. cbn [members]. rewrite fmap_app.
        apply NoDup_app. split; [exact Hnd |]. split.
        -- intros m Hm Hin. cbn in Hin. apply list_elem_of_singleton in Hin.
           subst m. by apply (Hnew id).
        -- cbn. apply NoDup_singleton.
  - apply (Hsub s); [| exact Hnd]. apply (leave_spec alive now id s).
  - apply (Hsub s); [| exact Hnd]. apply (broadcast_spec alive now sender msg s).
Qed.

End SessionOperations.

(** At every instant of its history a Session that started empty has at
    most five members. *)
Lemma history_within_capacity ops : forall s,
  (length (Relay.members s) <= Relay.capacity)%nat ->
  (length (Relay.members (Relay.history s ops)) <= Relay.capacity)%nat.
Proof.
  induction ops as [| [[alive now] op] ops IH]; intros s Hs; [exact Hs |].
  apply IH. by apply perform_within_capacity.
Qed.

(** The sixth join is refused, and the Session stays as it is. *)
Lemma sixth_join_refused alive now id s :
  length (Relay.members s) = 5%nat ->
  Relay.join alive now id s = Relay.Full /\
  Relay.perform alive now (Relay.OpJoin id) s = s.
Proof.
  intros H. unfold Relay.perform. rewrite join_full by exact H. done.
Qed.

(** C5. [broadcast(sender, payload)] delivers the payload to every
    member of the Session other than the sender, exactly once each, and
    never to the sender: its recipients are, without repetition, the
    members that are not the sender and whose connection is open (a
    member whose connection is dead cannot be delivered to: it leaves);
    the broadcast updates [last_activity]; and when every other member's
    connection is open the deliveries are exactly one per other member,
    in join order, and the membership is unchanged. *)
Theorem broadcast_reaches_others_once (alive : Relay.Identity -> bool)
  (now : Z) (sender : Relay.Identity) (msg : Relay.Message)
  (s : Relay.Session) :
  NoDup (Relay.identities s) ->
  let out := Relay.broadcast alive now sender msg s in
  (sender ∉ Relay.recipients out) /\
  NoDup (Relay.recipients out) /\
  (forall m, (m ∈ Relay.recipients out) <->
             (m ∈ Relay.identities s /\ m ≠ sender /\ alive m = true)) /\
  Relay.last_activity (Relay.session out) = now /\
  ((forall m, m ∈ Relay.identities s -> m ≠ sender -> alive m = true) ->
   Relay.members (Relay.session out) = Relay.members s /\
   Relay.recipients out =
     filter (fun r => r ≠ sender) (Relay.identities s) /\
   Relay.log out =
     (fun r => Relay.to r msg) <$>
       filter (fun r => r ≠ sender) (Relay.identities s)).
Proof.
  intros Hnd out.
  destruct (broadcast_spec alive now sender msg s) as [_ _ Ha Hr _ _].
  fold out in Ha, Hr.
  assert (Hmem : forall m, (m ∈ Relay.recipients out) <->
                   (m ∈ Relay.identities s /\ m ≠ sender /\ alive m = true)).
  { intros m. rewrite Hr, !list_elem_of_filter. tauto. }
  split; [| split; [| split; [| split]]].
  - intros Hin. apply Hmem in Hin. tauto.
  - rewrite Hr. by do 2 apply NoDup_filter.
  - exact Hmem.
  - exact Ha.
  - intros Hall. unfold out. rewrite broadcast_all_alive by exact Hall. done.
Qed.

Lemma broadcast_reaches_others_once_witness :
  let s := {| Relay.code := "483920";
              Relay.members :=
                [{| Relay.identity := 1%nat; Relay.joined_at := 10 |};
                 {| Relay.identity := 2%nat; Relay.joined_at := 20 |};
                 {| Relay.identity := 3%nat; Relay.joined_at := 30 |}];
              Relay.last_activity := 30 |} in
  let out := Relay.broadcast (fun _ => true) 40 2%nat (Relay.vibrate 3) s in
  NoDup (Relay.identities s) /\
  Relay.recipients out = [1%nat; 3%nat] /\
  Relay.log out = [Relay.to 1%nat (Relay.vibrate 3); Relay.to 3%nat (Relay.vibrate 3)].
Proof.
  intros s out.
  assert (Hnd : NoDup (Relay.identities s)).
  { apply (bool_decide_unpack _). vm_compute. exact I. }
  split; [exact Hnd |].
  pose proof (broadcast_reaches_others_once (fun _ => true) 40 2%nat
                (Relay.vibrate 3) s Hnd) as (_ & _ & _ & _ & Hall).
  destruct Hall as (_ & Hr & Hl); [reflexivity |].
  split; [exact Hr | exact Hl].
Defined.

(** ** Membership notices *)

Section Notices.
Import Relay.

Variable alive : Identity -> bool.



Lemma leave_first_notice now id s :
  id ∈ identities s ->
  exists nested,
    emitted (leave alive now id s) =
      {| message := partner_disconnected (length (members (without id s)));
         at_session := touch now (touch now (without id s)) |} :: nested.
Proof.
  intros Hin. rewrite leave_member by exact Hin.
  destruct (broadcast_spec alive now id
              (disconnected_notice (touch now (without id s)))
              (touch now (without id s))) as [_ _ _ _ _ (nested & He & _)].
  by exists nested.
Qed.



End Notices.

Section NoticesBeforeFailure.
Import Relay.

Variable alive : Identity -> bool.








End NoticesBeforeFailure.

(** The scenarios 1 to 4 of section 8: a Session is created, four more
    connections join, and the sixth is refused; the counts announced are
    2, 3, 4 and 5. *)
Example five_joins_then_full :
  let up := fun _ : Relay.Identity => true in
  let r1 := Relay.open_connection up 0 [483920] 1%nat "new" ∅ in
  let r2 := Relay.open_connection up 1 [] 2%nat "483920" (Relay.registry r1) in
  let r3 := Relay.open_connection up 2 [] 3%nat "483920" (Relay.registry r2) in
  let r4 := Relay.open_connection up 3 [] 4%nat "483920" (Relay.registry r3) in
  let r5 := Relay.open_connection up 4 [] 5%nat "483920" (Relay.registry r4) in
  let r6 := Relay.open_connection up 5 [] 6%nat "483920" (Relay.registry r5) in
  Relay.outbox r1 = [Relay.to 1%nat (Relay.session_created "483920")] /\
  Relay.outbox r2 = [Relay.to 2%nat (Relay.session_joined "483920");
                     Relay.to 1%nat (Relay.partner_connected 2)] /\
  Relay.outbox r5 = [Relay.to 5%nat (Relay.session_joined "483920");
                     Relay.to 1%nat (Relay.partner_connected 5);
                     Relay.to 2%nat (Relay.partner_connected 5);
                     Relay.to 3%nat (Relay.partner_connected 5);
                     Relay.to 4%nat (Relay.partner_connected 5)] /\
  Relay.outbox r6 = [Relay.to 6%nat (Relay.error "Session is full")] /\
  Relay.failure r6 = Some Relay.SessionFull /\
  Relay.state r6 = Relay.CLOSED /\
  Relay.registry r6 = Relay.registry r5.
Proof. vm_compute. repeat split; reflexivity. Qed.

(** Scenario 5 of section 8: one member sends [vibrate{pattern:3}], the
    others receive it and the sender receives nothing; a pattern outside
    1..4 is answered with an error and the connection stays open. *)
Example vibrate_reaches_the_others :
  let up := fun _ : Relay.Identity => true in
  let r1 := Relay.open_connection up 0 [483920] 1%nat "new" ∅ in
  let r2 := Relay.open_connection up 1 [] 2%nat "483920" (Relay.registry r1) in
  let r3 := Relay.open_connection up 2 [] 3%nat "483920" (Relay.registry r2) in
  let sent := Relay.receive up 3 2%nat "483920" (Relay.vibrate 3)
                (Relay.registry r3) in
  let bad := Relay.receive up 4 2%nat "483920" (Relay.vibrate 7)
               (Relay.registry r3) in
  Relay.outbox sent = [Relay.to 1%nat (Relay.vibrate 3);
                       Relay.to 3%nat (Relay.vibrate 3)] /\
  Relay.failure bad = Some Relay.InvalidPattern /\
  Relay.state bad = Relay.JOINED "483920" /\
  Relay.registry bad = Relay.registry r3.
Proof. vm_compute. repeat split; reflexivity. Qed.

(** The last member to close leaves the Session empty in the Registry,
    and a connection that comes back within the hour joins it again. *)
Example all_leave_then_rejoin :
  let up := fun _ : Relay.Identity => true in
  let r1 := Relay.open_connection up 0 [483920] 1%nat "new" ∅ in
  let r2 := Relay.open_connection up 1 [] 2%nat "483920" (Relay.registry r1) in
  let c1 := Relay.close_connection up 100 1%nat "483920" (Relay.registry r2) in
  let c2 := Relay.close_connection up 120 2%nat "483920" (Relay.registry c1) in
  let back := Relay.open_connection up 3660 [] 2%nat "483920"
                (Relay.reaper 120 3660 (Relay.registry c2)) in
  Relay.outbox c1 = [Relay.to 2%nat (Relay.partner_disconnected 1)] /\
  Relay.registry c2 !! "483920" =
    Some {| Relay.code := "483920"; Relay.members := [];
            Relay.last_activity := 120 |} /\
  Relay.state back = Relay.JOINED "483920" /\
  Relay.outbox back = [Relay.to 2%nat (Relay.session_joined "483920")].
Proof. vm_compute. repeat split; reflexivity. Qed.




(** ** The session-full alert *)

(** C1. On the relay's "Session is full" error the App of
    src/frontend/src/App.tsx alerts "Session is full. Maximum 2 users
    allowed.": it names a capacity of 2, where the capacity is 5; the App
    of part_001 alerts "Session is full. Maximum 5 users allowed.". Both
    go back to the landing view and drop the socket. *)
Theorem session_full_alert (old : AppTsx.State) (cur : AppPart001.State) :
  AppTsx.alerts (AppTsx.onLastMessage (Some session_full_error) old) =
    AppTsx.alerts old ++ ["Session is full. Maximum 2 users allowed."] /\
  AppTsx.view (AppTsx.onLastMessage (Some session_full_error) old) =
    AppTsx.landing /\
  AppTsx.wsUrl (AppTsx.onLastMessage (Some session_full_error) old) = None /\
  AppPart001.alerts (AppPart001.onLastMessage (Some session_full_error) cur) =
    AppPart001.alerts cur ++ ["Session is full. Maximum 5 users allowed."] /\
  AppPart001.view (AppPart001.onLastMessage (Some session_full_error) cur) =
    AppPart001.landing /\
  AppPart001.wsUrl (AppPart001.onLastMessage (Some session_full_error) cur) =
    None.
Proof. repeat split; reflexivity. Qed.

(** ** The format of a code *)

(** The character class [\d] is the ten decimal digits. *)
Lemma isDigit_decimal (c : ascii) : JsString.isDigit c = decimal_digit c.
Proof. destruct c as [[] [] [] [] [] [] [] []]; reflexivity. Qed.

Lemma forallb_isDigit (l : list ascii) :
  forallb JsString.isDigit l = forallb decimal_digit l.
Proof.
  induction l as [| c l IH]; simpl; [reflexivity |].
  by rewrite isDigit_decimal, IH.
Qed.

Lemma testDigits_six_digits (s : string) :
  JsString.testDigits 6 s = six_digits s.
Proof.
  unfold six_digits. rewrite <- forallb_isDigit.
  assert (H : forall n s,
    JsString.testDigits n s =
      (String.length s =? n)%nat &&
      forallb JsString.isDigit (list_ascii_of_string s)).
  { clear s. induction n as [| n IH]; intros [| c s]; simpl; try reflexivity.
    - rewrite IH. destruct (JsString.isDigit c); simpl.
      + reflexivity.
      + by rewrite andb_false_r. }
  apply H.
Qed.

Lemma removeNonDigits_digits (s : string) :
  forallb JsString.isDigit
    (list_ascii_of_string (JsString.removeNonDigits s)) = true.
Proof.
  induction s as [| c s IH]; simpl; [reflexivity |].
  destruct (JsString.isDigit c) eqn:Hc; simpl; [| exact IH].
  by rewrite Hc.
Qed.

Lemma slice0_digits (n : nat) : forall s,
  forallb JsString.isDigit (list_ascii_of_string s) = true ->
  forallb JsString.isDigit
    (list_ascii_of_string (JsString.slice0 n s)) = true.
Proof.
  unfold JsString.slice0.
  induction n as [| n IH]; intros [| c s]; simpl; try reflexivity.
  intros [Hc Hs]%andb_true_iff. rewrite Hc. simpl. by apply IH.
Qed.

Lemma slice0_length (n : nat) : forall s,
  (String.length (JsString.slice0 n s) <= n)%nat.
Proof.
  unfold JsString.slice0.
  induction n as [| n IH]; intros [| c s]; simpl; try lia.
  specialize (IH s). lia.
Qed.

(** A string of six digits is left as it is by the input filter. *)
Lemma slice0_removeNonDigits_id (s : string) :
  six_digits s = true ->
  JsString.slice0 6 (JsString.removeNonDigits s) = s.
Proof.
  unfold six_digits. rewrite <- forallb_isDigit.
  intros [Hlen Hdig]%andb_true_iff.
  apply Nat.eqb_eq in Hlen.
  assert (Hrm : forall s, forallb JsString.isDigit (list_ascii_of_string s) = true ->
                          JsString.removeNonDigits s = s).
  { clear. induction s as [| c s IH]; simpl; [done |].
    intros [Hc Hs]%andb_true_iff. rewrite Hc. by rewrite IH. }
  rewrite Hrm by exact Hdig.
  assert (Hsl : forall n s, String.length s = n -> JsString.slice0 n s = s).
  { clear. unfold JsString.slice0.
    induction n as [| n IH]; intros [| c s]; simpl; try done.
    intros [= H]. by rewrite IH. }
  by apply Hsl.
Qed.

Lemma six_digits_not_new (s : string) :
  six_digits s = true -> String.eqb s "new" = false.
Proof.
  unfold six_digits. intros [Hlen _]%andb_true_iff.
  apply Nat.eqb_eq in Hlen. apply String.eqb_neq. intros ->. discriminate.
Qed.

(** ** The relay core: code generator and registry *)

Lemma digit_char_isDigit (d : Z) :
  JsString.isDigit (Relay.digit_char d) = true.
Proof.
  unfold Relay.digit_char.
  assert (H : (Z.to_nat (d mod 10) < 10)%nat).
  { pose proof (Z.mod_pos_bound d 10). lia. }
  destruct (Z.to_nat (d mod 10)) as [| [| [| [| [| [| [| [| [| [| k]]]]]]]]]];
    try reflexivity.
  lia.
Qed.

(** Every draw of the random source is written as six digits. *)
Lemma code_of_six_digits (d : Z) : six_digits (Relay.code_of d) = true.
Proof.
  unfold six_digits, Relay.code_of. rewrite <- forallb_isDigit.
  rewrite list_ascii_of_string_of_list_ascii.
  cbn [map forallb]. rewrite !digit_char_isDigit. reflexivity.
Qed.

Lemma generate_Some draws (reg : gmap string Relay.Session) c :
  Relay.generate draws reg = Some c ->
  (exists d, d ∈ draws /\ c = Relay.code_of d) /\ reg !! c = None.
Proof.
  induction draws as [| d rest IH]; simpl; [done |].
  destruct (reg !! Relay.code_of d) eqn:E.
  - intros H. destruct (IH H) as ((d' & Hin & ->) & Hnone).
    split; [| exact Hnone]. exists d'. split; [by right | done].
  - intros [= <-]. split; [| exact E]. exists d. split; [by left | done].
Qed.

Lemma generate_finds draws (reg : gmap string Relay.Session) :
  (exists d, d ∈ draws /\ reg !! Relay.code_of d = None) ->
  is_Some (Relay.generate draws reg).
Proof.
  intros (d & Hin & Hfree).
  induction draws as [| d' rest IH]; [by apply elem_of_nil in Hin |].
  simpl. destruct (reg !! Relay.code_of d') eqn:E; [| by eexists].
  apply elem_of_cons in Hin as [-> | Hin]; [congruence | by apply IH].
Qed.

Example create_resamples :
  let taken := {| Relay.code := "483920"; Relay.members := [];
                  Relay.last_activity := 0 |} in
  Relay.generate [483920; 1483920; 17] {["483920" := taken]} = Some "000017".
Proof. vm_compute. reflexivity. Qed.

(** C4. Every create request that returns, returns a code of exactly six
    decimal digits that no Session of the Registry has, and registers the
    new, empty Session under it without touching the others; the
    generator samples again whenever the candidate is a code of the
    Registry, and it returns as soon as the random source yields a code
    that is free. *)
Theorem create_code_fresh (now : Z) (draws : list Z)
  (reg : gmap string Relay.Session) :
  (forall s reg', Relay.create now draws reg = Some (s, reg') ->
     six_digits (Relay.code s) = true /\
     reg !! Relay.code s = None /\
     (forall c other, reg !! c = Some other -> c ≠ Relay.code s) /\
     Relay.members s = [] /\
     reg' !! Relay.code s = Some s /\
     (forall c, c ≠ Relay.code s -> reg' !! c = reg !! c)) /\
  (forall d other, reg !! Relay.code_of d = Some other ->
     Relay.generate (d :: draws) reg = Relay.generate draws reg) /\
  (forall d, reg !! Relay.code_of d = None ->
     Relay.generate (d :: draws) reg = Some (Relay.code_of d)) /\
  ((exists d, d ∈ draws /\ reg !! Relay.code_of d = None) ->
   is_Some (Relay.create now draws reg)).
Proof.
  split; [| split; [| split]].
  - intros s reg'. unfold Relay.create.
    destruct (Relay.generate draws reg) as [c |] eqn:E; simpl; [| done].
    intros [= <- <-]. simpl.
    destruct (generate_Some draws reg c E) as ((d & _ & ->) & Hfree).
    split; [apply code_of_six_digits |].
    split; [exact Hfree |].
    split; [intros c other Hc ->; congruence |].
    split; [done |].
    split; [apply lookup_insert_eq |].
    intros c Hc. by apply lookup_insert_ne.
  - intros d other H. simpl. by rewrite H.
  - intros d H. simpl. by rewrite H.
  - intros H. destruct (generate_finds draws reg H) as (c & Hc).
    unfold Relay.create. rewrite Hc. by eexists.
Qed.

Lemma create_code_fresh_witness :
  let taken := {| Relay.code := "483920"; Relay.members := [];
                  Relay.last_activity := 0 |} in
  let reg : gmap string Relay.Session := {["483920" := taken]} in
  reg !! Relay.code_of 17 = None /\
  is_Some (Relay.create 5 [483920; 17] reg).
Proof.
  intros taken reg.
  assert (Hfree : reg !! Relay.code_of 17 = None) by (vm_compute; reflexivity).
  split; [exact Hfree |].
  apply (create_code_fresh 5 [483920; 17] reg).
  exists 17. split; [| exact Hfree].
  apply list_elem_of_further, list_elem_of_here.
Defined.

(** ** The relay core: the reaper *)

Lemma sweep_Some now (reg : gmap string Relay.Session) c s :
  Relay.sweep now reg !! c = Some s <->
  reg !! c = Some s /\ ¬ Relay.reclaimable now s.
Proof. unfold Relay.sweep. by rewrite map_lookup_filter_Some. Qed.

Lemma sweep_None now (reg : gmap string Relay.Session) c s :
  reg !! c = Some s ->
  Relay.sweep now reg !! c = None <-> Relay.reclaimable now s.
Proof.
  intros Hc. unfold Relay.sweep. rewrite map_lookup_filter_None. split.
  - intros [H | H]; [congruence |].
    destruct (decide (Relay.reclaimable now s)) as [Hr | Hn]; [exact Hr |].
    by destruct (H s Hc).
  - intros Hr. right. intros x Hx. simpl. intros Hn. apply Hn. congruence.
Qed.

Lemma sweep_gone now (reg : gmap string Relay.Session) c :
  reg !! c = None -> Relay.sweep now reg !! c = None.
Proof.
  intros Hc. unfold Relay.sweep. rewrite map_lookup_filter_None. by left.
Qed.

Lemma sweeps_gone times : forall (reg : gmap string Relay.Session) c,
  reg !! c = None ->
  fold_left (fun reg t => Relay.sweep t reg) times reg !! c = None.
Proof.
  induction times as [| t times IH]; intros reg c Hc; [exact Hc |].
  simpl. apply IH. by apply sweep_gone.
Qed.

(** Sweeps that all come before the timeout keep the Session. *)
Lemma sweeps_keep times : forall (reg : gmap string Relay.Session) c s,
  reg !! c = Some s ->
  (forall t, t ∈ times -> ¬ Relay.reclaimable t s) ->
  fold_left (fun reg t => Relay.sweep t reg) times reg !! c = Some s.
Proof.
  induction times as [| t times IH]; intros reg c s Hc Hkeep; [exact Hc |].
  simpl. apply IH.
  - apply sweep_Some. split; [exact Hc |]. apply Hkeep. by left.
  - intros t' Ht'. apply Hkeep. by right.
Qed.

(** One sweep at or after the timeout reclaims it, for good. *)
Lemma sweeps_reclaim times : forall (reg : gmap string Relay.Session) c s,
  reg !! c = Some s ->
  (exists t, t ∈ times /\ Relay.reclaimable t s) ->
  fold_left (fun reg t => Relay.sweep t reg) times reg !! c = None.
Proof.
  induction times as [| t times IH]; intros reg c s Hc (t' & Hin & Hr).
  - by apply elem_of_nil in Hin.
  - simpl. destruct (decide (Relay.reclaimable t s)) as [Hnow | Hlater].
    + apply sweeps_gone. by apply (sweep_None t reg c s).
    + apply (IH _ c s).
      * by apply sweep_Some.
      * apply elem_of_cons in Hin as [-> | Hin]; [done | by exists t'].
Qed.

Lemma elem_of_sweep_times t0 t1 t :
  t ∈ Relay.sweep_times t0 t1 <->
  exists k, t = k * 300 /\ t0 / 300 < k <= t1 / 300.
Proof.
  unfold Relay.sweep_times, Relay.sweep_interval.
  rewrite list_elem_of_fmap. split.
  - intros (k & -> & Hk%elem_of_seqZ). exists k. split; [done | lia].
  - intros (k & -> & Hk). exists k. split; [done |].
    apply elem_of_seqZ. lia.
Qed.

(** The sweeps of an interval fall inside it. *)
Lemma sweep_times_bounds t0 t1 t :
  t ∈ Relay.sweep_times t0 t1 -> t0 < t <= t1.
Proof.
  intros (k & -> & Hk)%elem_of_sweep_times.
  pose proof (Z.div_mod t0 300). pose proof (Z.mod_pos_bound t0 300).
  pose proof (Z.div_mod t1 300). pose proof (Z.mod_pos_bound t1 300).
  lia.
Qed.

(** Every interval of five minutes holds a sweep. *)
Lemma sweep_times_period t0 t1 :
  t0 + 300 <= t1 ->
  exists t, t ∈ Relay.sweep_times t0 t1 /\ t1 - 300 < t.
Proof.
  intros Hlong. exists (t1 / 300 * 300). split.
  - apply elem_of_sweep_times. exists (t1 / 300). split; [done |].
    pose proof (Z.div_mod t0 300). pose proof (Z.mod_pos_bound t0 300).
    pose proof (Z.div_mod t1 300). pose proof (Z.mod_pos_bound t1 300).
    lia.
  - pose proof (Z.div_mod t1 300). pose proof (Z.mod_pos_bound t1 300). lia.
Qed.

(** ** The relay core: opening a connection *)

Section Opening.
Import Relay.

Variable alive : Identity -> bool.

(** A target that is neither "new" nor six digits is refused at once,
    whatever the Registry holds, and nothing is looked up or joined. *)
Lemma open_invalid_code now draws id target (reg : gmap string Session) :
  String.eqb target "new" = false ->
  six_digits target = false ->
  open_connection alive now draws id target reg =
    {| registry := reg; state := CLOSED; outbox := [];
       failure := Some SessionInvalidCode |}.
Proof.
  intros Hnew Hbad. unfold open_connection. by rewrite Hnew, Hbad.
Qed.

Lemma open_not_found now draws id c (reg : gmap string Session) :
  six_digits c = true ->
  reg !! c = None ->
  open_connection alive now draws id c reg =
    {| registry := reg; state := CLOSED;
       outbox := [to id (error "Session not found")];
       failure := Some SessionNotFound |}.
Proof.
  intros Hc Hnone. unfold open_connection, lookup.
  by rewrite (six_digits_not_new c Hc), Hc, Hnone.
Qed.

Lemma open_joins now draws id c (reg : gmap string Session) s :
  six_digits c = true ->
  reg !! c = Some s ->
  length (members s) ≠ capacity ->
  let out := broadcast alive now id (connected_notice (enroll now id s))
               (enroll now id s) in
  open_connection alive now draws id c reg =
    {| registry := <[c := session out]> reg; state := JOINED c;
       outbox := to id (session_joined c) :: log out;
       failure := None |}.
Proof.
  intros Hc Hs Hroom out. unfold open_connection, lookup.
  rewrite (six_digits_not_new c Hc), Hc, Hs. simpl.
  by rewrite join_room.
Qed.

Lemma open_full now draws id c (reg : gmap string Session) s :
  six_digits c = true ->
  reg !! c = Some s ->
  length (members s) = capacity ->
  open_connection alive now draws id c reg =
    {| registry := reg; state := CLOSED;
       outbox := [to id (error "Session is full")];
       failure := Some SessionFull |}.
Proof.
  intros Hc Hs Hfull. unfold open_connection, lookup.
  rewrite (six_digits_not_new c Hc), Hc, Hs. simpl.
  by rewrite join_full.
Qed.

End Opening.

(** ** Reclaiming idle Sessions *)

(** The Reaper sweeps every five minutes, so a Session idle for 61
    minutes may still be there: this one was last active at 0:02, the
    sweep of 1:00 found it idle for 58 minutes only, the next sweep is at
    1:05, and the join at 1:03, after 61 minutes of idleness, succeeds. *)
Lemma join_after_61_minutes_idle :
  let s := {| Relay.code := "483920"; Relay.members := [];
              Relay.last_activity := 120 |} in
  let reply :=
    Relay.open_connection (fun _ => true) 3780 [] 7%nat "483920"
      (Relay.reaper 120 3780 {["483920" := s]}) in
  3780 - Relay.last_activity s = 61 * 60 /\
  Relay.sweep_times 120 3780 =
    [300; 600; 900; 1200; 1500; 1800; 2100; 2400; 2700; 3000; 3300; 3600] /\
  Relay.state reply = Relay.JOINED "483920" /\
  Relay.failure reply = None /\
  Relay.outbox reply = [Relay.to 7%nat (Relay.session_joined "483920")].
Proof. vm_compute. repeat split; reflexivity. Qed.

(** C6, amended. A sweep of the Reaper reclaims a Session with zero
    members if and only if, at that sweep, the Session has been idle for
    at least one hour. A join on the code after less than one hour of
    idleness (59 minutes, say) succeeds, whatever sweeps ran; a join
    after a sweep that ran at or after the one-hour mark yields
    SessionNotFound; with a sweep every five minutes that is the case of
    every join from 65 minutes of idleness on. *)
Theorem reclaimed_by_sweep_after_one_hour
  (alive : Relay.Identity -> bool) (draws : list Z) (id : Relay.Identity)
  (c : string) (s : Relay.Session) (reg : gmap string Relay.Session)
  (t0 t1 now : Z) :
  reg !! c = Some s ->
  Relay.members s = [] ->
  six_digits c = true ->
  (Relay.sweep now reg !! c = None <-> 3600 <= now - Relay.last_activity s) /\
  (t1 - Relay.last_activity s < 3600 ->
   Relay.state (Relay.open_connection alive t1 draws id c
                  (Relay.reaper t0 t1 reg)) = Relay.JOINED c) /\
  ((exists t, t ∈ Relay.sweep_times t0 t1 /\
              3600 <= t - Relay.last_activity s) ->
   Relay.open_connection alive t1 draws id c (Relay.reaper t0 t1 reg) =
     {| Relay.registry := Relay.reaper t0 t1 reg;
        Relay.state := Relay.CLOSED;
        Relay.outbox := [Relay.to id (Relay.error "Session not found")];
        Relay.failure := Some Relay.SessionNotFound |}) /\
  (t0 <= Relay.last_activity s ->
   3900 <= t1 - Relay.last_activity s ->
   Relay.failure (Relay.open_connection alive t1 draws id c
                    (Relay.reaper t0 t1 reg)) = Some Relay.SessionNotFound).
Proof.
  intros Hc Hempty Hsix.
  assert (Hrec : forall t, Relay.reclaimable t s <->
                           3600 <= t - Relay.last_activity s).
  { intros t. unfold Relay.reclaimable, Relay.idle_timeout. tauto. }
  assert (Hgone : (exists t, t ∈ Relay.sweep_times t0 t1 /\
                             3600 <= t - Relay.last_activity s) ->
                  Relay.reaper t0 t1 reg !! c = None).
  { intros (t & Hin & Ht). apply (sweeps_reclaim _ reg c s Hc).
    exists t. split; [exact Hin | by apply Hrec]. }
  split; [| split; [| split]].
  - rewrite (sweep_None now reg c s Hc). apply Hrec.
  - intros Hearly.
    assert (Hkept : Relay.reaper t0 t1 reg !! c = Some s).
    { apply sweeps_keep; [exact Hc |].
      intros t Ht%sweep_times_bounds Hr%Hrec. lia. }
    rewrite (open_joins alive t1 draws id c _ s Hsix Hkept); [done |].
    rewrite Hempty. discriminate.
  - intros Hswept. apply open_not_found; [exact Hsix | by apply Hgone].
  - intros Hstart Hlate.
    rewrite open_not_found; [done | exact Hsix |].
    apply Hgone.
    destruct (sweep_times_period t0 t1) as (t & Hin & Ht); [lia |].
    exists t. split; [exact Hin | lia].
Qed.

Lemma reclaimed_by_sweep_after_one_hour_witness :
  let s := {| Relay.code := "483920"; Relay.members := [];
              Relay.last_activity := 0 |} in
  let reg : gmap string Relay.Session := {["483920" := s]} in
  reg !! "483920" = Some s /\
  Relay.state (Relay.open_connection (fun _ => true) 3540 [] 7%nat "483920"
                 (Relay.reaper 0 3540 reg)) = Relay.JOINED "483920" /\
  Relay.failure (Relay.open_connection (fun _ => true) 3900 [] 7%nat "483920"
                   (Relay.reaper 0 3900 reg)) = Some Relay.SessionNotFound.
Proof.
  intros s reg.
  assert (Hc : reg !! "483920" = Some s) by (vm_compute; reflexivity).
  split; [exact Hc |]. split.
  - refine (proj1 (proj2 (reclaimed_by_sweep_after_one_hour (fun _ => true)
                            [] 7%nat "483920" s reg 0 3540 0 Hc _ _)) _);
      [reflexivity | reflexivity | simpl; lia].
  - refine (proj2 (proj2 (proj2 (reclaimed_by_sweep_after_one_hour
                                   (fun _ => true) [] 7%nat "483920" s reg
                                   0 3900 0 Hc _ _))) _ _);
      [reflexivity | reflexivity | simpl; lia | simpl; lia].
Defined.

(** ** The join form *)

Lemma handleSubmit_cases (form : SessionJoin.State) :
  SessionJoin.handleSubmit form =
    if six_digits (SessionJoin.sessionCode form)
    then ({| SessionJoin.sessionCode := SessionJoin.sessionCode form;
             SessionJoin.error := "" |},
          Some (SessionJoin.sessionCode form))
    else ({| SessionJoin.sessionCode := SessionJoin.sessionCode form;
             SessionJoin.error := "Please enter a valid 6-digit session code" |},
          None).
Proof.
  unfold SessionJoin.handleSubmit. cbn [SessionJoin.sessionCode].
  rewrite testDigits_six_digits.
  by destruct (six_digits (SessionJoin.sessionCode form)).
Qed.

(** C7. A join target is accepted only when it is exactly six decimal
    digits: [handleSubmit] passes the code on, unchanged, exactly when it
    matches [^\d{6}$]; otherwise it sets the error "Please enter a valid
    6-digit session code" and does not call [onJoinSession], so the App
    is left as it was and no socket is opened, hence nothing is looked up
    or joined; whatever is passed on is six digits; and the input field
    only ever holds digits, six at most. *)
Theorem join_target_six_digits (wsBaseUrl : option string)
  (form : SessionJoin.State) (app : AppPart001.State) (value : string) :
  snd (SessionJoin.handleSubmit form) =
    (if six_digits (SessionJoin.sessionCode form)
     then Some (SessionJoin.sessionCode form) else None) /\
  SessionJoin.error (fst (SessionJoin.handleSubmit form)) =
    (if six_digits (SessionJoin.sessionCode form)
     then "" else "Please enter a valid 6-digit session code") /\
  snd (submitJoin wsBaseUrl form app) =
    (if six_digits (SessionJoin.sessionCode form)
     then AppPart001.handleJoinSession wsBaseUrl
            (SessionJoin.sessionCode form) app
     else app) /\
  (forall c, snd (SessionJoin.handleSubmit form) = Some c ->
             six_digits c = true) /\
  forallb decimal_digit
    (list_ascii_of_string
       (SessionJoin.sessionCode (SessionJoin.onChange value form))) = true /\
  (String.length (SessionJoin.sessionCode (SessionJoin.onChange value form))
   <= 6)%nat.
Proof.
  unfold submitJoin. rewrite handleSubmit_cases.
  destruct (six_digits (SessionJoin.sessionCode form)) eqn:Hsix;
    cbn [fst snd SessionJoin.error SessionJoin.sessionCode SessionJoin.onChange].
  - repeat split; try reflexivity.
    + by intros c [= <-].
    + rewrite <- forallb_isDigit. apply slice0_digits, removeNonDigits_digits.
    + apply slice0_length.
  - repeat split; try reflexivity.
    + done.
    + rewrite <- forallb_isDigit. apply slice0_digits, removeNonDigits_digits.
    + apply slice0_length.
Qed.

Lemma join_target_six_digits_witness :
  let form := SessionJoin.onChange "48 39-20" SessionJoin.initial in
  snd (SessionJoin.handleSubmit form) = Some "483920" /\
  six_digits "483920" = true.
Proof.
  intros form.
  assert (Hsub : snd (SessionJoin.handleSubmit form) = Some "483920")
    by reflexivity.
  split; [exact Hsub |].
  exact (proj1 (proj2 (proj2 (proj2
           (join_target_six_digits None form (AppPart001.initial ∅) ""))))
           "483920" Hsub).
Defined.

Example submit_five_digits :
  SessionJoin.handleSubmit {| SessionJoin.sessionCode := "12345";
                              SessionJoin.error := "" |} =
    ({| SessionJoin.sessionCode := "12345";
        SessionJoin.error := "Please enter a valid 6-digit session code" |},
     None).
Proof. reflexivity. Qed.

Example submit_six_digits :
  snd (SessionJoin.handleSubmit
         (SessionJoin.onChange "48 39-20" SessionJoin.initial)) =
    Some "483920".
Proof. reflexivity. Qed.

(** ** The wire types *)

(** The types let a [partner_connected] message go without its
    [user_count]: the field is optional (and the App of part_001 has a
    fallback for this very case), so a variant does not carry exactly the
    fields the Message table gives it. *)
Lemma partner_connected_without_count :
  let m := Wire.StatusMessage StatusType.partner_connected None None None in
  Wire.typeOf m = MessageType.partner_connected /\
  Wire.variantFields m = [] /\
  tableFields (Wire.typeOf m) = ["user_count"].
Proof. repeat split; reflexivity. Qed.

(** And they let an [error] message carry a count and no text. *)
Example error_with_count :
  let m := Wire.StatusMessage StatusType.error None None (Some 3) in
  Wire.variantFields m = ["user_count"] /\
  tableFields (Wire.typeOf m) = ["message"].
Proof. split; reflexivity. Qed.

(** C8, amended. Every wire message is an object whose first property is
    the required [type] discriminator, a string; its other properties
    are among [session_code], [pattern], [message] and [user_count],
    strings for the first and third and numbers for the other two, none
    twice. The vibrate variant carries exactly a numeric [pattern]. On
    the other variants the fields are optional: a session message may
    carry [session_code], and a status message, whatever its [type], any
    of [session_code], [message], [user_count]. *)
Theorem wire_message_fields (m : Wire.WebSocketMessage) :
  (exists rest, Wire.fields m = ("type", Wire.JsonString) :: rest) /\
  (forall name ty, (name, ty) ∈ Wire.fields m ->
     (name, ty) ∈ [("type", Wire.JsonString);
                   ("session_code", Wire.JsonString);
                   ("pattern", Wire.JsonNumber);
                   ("message", Wire.JsonString);
                   ("user_count", Wire.JsonNumber)]) /\
  NoDup (Wire.fieldNames m) /\
  match m with
  | Wire.VibrateMessage _ =>
      Wire.fields m = [("type", Wire.JsonString); ("pattern", Wire.JsonNumber)]
  | Wire.SessionMessage _ _ =>
      Wire.variantFields m `sublist_of` ["session_code"]
  | Wire.StatusMessage _ _ _ _ =>
      Wire.variantFields m `sublist_of` ["session_code"; "message"; "user_count"]
  end.
Proof.
  destruct m as [p | t [c |] | t [c |] [text |] [n |]];
    (split; [by eexists | split; [| split]]);
    try (intros name ty Hin; cbn in Hin;
         repeat (apply elem_of_cons in Hin as [[= -> ->] | Hin];
                 [set_solver |]);
         by apply elem_of_nil in Hin);
    try (apply (bool_decide_unpack _); vm_compute; exact I);
    try reflexivity;
    cbn; sublist_of_literal.
Qed.

Lemma wire_message_fields_witness :
  ("message", Wire.JsonString) ∈ Wire.fields session_full_error /\
  ("message", Wire.JsonString) ∈
    [("type", Wire.JsonString); ("session_code", Wire.JsonString);
     ("pattern", Wire.JsonNumber); ("message", Wire.JsonString);
     ("user_count", Wire.JsonNumber)].
Proof.
  assert (Hin : ("message", Wire.JsonString) ∈ Wire.fields session_full_error).
  { apply list_elem_of_further, list_elem_of_here. }
  split; [exact Hin |].
  exact (proj1 (proj2 (wire_message_fields session_full_error))
           "message" Wire.JsonString Hin).
Defined.
(** ** The haptic utility: Capacitor, the Vibration API and the support report *)

Section ImpactLoop.
Import HapticEnv.

Variable env : Platform.
Variable style : Js.ImpactStyle.
Variable pause : Z.

Lemma impacts_SS (m : nat) :
  impacts style pause (S (S m)) =
    Js.HapticsImpact style :: Js.Sleep pause :: impacts style pause (S m).
Proof. reflexivity. Qed.

(** The loop with every impact resolving. *)
Lemma impactLoop_ok (todo : nat) : forall i,
  (forall j, (i <= j < i + todo)%nat -> impactOk env j = true) ->
  impactLoop env style pause i todo = (impacts style pause todo, inr tt).
Proof.
  induction todo as [| todo IH]; intros i Hok; [reflexivity |].
  cbn [impactLoop]. unfold hapticsImpact. rewrite (Hok i) by lia.
  rewrite (IH (S i)) by (intros j Hj; apply Hok; lia).
  destruct todo as [| todo]; reflexivity.
Qed.

(** The loop whose impact [i + k], not the last, is the first rejected. *)
Lemma impactLoop_rejected (todo : nat) : forall i k,
  (k < todo)%nat ->
  (forall j, (j < k)%nat -> impactOk env (i + j) = true) ->
  impactOk env (i + k) = false ->
  impactLoop env style pause i todo =
    (impactsThenPause style pause k, inl (Js.Thrown "Haptics.impact rejected")).
Proof.
  induction todo as [| todo IH]; intros i k Hk Hok Hbad; [lia |].
  cbn [impactLoop]. unfold hapticsImpact.
  destruct k as [| k].
  - rewrite Nat.add_0_r in Hbad. rewrite Hbad. reflexivity.
  - specialize (Hok 0%nat ltac:(lia)) as H0. rewrite Nat.add_0_r in H0.
    rewrite H0.
    rewrite (IH (S i) k); [| lia | |].
    + destruct todo as [| todo]; [lia | reflexivity].
    + intros j Hj. replace (S i + j)%nat with (i + S j)%nat by lia.
      apply Hok. lia.
    + replace (S i + k)%nat with (i + S k)%nat by lia. exact Hbad.
Qed.

(** The loop never calls [navigator.vibrate]. *)
Lemma impactLoop_no_vibrate (todo : nat) : forall i,
  List.filter isVibrate (Js.trace (impactLoop env style pause i todo)) = [].
Proof.
  induction todo as [| todo IH]; intros i; [reflexivity |].
  cbn [impactLoop]. unfold hapticsImpact.
  specialize (IH (S i)).
  destruct (impactLoop env style pause (S i) todo) as [tr r].
  destruct (impactOk env i); [| reflexivity].
  destruct todo as [| todo]; cbn in *; exact IH.
Qed.

End ImpactLoop.

(** X1. Through Capacitor, when the import and every impact succeed, the
    first revision of [triggerHaptic] fires one impact per vibration
    period of the selected array, 150 ms apart, in the style of the
    pattern number, and does nothing else: no call of
    [navigator.vibrate], nothing on the console. *)
Theorem capacitor_plays_one_impact_per_period
  (env : HapticEnv.Platform) (pattern : float + list float) :
  HapticEnv.isCapacitor env = true ->
  HapticEnv.hapticsImport env = true ->
  (forall i,
     (i < HapticEnv.getVibrationCount (fst (Haptic1.decode pattern)))%nat ->
     HapticEnv.impactOk env i = true) ->
  Haptic1.triggerHaptic env pattern =
    (impacts
       (HapticEnv.styleOf
          (HapticEnv.patternToHapticType (snd (Haptic1.decode pattern))))
       150 (HapticEnv.getVibrationCount (fst (Haptic1.decode pattern))),
     inr tt).
Proof.
  intros Hcap Himp Hok. unfold Haptic1.triggerHaptic.
  destruct (Haptic1.decode pattern) as [arr n]. cbn [fst snd] in *.
  unfold Haptic1.capacitorBranch, HapticEnv.importHaptics.
  rewrite Hcap, Himp.
  cbn -[HapticEnv.impactLoop impacts HapticEnv.getVibrationCount
        HapticEnv.patternToHapticType].
  rewrite impactLoop_ok by (intros j Hj; apply Hok; lia).
  cbn -[impacts HapticEnv.getVibrationCount HapticEnv.patternToHapticType].
  by rewrite !app_nil_r.
Qed.

Lemma capacitor_plays_one_impact_per_period_witness :
  let env := {| HapticEnv.isCapacitor := true;
                HapticEnv.hapticsImport := true;
                HapticEnv.impactOk := fun _ => true;
                HapticEnv.isVibrationAPISupported := true;
                HapticEnv.vibrate := fun _ _ => Some true;
                HapticEnv.isIOS := false |} in
  Haptic1.triggerHaptic env (inl 3%float) =
    ([Js.HapticsImpact Js.Heavy; Js.Sleep 150;
      Js.HapticsImpact Js.Heavy; Js.Sleep 150;
      Js.HapticsImpact Js.Heavy], inr tt).
Proof.
  intros env.
  exact (capacitor_plays_one_impact_per_period env (inl 3%float)
           eq_refl eq_refl (fun _ _ => eq_refl)).
Defined.

(** X2. When Capacitor lets the first revision down, either because the
    import of the plugin fails or because the impact number [k] is
    rejected after [k] impacts went through, the failure is logged and
    the whole array is handed to [navigator.vibrate] all the same: the
    impacts already made are not taken off it. *)
Theorem capacitor_failure_falls_back
  (env : HapticEnv.Platform) (pattern : float + list float)
  (k : nat) (accepted : bool) :
  HapticEnv.isCapacitor env = true ->
  (HapticEnv.hapticsImport env = false /\ k = 0%nat) \/
  (HapticEnv.hapticsImport env = true /\
   (k < HapticEnv.getVibrationCount (fst (Haptic1.decode pattern)))%nat /\
   (forall j, (j < k)%nat -> HapticEnv.impactOk env j = true) /\
   HapticEnv.impactOk env k = false) ->
  HapticEnv.isVibrationAPISupported env = true ->
  HapticEnv.vibrate env 0%nat (fst (Haptic1.decode pattern)) = Some accepted ->
  Haptic1.triggerHaptic env pattern =
    (impactsThenPause
       (HapticEnv.styleOf
          (HapticEnv.patternToHapticType (snd (Haptic1.decode pattern))))
       150 k
     ++ [Js.ConsoleWarn "Capacitor Haptics not available:";
         Js.NavigatorVibrate (fst (Haptic1.decode pattern))],
     inr tt).
Proof.
  intros Hcap Hfail Hvib Hacc. unfold Haptic1.triggerHaptic.
  destruct (Haptic1.decode pattern) as [arr n]. cbn [fst snd] in *.
  unfold Haptic1.capacitorBranch, Haptic1.vibrationBranch,
    HapticEnv.importHaptics, HapticEnv.navigatorVibrate.
  rewrite Hcap, Hvib, Hacc.
  destruct Hfail as [[Himp ->] | (Himp & Hk & Hok & Hbad)]; rewrite Himp.
  - reflexivity.
  - cbn -[HapticEnv.impactLoop impactsThenPause HapticEnv.getVibrationCount
          HapticEnv.patternToHapticType].
    rewrite (impactLoop_rejected env _ _ _ 0%nat k Hk) by assumption.
    cbn -[impactsThenPause HapticEnv.patternToHapticType].
    by rewrite <- app_assoc.
Qed.

Lemma capacitor_failure_falls_back_witness :
  let env := {| HapticEnv.isCapacitor := true;
                HapticEnv.hapticsImport := true;
                HapticEnv.impactOk := fun i => (i <? 2)%nat;
                HapticEnv.isVibrationAPISupported := true;
                HapticEnv.vibrate := fun _ _ => Some true;
                HapticEnv.isIOS := false |} in
  Haptic1.triggerHaptic env (inl 4%float) =
    ([Js.HapticsImpact Js.Heavy; Js.Sleep 150;
      Js.HapticsImpact Js.Heavy; Js.Sleep 150;
      Js.ConsoleWarn "Capacitor Haptics not available:";
      Js.NavigatorVibrate [200; 100; 200; 100; 200; 100; 200]%float], inr tt).
Proof.
  intros env.
  refine (capacitor_failure_falls_back env (inl 4%float) 2 true
            eq_refl (or_intror _) eq_refl eq_refl).
  split; [reflexivity |]. split; [vm_compute; lia |].
  split; [| reflexivity].
  intros j Hj. destruct j as [| [| j]]; [reflexivity | reflexivity | lia].
Defined.

(** X3. In the second revision the pattern number 5 selects the long
    buzz whatever the array is: the number 5, and just as well any array
    with five vibration periods, is played through Capacitor as 50 heavy
    impacts 100 ms apart, where the first revision plays such an array
    as five medium impacts 150 ms apart. *)
Theorem pattern_number_5_is_the_long_buzz
  (env : HapticEnv.Platform) (arr : list float) :
  HapticEnv.isCapacitor env = true ->
  HapticEnv.hapticsImport env = true ->
  (forall i, (i < 50)%nat -> HapticEnv.impactOk env i = true) ->
  HapticEnv.getVibrationCount arr = 5%nat ->
  Haptic2.triggerHaptic env (inr arr) = (impacts Js.Heavy 100 50, inr tt) /\
  Haptic2.triggerHaptic env (inl 5%float) = (impacts Js.Heavy 100 50, inr tt) /\
  Haptic1.triggerHaptic env (inr arr) = (impacts Js.Medium 150 5, inr tt).
Proof.
  intros Hcap Himp Hok Hfive.
  assert (Hloop : HapticEnv.impactLoop env Js.Heavy 100 0 50 =
                    (impacts Js.Heavy 100 50, inr tt)).
  { apply impactLoop_ok. intros j Hj. apply Hok. lia. }
  split; [| split].
  - unfold Haptic2.triggerHaptic, Haptic2.decode, Haptic2.capacitorBranch,
      HapticEnv.importHaptics.
    rewrite Hcap, Himp, Hfive.
    cbn -[HapticEnv.impactLoop impacts].
    rewrite Hloop. reflexivity.
  - unfold Haptic2.triggerHaptic, Haptic2.decode, Haptic2.capacitorBranch,
      HapticEnv.importHaptics.
    rewrite Hcap, Himp.
    cbn -[HapticEnv.impactLoop impacts].
    rewrite Hloop. reflexivity.
  - unfold Haptic1.triggerHaptic, Haptic1.decode, Haptic1.capacitorBranch,
      HapticEnv.importHaptics.
    rewrite Hcap, Himp, Hfive.
    cbn -[HapticEnv.impactLoop impacts].
    rewrite (impactLoop_ok env Js.Medium 150 5 0)
      by (intros j Hj; apply Hok; lia).
    reflexivity.
Qed.

Lemma pattern_number_5_is_the_long_buzz_witness :
  let env := {| HapticEnv.isCapacitor := true;
                HapticEnv.hapticsImport := true;
                HapticEnv.impactOk := fun _ => true;
                HapticEnv.isVibrationAPISupported := true;
                HapticEnv.vibrate := fun _ _ => Some true;
                HapticEnv.isIOS := false |} in
  let arr := [10; 0; 10; 0; 10; 0; 10; 0; 10]%float in
  Haptic2.triggerHaptic env (inr arr) = (impacts Js.Heavy 100 50, inr tt) /\
  Haptic1.triggerHaptic env (inr arr) = (impacts Js.Medium 150 5, inr tt).
Proof.
  intros env arr.
  destruct (pattern_number_5_is_the_long_buzz env arr eq_refl eq_refl
              (fun _ _ => eq_refl) eq_refl) as (H2 & _ & H1).
  exact (conj H2 H1).
Defined.

Lemma capacitorBranch_off_5 env arr (n : float) :
  PrimFloat.eqb n 5 = false ->
  Haptic2.capacitorBranch env arr n = Haptic1.capacitorBranch env arr n.
Proof.
  intros H5. unfold Haptic2.capacitorBranch, Haptic1.capacitorBranch.
  rewrite H5. reflexivity.
Qed.

Lemma deviceCalls_app (l1 l2 : list Js.Effect) :
  deviceCalls (l1 ++ l2) = deviceCalls l1 ++ deviceCalls l2.
Proof. apply List.filter_app. Qed.

(** X4. Away from iOS and from the pattern number 5 the two revisions of
    [triggerHaptic] do the same things to the device, in the same order:
    the same impacts and pauses through Capacitor, the same call of
    [navigator.vibrate]; they differ in what they write on the console
    only. *)
Theorem revisions_same_device_calls
  (env : HapticEnv.Platform) (pattern : float + list float) :
  HapticEnv.isIOS env = false ->
  PrimFloat.eqb (snd (Haptic1.decode pattern)) 5 = false ->
  Haptic2.decode pattern = Haptic1.decode pattern /\
  deviceCalls (Js.trace (Haptic2.triggerHaptic env pattern)) =
    deviceCalls (Js.trace (Haptic1.triggerHaptic env pattern)) /\
  Js.resolved (Haptic2.triggerHaptic env pattern) =
    Js.resolved (Haptic1.triggerHaptic env pattern).
Proof.
  intros Hios H5.
  assert (Hdec : Haptic2.decode pattern = Haptic1.decode pattern).
  { destruct pattern as [n | arr]; [| reflexivity].
    cbn in *. by rewrite revisions_agree_off_5. }
  split; [exact Hdec |].
  unfold Haptic2.triggerHaptic, Haptic1.triggerHaptic. rewrite Hdec.
  destruct (Haptic1.decode pattern) as [arr n]. cbn [snd] in H5.
  rewrite capacitorBranch_off_5 by exact H5.
  destruct (Haptic1.capacitorBranch env arr n) as [tr [e | [|]]];
    [split; reflexivity | | split; reflexivity].
  unfold Haptic2.vibrationBranch, Haptic1.vibrationBranch, Haptic2.iosBranch,
    HapticEnv.navigatorVibrate.
  rewrite Hios.
  destruct (HapticEnv.isVibrationAPISupported env);
    [destruct (HapticEnv.vibrate env 0%nat arr) as [[|] |] |];
    cbn; rewrite !deviceCalls_app; split; reflexivity.
Qed.

Lemma revisions_same_device_calls_witness :
  let env := {| HapticEnv.isCapacitor := false;
                HapticEnv.hapticsImport := false;
                HapticEnv.impactOk := fun _ => false;
                HapticEnv.isVibrationAPISupported := true;
                HapticEnv.vibrate := fun _ _ => Some false;
                HapticEnv.isIOS := false |} in
  deviceCalls (Js.trace (Haptic2.triggerHaptic env (inl 2%float))) =
    deviceCalls (Js.trace (Haptic1.triggerHaptic env (inl 2%float))).
Proof.
  intros env.
  exact (proj1 (proj2 (revisions_same_device_calls env (inl 2%float)
                         eq_refl eq_refl))).
Defined.

Lemma vibrationPeriods_pulses (n : nat) : forall i,
  Nat.even i = true ->
  length (HapticEnv.vibrationPeriods i (pulses n)) = n.
Proof.
  induction n as [| n IH]; intros i Hi; [reflexivity |].
  destruct n as [| n].
  - cbn. rewrite Hi. reflexivity.
  - change (pulses (S (S n))) with (200 :: 100 :: pulses (S n))%float.
    cbn [HapticEnv.vibrationPeriods]. rewrite Hi.
    replace (Nat.even (S i)) with false
      by (rewrite Nat.even_succ, <- Nat.negb_even, Hi; reflexivity).
    cbn [andb]. change (PrimFloat.ltb 0 200) with true. cbn [andb length].
    f_equal. apply IH. exact Hi.
Qed.

(** X5. The number of a pattern and its array say the same thing: for
    each pattern [n] from 1 to 4 the array of [n] pulses has [n]
    vibration periods, so both revisions of [triggerHaptic] behave on
    the array as they do on the number, on every device. *)
Theorem pattern_array_round_trip (env : HapticEnv.Platform) (n : nat) :
  (1 <= n <= 4)%nat ->
  HapticEnv.getVibrationCount (pulses n) = n /\
  Haptic1.triggerHaptic env (inr (pulses n)) =
    Haptic1.triggerHaptic env (inl (HapticEnv.numberOfNat n)) /\
  Haptic2.triggerHaptic env (inr (pulses n)) =
    Haptic2.triggerHaptic env (inl (HapticEnv.numberOfNat n)).
Proof.
  intros Hn.
  assert (Hcount : HapticEnv.getVibrationCount (pulses n) = n)
    by (apply vibrationPeriods_pulses; reflexivity).
  split; [exact Hcount |].
  unfold Haptic1.triggerHaptic, Haptic2.triggerHaptic.
  assert (H1 : Haptic1.decode (inr (pulses n)) =
               Haptic1.decode (inl (HapticEnv.numberOfNat n))).
  { cbn [Haptic1.decode]. rewrite Hcount.
    destruct n as [| [| [| [| [| n]]]]]; try lia; reflexivity. }
  assert (H2 : Haptic2.decode (inr (pulses n)) =
               Haptic2.decode (inl (HapticEnv.numberOfNat n))).
  { cbn [Haptic2.decode]. rewrite Hcount.
    destruct n as [| [| [| [| [| n]]]]]; try lia; reflexivity. }
  by rewrite H1, H2.
Qed.

Lemma pattern_array_round_trip_witness :
  let env := {| HapticEnv.isCapacitor := false;
                HapticEnv.hapticsImport := false;
                HapticEnv.impactOk := fun _ => false;
                HapticEnv.isVibrationAPISupported := true;
                HapticEnv.vibrate := fun _ _ => Some true;
                HapticEnv.isIOS := true |} in
  Haptic2.triggerHaptic env (inr [200; 100; 200]%float) =
    Haptic2.triggerHaptic env (inl 2%float).
Proof.
  intros env.
  exact (proj2 (proj2 (pattern_array_round_trip env 2 ltac:(lia)))).
Defined.

(** X6. What [getHapticSupport] reports, where the user agent can be
    read: the device is supported exactly when it has Capacitor, the
    Vibration API or is an iPhone, iPad or iPod, and exactly then the
    method is not [none]; the method is [capacitor] exactly when
    Capacitor is there, so the second test of [isCapacitor()], inside
    the iOS branch, never selects it, and [ios-haptic] exactly on iOS
    with neither Capacitor nor the Vibration API; the platform is [ios],
    [android] or [desktop], never [unknown]. The user agent is read for
    Android only when [isIOS()] is false; where it cannot be read then,
    the call throws. *)
Theorem getHapticSupport_verdict (env : HapticEnv.Platform) (isAndroid : bool) :
  (exists r,
     supportOf env isAndroid = Js.ret r /\
     HapticSupport.supported r =
       HapticEnv.isCapacitor env || HapticEnv.isVibrationAPISupported env
       || HapticEnv.isIOS env /\
     (HapticSupport.supported r = false <->
      HapticSupport.method r = HapticSupport.none) /\
     (HapticSupport.method r = HapticSupport.capacitor <->
      HapticEnv.isCapacitor env = true) /\
     (HapticSupport.method r = HapticSupport.vibration <->
      HapticEnv.isCapacitor env = false /\
      HapticEnv.isVibrationAPISupported env = true) /\
     (HapticSupport.method r = HapticSupport.ios_haptic <->
      HapticEnv.isCapacitor env = false /\
      HapticEnv.isVibrationAPISupported env = false /\
      HapticEnv.isIOS env = true) /\
     HapticSupport.platform r =
       (if HapticEnv.isIOS env then HapticSupport.ios
        else if isAndroid then HapticSupport.android
        else HapticSupport.desktop)) /\
  Js.resolved (HapticSupport.getHapticSupport env None) = HapticEnv.isIOS env.
Proof.
  unfold supportOf, HapticSupport.getHapticSupport.
  destruct env as [cap imp ok vib v i]. cbn [HapticEnv.isCapacitor
    HapticEnv.isVibrationAPISupported HapticEnv.isIOS].
  split.
  - destruct cap, vib, i, isAndroid; eexists; (split; [reflexivity |]);
      cbn; repeat split; intros; try done; try tauto;
      repeat match goal with H : _ /\ _ |- _ => destruct H end; done.
  - destruct cap, vib, i; reflexivity.
Qed.

Ltac unfold_trigger :=
  unfold Haptic1.triggerHaptic, Haptic2.triggerHaptic,
    Haptic1.capacitorBranch, Haptic2.capacitorBranch,
    Haptic1.vibrationBranch, Haptic2.vibrationBranch, Haptic2.iosBranch,
    HapticEnv.navigatorVibrate;
  cbn [HapticEnv.isCapacitor HapticEnv.isVibrationAPISupported
       HapticEnv.isIOS HapticEnv.vibrate].

(** X7. The report of [getHapticSupport] tells what [triggerHaptic] will
    do, for every argument. With the method [none] both revisions only
    warn that there is no support. With [ios-haptic] they write to the
    console and never touch the device. With [vibration] the first thing
    they do is call [navigator.vibrate] with the selected array, the
    first revision makes no other device call, and neither ever goes
    through Capacitor. *)
Theorem support_predicts_trigger
  (env : HapticEnv.Platform) (isAndroid : bool)
  (pattern : float + list float) (r : HapticSupport.t) :
  supportOf env isAndroid = Js.ret r ->
  match HapticSupport.method r with
  | HapticSupport.none =>
      Haptic1.triggerHaptic env pattern =
        ([Js.ConsoleWarn "No haptic/vibration support available on this device"],
         inr tt) /\
      Haptic2.triggerHaptic env pattern =
        ([Js.ConsoleWarn "No haptic/vibration support available on this device"],
         inr tt)
  | HapticSupport.ios_haptic =>
      Haptic1.triggerHaptic env pattern =
        ([Js.ConsoleInfo
            "iOS Safari: Haptic feedback requires user interaction or Capacitor wrapper"],
         inr tt) /\
      (exists limitation,
         Haptic2.triggerHaptic env pattern =
           ([Js.ConsoleWarn limitation;
             Js.ConsoleWarn "No haptic/vibration support available on this device"],
            inr tt))
  | HapticSupport.vibration =>
      (exists rest,
         Js.trace (Haptic1.triggerHaptic env pattern) =
           Js.NavigatorVibrate (fst (Haptic1.decode pattern)) :: rest /\
         deviceCalls rest = []) /\
      (exists rest,
         Js.trace (Haptic2.triggerHaptic env pattern) =
           Js.NavigatorVibrate (fst (Haptic2.decode pattern)) :: rest /\
         deviceCalls rest = List.filter isVibrate rest)
  | HapticSupport.capacitor => HapticEnv.isCapacitor env = true
  end.
Proof.
  unfold supportOf, HapticSupport.getHapticSupport.
  destruct env as [cap imp ok vib v i].
  cbn [HapticEnv.isCapacitor HapticEnv.isVibrationAPISupported HapticEnv.isIOS].
  intros H.
  destruct cap, vib, i, isAndroid; cbn in H; injection H as <-;
    cbn [HapticSupport.method]; try reflexivity; unfold_trigger;
    destruct (Haptic1.decode pattern) as [arr1 n1];
    destruct (Haptic2.decode pattern) as [arr2 n2]; cbn [fst].
  (* vibration, on iOS *)
  1, 2: split;
    [ destruct (v 0%nat arr1) as [b |]; eexists; split; reflexivity
    | destruct (v 0%nat arr2) as [[|] |];
      destruct (v 1%nat arr2) as [[|] |];
      destruct (v 2%nat [100]%float) as [[|] |];
      eexists; split; reflexivity ].
  (* vibration, elsewhere *)
  1, 2: split;
    [ destruct (v 0%nat arr1) as [b |]; eexists; split; reflexivity
    | destruct (v 0%nat arr2) as [[|] |]; eexists; split; reflexivity ].
  (* ios-haptic *)
  1, 2: split; [reflexivity | eexists; reflexivity].
  (* none *)
  1, 2: split; reflexivity.
Qed.

Lemma support_predicts_trigger_witness :
  let env := {| HapticEnv.isCapacitor := false;
                HapticEnv.hapticsImport := false;
                HapticEnv.impactOk := fun _ => false;
                HapticEnv.isVibrationAPISupported := false;
                HapticEnv.vibrate := fun _ _ => None;
                HapticEnv.isIOS := false |} in
  Haptic1.triggerHaptic env (inl 2%float) =
    ([Js.ConsoleWarn "No haptic/vibration support available on this device"],
     inr tt) /\
  Haptic2.triggerHaptic env (inl 2%float) =
    ([Js.ConsoleWarn "No haptic/vibration support available on this device"],
     inr tt).
Proof.
  intros env.
  exact (support_predicts_trigger env false (inl 2%float)
           {| HapticSupport.supported := false;
              HapticSupport.method := HapticSupport.none;
              HapticSupport.platform := HapticSupport.desktop |} eq_refl).
Defined.

Lemma vibrateCalls_app (l1 l2 : list Js.Effect) :
  vibrateCalls (l1 ++ l2) = (vibrateCalls l1 + vibrateCalls l2)%nat.
Proof. unfold vibrateCalls. by rewrite List.filter_app, length_app. Qed.

Lemma capacitorBranch_no_vibrate env arr (n : float) :
  vibrateCalls (Js.trace (Haptic1.capacitorBranch env arr n)) = 0%nat /\
  vibrateCalls (Js.trace (Haptic2.capacitorBranch env arr n)) = 0%nat.
Proof.
  unfold vibrateCalls, Haptic1.capacitorBranch, Haptic2.capacitorBranch,
    HapticEnv.importHaptics.
  destruct (HapticEnv.isCapacitor env); [| split; reflexivity].
  destruct (HapticEnv.hapticsImport env); [| split; reflexivity].
  split.
  - pose proof (impactLoop_no_vibrate env
      (HapticEnv.styleOf (HapticEnv.patternToHapticType n)) 150
      (HapticEnv.getVibrationCount arr) 0) as H.
    cbn -[HapticEnv.impactLoop HapticEnv.getVibrationCount
          HapticEnv.patternToHapticType].
    destruct (HapticEnv.impactLoop _ _ _ _ _) as [tr [e | []]];
      cbn in *; rewrite ?List.filter_app, H; reflexivity.
  - destruct (PrimFloat.eqb n 5).
    + pose proof (impactLoop_no_vibrate env Js.Heavy 100 50 0) as H.
      cbn -[HapticEnv.impactLoop].
      destruct (HapticEnv.impactLoop _ _ _ _ _) as [tr [e | []]];
        cbn in *; rewrite ?List.filter_app, H; reflexivity.
    + pose proof (impactLoop_no_vibrate env
        (HapticEnv.styleOf (HapticEnv.patternToHapticType n)) 150
        (HapticEnv.getVibrationCount arr) 0) as H.
      cbn -[HapticEnv.impactLoop HapticEnv.getVibrationCount
            HapticEnv.patternToHapticType].
      destruct (HapticEnv.impactLoop _ _ _ _ _) as [tr [e | []]];
        cbn in *; rewrite ?List.filter_app, H; reflexivity.
Qed.

(** X8. How often one call of [triggerHaptic] calls [navigator.vibrate],
    on any device and for any argument: the first revision at most once;
    the second at most three times, and at most once away from iOS. On
    iOS without Capacitor, when [navigator.vibrate] keeps answering
    [false], the second revision does call it three times: twice with
    the selected array and once with [[100]]. *)
Theorem vibrate_call_bounds
  (env : HapticEnv.Platform) (pattern : float + list float) :
  (vibrateCalls (Js.trace (Haptic1.triggerHaptic env pattern)) <= 1)%nat /\
  (vibrateCalls (Js.trace (Haptic2.triggerHaptic env pattern)) <= 3)%nat /\
  (HapticEnv.isIOS env = false ->
   (vibrateCalls (Js.trace (Haptic2.triggerHaptic env pattern)) <= 1)%nat) /\
  (HapticEnv.isIOS env = true ->
   HapticEnv.isCapacitor env = false ->
   HapticEnv.isVibrationAPISupported env = true ->
   (forall i arr, HapticEnv.vibrate env i arr = Some false) ->
   List.filter isVibrate (Js.trace (Haptic2.triggerHaptic env pattern)) =
     [Js.NavigatorVibrate (fst (Haptic2.decode pattern));
      Js.NavigatorVibrate (fst (Haptic2.decode pattern));
      Js.NavigatorVibrate [100]%float]).
Proof.
  unfold Haptic1.triggerHaptic, Haptic2.triggerHaptic.
  destruct (Haptic1.decode pattern) as [arr1 n1].
  destruct (Haptic2.decode pattern) as [arr2 n2]. cbn [fst].
  destruct (capacitorBranch_no_vibrate env arr1 n1) as [Hc1 _].
  destruct (capacitorBranch_no_vibrate env arr2 n2) as [_ Hc2].
  split; [| split; [| split]].
  - destruct (Haptic1.capacitorBranch env arr1 n1) as [tr [e | [|]]];
      cbn [Js.trace fst] in Hc1; cbn -[vibrateCalls];
      [lia | | rewrite app_nil_r; lia].
    unfold Haptic1.vibrationBranch, HapticEnv.navigatorVibrate.
    destruct (HapticEnv.isVibrationAPISupported env);
      [destruct (HapticEnv.vibrate env 0%nat arr1) as [b |] |];
      destruct (HapticEnv.isIOS env && negb (HapticEnv.isCapacitor env));
      cbn -[vibrateCalls]; rewrite vibrateCalls_app, Hc1; cbn; lia.
  - destruct (Haptic2.capacitorBranch env arr2 n2) as [tr [e | [|]]];
      cbn [Js.trace fst] in Hc2; cbn -[vibrateCalls];
      [lia | | rewrite app_nil_r; lia].
    unfold Haptic2.vibrationBranch, Haptic2.iosBranch,
      HapticEnv.navigatorVibrate.
    destruct (HapticEnv.isVibrationAPISupported env);
      [destruct (HapticEnv.vibrate env 0%nat arr2) as [[|] |];
       destruct (HapticEnv.vibrate env 1%nat arr2) as [[|] |];
       destruct (HapticEnv.vibrate env 2%nat [100]%float) as [[|] |] |];
      destruct (HapticEnv.isIOS env); destruct (HapticEnv.isCapacitor env);
      cbn -[vibrateCalls]; rewrite vibrateCalls_app, Hc2; cbn; lia.
  - intros Hios.
    destruct (Haptic2.capacitorBranch env arr2 n2) as [tr [e | [|]]];
      cbn [Js.trace fst] in Hc2; cbn -[vibrateCalls];
      [lia | | rewrite app_nil_r; lia].
    unfold Haptic2.vibrationBranch, Haptic2.iosBranch,
      HapticEnv.navigatorVibrate.
    rewrite Hios.
    destruct (HapticEnv.isVibrationAPISupported env);
      [destruct (HapticEnv.vibrate env 0%nat arr2) as [[|] |] |];
      cbn -[vibrateCalls]; rewrite vibrateCalls_app, Hc2; cbn; lia.
  - intros Hios Hcap Hvib Hfalse.
    unfold Haptic2.capacitorBranch, Haptic2.vibrationBranch, Haptic2.iosBranch,
      HapticEnv.navigatorVibrate.
    rewrite Hios, Hcap, Hvib, !Hfalse. reflexivity.
Qed.

(** ** The useWebSocket hook: every run, no url, and the cleanup *)

Section HookRuns.
Import UseWebSocket.

Variable url : option string.

Lemma truthy_Some (u : option string) :
  JsString.truthy u = true -> u = Some (default "" u).
Proof. destruct u as [s |]; [reflexivity | discriminate]. Qed.

Lemma delay_in_table (a : nat) :
  (a < 5)%nat -> baseReconnectDelay * 2 ^ Z.of_nat a ∈ backoffDelays.
Proof.
  intros Ha. unfold backoffDelays.
  destruct a as [| [| [| [| [| a]]]]]; [| | | | | lia]; cbn; set_solver.
Qed.

Lemma step_hookInv (h : Hook) (e : Event) :
  hookInv url h ->
  hookInv url (step url h e) /\
  (length (scheduled (step url h e)) <=
   length (scheduled h) + (if isSocketCloses e then 1 else 0))%nat.
Proof.
  intros (Ha & Hs & Ho). unfold hookInv.
  destruct e as [ok | | parsed | |]; cbn [step isSocketCloses].
  - unfold connect.
    destruct (JsString.truthy url) eqn:Hu; cbn [negb];
      [| repeat split; [assumption .. | lia]].
    destruct ok; cbn; repeat split; try assumption; try lia.
    apply Forall_app. split; [assumption |].
    apply Forall_singleton. by apply truthy_Some.
  - cbn. repeat split; try assumption; lia.
  - destruct parsed; cbn; repeat split; try assumption; lia.
  - cbn. repeat split; try assumption; lia.
  - unfold onclose, maxReconnectAttempts.
    destruct (Nat.ltb_spec (reconnectAttemptsRef h) 5) as [Hlt | Hge];
      destruct (JsString.truthy url); cbn [andb].
    + cbn. repeat split; [lia | | assumption | rewrite length_app; cbn; lia].
      apply Forall_app. split; [assumption |].
      apply Forall_singleton. by apply delay_in_table.
    + destruct (5 <=? reconnectAttemptsRef h)%nat; cbn;
        repeat split; try assumption; lia.
    + destruct (5 <=? reconnectAttemptsRef h)%nat; cbn;
        repeat split; try assumption; lia.
    + destruct (5 <=? reconnectAttemptsRef h)%nat; cbn;
        repeat split; try assumption; lia.
Qed.

Lemma run_hookInv (events : list Event) : forall h,
  hookInv url h ->
  hookInv url (run url h events) /\
  (length (scheduled (run url h events)) <=
   length (scheduled h) + length (List.filter isSocketCloses events))%nat.
Proof.
  induction events as [| e events IH]; intros h Hinv.
  - cbn. split; [exact Hinv | lia].
  - destruct (step_hookInv h e Hinv) as [Hinv' Hlen].
    destruct (IH (step url h e) Hinv') as [Hinv'' Hlen'].
    unfold run in *. cbn [fold_left List.filter].
    split; [exact Hinv'' |].
    destruct (isSocketCloses e); cbn [length]; lia.
Qed.

End HookRuns.

(** X9. Whatever happens to the hook, in any order and however often
    the connection is established and lost again: the retry counter
    never exceeds 5, every timer it sets has one of the delays 1000,
    2000, 4000, 8000, 16000 ms, it sets at most one timer per closure of
    a socket, and every socket it opens goes to the [url] it was given. *)
Theorem backoff_bounded_on_every_run
  (url : option string) (events : list UseWebSocket.Event) :
  let h := UseWebSocket.run url UseWebSocket.initial events in
  (UseWebSocket.reconnectAttemptsRef h <= 5)%nat /\
  Forall (fun d => d ∈ backoffDelays) (UseWebSocket.scheduled h) /\
  Forall (fun target => url = Some target) (UseWebSocket.opened h) /\
  (length (UseWebSocket.scheduled h) <=
   length (List.filter isSocketCloses events))%nat.
Proof.
  intros h.
  destruct (run_hookInv url events UseWebSocket.initial)
    as [(Ha & Hs & Ho) Hlen].
  { repeat split; cbn; [lia | constructor | constructor]. }
  cbn in Hlen. auto.
Qed.

(** X10. A hook without a [url] ([null] or the empty string) never opens
    a socket and never sets a timer, whatever events reach it, and every
    [sendMessage] is refused: nothing goes out and the error is
    "WebSocket is not connected". *)
Theorem no_url_no_socket
  (url : option string) (events : list UseWebSocket.Event)
  (readyStateOpen sendOk : bool) (message : Wire.WebSocketMessage) :
  JsString.truthy url = false ->
  let h := UseWebSocket.run url UseWebSocket.initial events in
  UseWebSocket.opened h = [] /\
  UseWebSocket.scheduled h = [] /\
  UseWebSocket.wsRef h = None /\
  UseWebSocket.sendMessage readyStateOpen sendOk message h =
    (UseWebSocket.setError (Some "WebSocket is not connected") h, None).
Proof.
  intros Hu h.
  assert (Hinv : UseWebSocket.opened h = [] /\ UseWebSocket.scheduled h = [] /\
                 UseWebSocket.wsRef h = None /\
                 UseWebSocket.reconnectAttemptsRef h = 0%nat).
  { subst h. unfold UseWebSocket.run.
    assert (Hgen : forall h0,
      UseWebSocket.opened h0 = [] /\ UseWebSocket.scheduled h0 = [] /\
      UseWebSocket.wsRef h0 = None /\
      UseWebSocket.reconnectAttemptsRef h0 = 0%nat ->
      let h1 := fold_left (UseWebSocket.step url) events h0 in
      UseWebSocket.opened h1 = [] /\ UseWebSocket.scheduled h1 = [] /\
      UseWebSocket.wsRef h1 = None /\
      UseWebSocket.reconnectAttemptsRef h1 = 0%nat).
    { induction events as [| e events IH]; intros h0 H0; [exact H0 |].
      cbn [fold_left]. apply IH. destruct H0 as (Ho & Hs & Hw & Ha).
      destruct e as [ok | | parsed | |]; cbn [UseWebSocket.step].
      - unfold UseWebSocket.connect. rewrite Hu. auto.
      - cbn. auto.
      - destruct parsed; cbn; auto.
      - cbn. auto.
      - unfold UseWebSocket.onclose. rewrite Hu, Ha, andb_false_r. cbn. auto. }
    apply Hgen. cbn. auto. }
  destruct Hinv as (Ho & Hs & Hw & _).
  repeat split; try assumption.
  unfold UseWebSocket.sendMessage. by rewrite Hw.
Qed.

Lemma no_url_no_socket_witness :
  let h := UseWebSocket.run None UseWebSocket.initial
             [UseWebSocket.TimerFires true; UseWebSocket.SocketCloses] in
  UseWebSocket.opened h = [] /\
  UseWebSocket.scheduled h = [] /\
  UseWebSocket.wsRef h = None /\
  UseWebSocket.sendMessage true true (Wire.VibrateMessage 1) h =
    (UseWebSocket.setError (Some "WebSocket is not connected") h, None).
Proof.
  intros h.
  exact (no_url_no_socket None
           [UseWebSocket.TimerFires true; UseWebSocket.SocketCloses]
           true true (Wire.VibrateMessage 1) eq_refl).
Defined.

(** X11. Setting the [url] to [null] while a connection is established
    does not end the reconnections: the cleanup closes the socket, and
    when the socket's [onclose] handler then runs it still holds the
    [url] it was created with, finds the retry counter at 0 and sets a
    timer of 1000 ms; when that timer runs [connect()], a new socket is
    opened to the old [url]. *)
Theorem close_after_cleanup_reconnects
  (url : string) (h : UseWebSocket.Hook) (ctorOk : bool) :
  JsString.truthy (Some url) = true ->
  UseWebSocket.wsRef h = Some url ->
  let established := UseWebSocket.onopen h in
  let left := UseWebSocket.onUrlChange None ctorOk established in
  let closed := UseWebSocket.step (Some url) left UseWebSocket.SocketCloses in
  let retried :=
    UseWebSocket.step (Some url) closed (UseWebSocket.TimerFires true) in
  UseWebSocket.closedSocket (UseWebSocket.cleanup established) = Some url /\
  UseWebSocket.wsRef left = None /\
  UseWebSocket.opened left = UseWebSocket.opened h /\
  UseWebSocket.scheduled closed = UseWebSocket.scheduled h ++ [1000] /\
  UseWebSocket.reconnectTimeoutRef closed = Some 1000 /\
  UseWebSocket.opened retried = UseWebSocket.opened h ++ [url] /\
  UseWebSocket.wsRef retried = Some url /\
  UseWebSocket.connectionStatus retried = ConnectionStatus.connecting.
Proof.
  intros Hu Hw established left closed retried.
  subst retried closed left established.
  cbn [UseWebSocket.step]. unfold UseWebSocket.onUrlChange.
  cbn [JsString.truthy].
  rewrite connect_opens by exact Hu.
  rewrite onclose_retries by (exact Hu || (cbn; lia)).
  cbn. rewrite Hw. repeat split.
Qed.

Lemma close_after_cleanup_reconnects_witness :
  let url := "ws://localhost:8000/ws/483920" in
  let h := UseWebSocket.connect (Some url) true UseWebSocket.initial in
  let left := UseWebSocket.onUrlChange None true (UseWebSocket.onopen h) in
  UseWebSocket.opened
    (UseWebSocket.run (Some url) left
       [UseWebSocket.SocketCloses; UseWebSocket.TimerFires true]) =
    [url; url].
Proof.
  intros url h left.
  exact (proj1 (proj2 (proj2 (proj2 (proj2 (proj2
           (close_after_cleanup_reconnects url h true eq_refl eq_refl))))))).
Defined.

(** ** The App of part_001: endpoint, storage, views *)

Lemma endsWith_refl (t : string) : JsString.endsWith t t = true.
Proof. destruct t; cbn [JsString.endsWith]; by rewrite String.eqb_refl. Qed.

Lemma endsWith_app (s t : string) : JsString.endsWith (s +:+ t) t = true.
Proof.
  induction s as [| c s IH]; [apply endsWith_refl |].
  change (String c s +:+ t) with (String c (s +:+ t)).
  cbn [JsString.endsWith]. by rewrite IH, orb_true_r.
Qed.

Lemma endsWith_app_r (u : string) : forall s t,
  JsString.endsWith s t = true ->
  JsString.endsWith (s +:+ u) (t +:+ u) = true.
Proof.
  induction s as [| c s IH]; intros t.
  - cbn [JsString.endsWith]. rewrite orb_false_r.
    intros <-%String.eqb_eq. apply endsWith_refl.
  - cbn [JsString.endsWith]. intros [->%String.eqb_eq | H]%orb_true_iff.
    + apply endsWith_refl.
    + change (String c s +:+ u) with (String c (s +:+ u)).
      cbn [JsString.endsWith]. by rewrite (IH t H), orb_true_r.
Qed.

Lemma truthy_nonempty (s : string) :
  JsString.truthy (Some s) = true <-> s <> "".
Proof.
  cbn. rewrite negb_true_iff. apply String.eqb_neq.
Qed.

Lemma truthy_app (s t : string) :
  JsString.truthy (Some s) = true -> JsString.truthy (Some (s +:+ t)) = true.
Proof. destruct s; [discriminate | reflexivity]. Qed.

Lemma wsBaseUrl_Some (rawWsUrl : option string) (base : string) :
  AppPart001.wsBaseUrl rawWsUrl = Some base ->
  JsString.endsWith base "/ws" = true /\
  JsString.truthy (Some base) = true /\
  exists raw, rawWsUrl = Some raw /\ JsString.truthy (Some raw) = true /\
    (base = raw \/ base = raw +:+ "ws" \/ base = raw +:+ "/ws").
Proof.
  unfold AppPart001.wsBaseUrl.
  destruct rawWsUrl as [raw |]; [| discriminate].
  destruct (JsString.truthy (Some raw)) eqn:Ht; [| discriminate].
  change (default "" (Some raw)) with raw.
  destruct (JsString.endsWith raw "/ws") eqn:Hws.
  - intros [= Heq]; subst base. split; [exact Hws |]. split; [exact Ht |].
    exists raw. split; [reflexivity |]. split; [exact Ht |]. by left.
  - destruct (JsString.endsWith raw "/") eqn:Hslash; intros [= Heq]; subst base.
    + split; [apply (endsWith_app_r "ws" raw "/" Hslash) |].
      split; [by apply truthy_app |].
      exists raw. split; [reflexivity |]. split; [exact Ht |].
      right. by left.
    + split; [apply endsWith_app |].
      split; [by apply truthy_app |].
      exists raw. split; [reflexivity |]. split; [exact Ht |].
      right. by right.
Qed.

(** X12. The WebSocket endpoint the App works with: it is defined
    exactly when the raw setting is a non-empty string; when defined it
    is not empty and ends with [/ws], being the raw setting itself or
    the raw setting followed by [ws] or [/ws]; normalising it again
    changes nothing. In development the endpoint is always defined, in
    production only with [VITE_WS_URL] set. *)
Theorem wsBaseUrl_ends_with_ws (rawWsUrl viteWsUrl : option string) :
  (AppPart001.wsBaseUrl rawWsUrl = None <->
   JsString.truthy rawWsUrl = false) /\
  (forall base, AppPart001.wsBaseUrl rawWsUrl = Some base ->
     JsString.endsWith base "/ws" = true /\
     base <> "" /\
     (exists raw, rawWsUrl = Some raw /\
        (base = raw \/ base = raw +:+ "ws" \/ base = raw +:+ "/ws")) /\
     AppPart001.wsBaseUrl (Some base) = Some base) /\
  is_Some (AppPart001.wsBaseUrl (AppPart001.rawWsUrl viteWsUrl true)) /\
  (AppPart001.wsBaseUrl (AppPart001.rawWsUrl viteWsUrl false) = None <->
   JsString.truthy viteWsUrl = false).
Proof.
  assert (Hnone : forall raw, AppPart001.wsBaseUrl raw = None <->
                              JsString.truthy raw = false).
  { intros raw. unfold AppPart001.wsBaseUrl.
    destruct (JsString.truthy raw); [| done].
    destruct (JsString.endsWith _ "/ws");
      [split; intros H; discriminate H |].
    destruct (JsString.endsWith _ "/"); split; intros H; discriminate H. }
  split; [apply Hnone |]. split; [| split].
  - intros base Hbase.
    destruct (wsBaseUrl_Some _ _ Hbase) as (Hws & Ht & raw & -> & _ & Hshape).
    split; [exact Hws |]. split; [by apply truthy_nonempty |].
    split; [by exists raw |].
    unfold AppPart001.wsBaseUrl. rewrite Ht.
    change (default "" (Some base)) with base. by rewrite Hws.
  - destruct (AppPart001.wsBaseUrl _) eqn:E; [by eexists |].
    apply Hnone in E. unfold AppPart001.rawWsUrl in E.
    by destruct (JsString.truthy viteWsUrl) eqn:Hv; rewrite ?Hv in E.
  - rewrite Hnone. unfold AppPart001.rawWsUrl.
    destruct (JsString.truthy viteWsUrl) eqn:Hv; [by rewrite Hv | done].
Qed.

Lemma keys_differ : AppPart001.SESSION_CODE_KEY <> AppPart001.SESSION_TYPE_KEY.
Proof. discriminate. Qed.

(** What the effect on [sessionCode] leaves in [localStorage]. *)
Lemma sessionCodeEffect_storage (st : AppPart001.State) :
  let storage := AppPart001.localStorage (AppPart001.sessionCodeEffect st) in
  (AppPart001.sessionCode st = "" ->
   storage !! AppPart001.SESSION_CODE_KEY = None /\
   storage !! AppPart001.SESSION_TYPE_KEY = None) /\
  (AppPart001.sessionCode st <> "" ->
   storage !! AppPart001.SESSION_CODE_KEY = Some (AppPart001.sessionCode st) /\
   storage !! AppPart001.SESSION_TYPE_KEY =
     AppPart001.localStorage st !! AppPart001.SESSION_TYPE_KEY).
Proof.
  unfold AppPart001.sessionCodeEffect.
  destruct (JsString.truthy (Some (AppPart001.sessionCode st))) eqn:Ht;
    cbn [AppPart001.localStorage AppPart001.storageSetItem
         AppPart001.storageRemoveItem].
  - apply truthy_nonempty in Ht.
    rewrite lookup_insert_eq, lookup_insert_ne by apply keys_differ.
    split; done.
  - assert (He : AppPart001.sessionCode st = "").
    { destruct (decide (AppPart001.sessionCode st = "")) as [|Hne]; [done |].
      apply truthy_nonempty in Hne. congruence. }
    rewrite lookup_delete_eq, lookup_delete_ne, lookup_delete_eq
      by (apply not_eq_sym, keys_differ).
    split; done.
Qed.

(** X13. The session code survives a reload of the page: what the effect
    on [sessionCode] leaves in [localStorage] is what the next mount
    reads back as its initial [sessionCode]. A non-empty code is stored
    under its key and the session type is left alone; with an empty code
    both keys are removed. *)
Theorem session_code_survives_reload (st : AppPart001.State) :
  let storage := AppPart001.localStorage (AppPart001.sessionCodeEffect st) in
  AppPart001.sessionCode (AppPart001.initial storage) =
    AppPart001.sessionCode st /\
  (AppPart001.sessionCode st = "" ->
   storage !! AppPart001.SESSION_CODE_KEY = None /\
   storage !! AppPart001.SESSION_TYPE_KEY = None) /\
  (AppPart001.sessionCode st <> "" ->
   storage !! AppPart001.SESSION_CODE_KEY = Some (AppPart001.sessionCode st) /\
   storage !! AppPart001.SESSION_TYPE_KEY =
     AppPart001.localStorage st !! AppPart001.SESSION_TYPE_KEY).
Proof.
  intros storage.
  destruct (sessionCodeEffect_storage st) as [Hempty Hfull].
  fold storage in Hempty, Hfull.
  split; [| split; assumption].
  cbn [AppPart001.initial AppPart001.sessionCode].
  destruct (decide (AppPart001.sessionCode st = "")) as [He | Hne].
  - destruct (Hempty He) as [-> _]. by rewrite He.
  - by destruct (Hfull Hne) as [-> _].
Qed.

(** X14. After a reload the App goes back into the session it was in:
    with the endpoint configured and a non-empty session code saved, the
    effect that runs on mount restores the code, targets the socket at
    [<endpoint>/<code>] and shows the session view, and the hook opens
    exactly one socket, to that target. *)
Theorem reload_resumes_session
  (rawWsUrl : option string) (base : string) (st : AppPart001.State)
  (hook : UseWebSocket.Hook) :
  AppPart001.wsBaseUrl rawWsUrl = Some base ->
  AppPart001.sessionCode st <> "" ->
  let storage := AppPart001.localStorage (AppPart001.sessionCodeEffect st) in
  let url := base +:+ "/" +:+ AppPart001.sessionCode st in
  let resumed := AppPart001.reconnectEffect (Some base)
                   (AppPart001.initial storage) in
  AppPart001.sessionCode resumed = AppPart001.sessionCode st /\
  AppPart001.wsUrl resumed = Some url /\
  AppPart001.render hook resumed =
    AppPart001.SessionView (AppPart001.sessionCode st)
      (UseWebSocket.connectionStatus hook) false 1
      (UseWebSocket.lastMessage hook) /\
  UseWebSocket.opened
    (UseWebSocket.onUrlChange (AppPart001.wsUrl resumed) true
       UseWebSocket.initial) = [url].
Proof.
  intros Hbase Hcode storage url resumed.
  destruct (wsBaseUrl_Some _ _ Hbase) as (_ & Htb & _).
  destruct (sessionCodeEffect_storage st) as (_ & Hstored).
  destruct (Hstored Hcode) as [Hsaved _]. fold storage in Hsaved.
  assert (Htc : JsString.truthy (Some (AppPart001.sessionCode st)) = true)
    by by apply truthy_nonempty.
  assert (Hres : resumed =
    AppPart001.setView AppPart001.session
      (AppPart001.setWsUrl (Some url)
         (AppPart001.setSessionCode (AppPart001.sessionCode st)
            (AppPart001.initial storage)))).
  { subst resumed. unfold AppPart001.reconnectEffect.
    cbn [AppPart001.initial AppPart001.localStorage AppPart001.wsUrl
         AppPart001.view AppPart001.isLanding].
    rewrite Hsaved, Htb, Htc. reflexivity. }
  rewrite Hres.
  cbn [AppPart001.setView AppPart001.setWsUrl AppPart001.setSessionCode
       AppPart001.sessionCode AppPart001.wsUrl AppPart001.view
       AppPart001.render AppPart001.partnerConnected AppPart001.userCount
       AppPart001.initial].
  rewrite Htc. repeat split.
  unfold UseWebSocket.onUrlChange.
  assert (Htu : JsString.truthy (Some url) = true) by by apply truthy_app.
  rewrite Htu. unfold UseWebSocket.connect.
  cbn [UseWebSocket.cleanup UseWebSocket.after]. rewrite Htu. reflexivity.
Qed.

Lemma reload_resumes_session_witness :
  let st := AppPart001.setSessionCode "483920" (AppPart001.initial ∅) in
  let storage := AppPart001.localStorage (AppPart001.sessionCodeEffect st) in
  let resumed := AppPart001.reconnectEffect (Some "wss://buzz.example/ws")
                   (AppPart001.initial storage) in
  AppPart001.wsUrl resumed = Some "wss://buzz.example/ws/483920".
Proof.
  intros st storage resumed.
  refine (proj1 (proj2 (reload_resumes_session (Some "wss://buzz.example")
                          "wss://buzz.example/ws" st UseWebSocket.initial
                          eq_refl _))).
  discriminate.
Defined.

(** X15. Leaving a session forgets it: [handleBackToLanding] removes
    both keys from [localStorage], drops the socket target and goes back
    to the landing view with an empty code; the reconnect effect then
    does nothing, now and after a reload of the page. *)
Theorem exit_forgets_session
  (wsBaseUrl : option string) (st : AppPart001.State) :
  let left := AppPart001.handleBackToLanding st in
  let reloaded :=
    AppPart001.initial
      (AppPart001.localStorage (AppPart001.sessionCodeEffect left)) in
  AppPart001.localStorage left !! AppPart001.SESSION_CODE_KEY = None /\
  AppPart001.localStorage left !! AppPart001.SESSION_TYPE_KEY = None /\
  AppPart001.view left = AppPart001.landing /\
  AppPart001.wsUrl left = None /\
  AppPart001.reconnectEffect wsBaseUrl left = left /\
  AppPart001.sessionCode reloaded = "" /\
  AppPart001.reconnectEffect wsBaseUrl reloaded = reloaded.
Proof.
  intros left reloaded.
  assert (Hc : AppPart001.localStorage left !! AppPart001.SESSION_CODE_KEY = None).
  { subst left. cbn.
    rewrite lookup_delete_ne by (apply not_eq_sym, keys_differ).
    apply lookup_delete_eq. }
  assert (Ht : AppPart001.localStorage left !! AppPart001.SESSION_TYPE_KEY = None).
  { subst left. cbn. apply lookup_delete_eq. }
  destruct (sessionCodeEffect_storage left) as (Hempty & _).
  destruct (Hempty eq_refl) as [Hc' Ht'].
  split; [exact Hc |]. split; [exact Ht |]. split; [reflexivity |].
  split; [reflexivity |]. split; [| split].
  - unfold AppPart001.reconnectEffect. by rewrite Hc.
  - subst reloaded. cbn [AppPart001.initial AppPart001.sessionCode].
    by rewrite Hc'.
  - unfold AppPart001.reconnectEffect. subst reloaded.
    cbn [AppPart001.initial AppPart001.localStorage]. by rewrite Hc'.
Qed.

(** X16. A refusal by the relay ends the session on the client: on an
    [error] message whose text contains "Session is full" or "Session
    not found" the App shows one alert, goes back to the landing view,
    drops the socket target and removes both keys from [localStorage],
    so that the reconnect effect, which runs again because the target
    and the view changed, finds no saved code and does nothing, and a
    reload starts with an empty code. *)
Theorem refusal_ends_the_session
  (wsBaseUrl : option string) (st : AppPart001.State)
  (session_code message : option string) (user_count : option Z) :
  JsString.optIncludes message "Session is full"
  || JsString.optIncludes message "Session not found" = true ->
  let refused :=
    AppPart001.onLastMessage
      (Some (Wire.StatusMessage StatusType.error session_code message
               user_count)) st in
  AppPart001.view refused = AppPart001.landing /\
  AppPart001.wsUrl refused = None /\
  (exists text, AppPart001.alerts refused = AppPart001.alerts st ++ [text]) /\
  AppPart001.localStorage refused !! AppPart001.SESSION_CODE_KEY = None /\
  AppPart001.localStorage refused !! AppPart001.SESSION_TYPE_KEY = None /\
  AppPart001.reconnectEffect wsBaseUrl refused = refused /\
  AppPart001.sessionCode
    (AppPart001.initial (AppPart001.localStorage refused)) = "".
Proof.
  intros Hinc refused.
  assert (Hc : AppPart001.localStorage refused !! AppPart001.SESSION_CODE_KEY
               = None).
  { subst refused. cbn [AppPart001.onLastMessage].
    destruct (JsString.optIncludes message "Session is full");
      [| cbn [orb] in Hinc; rewrite Hinc]; cbn;
      rewrite lookup_delete_ne by (apply not_eq_sym, keys_differ);
      apply lookup_delete_eq. }
  split; [| split; [| split; [| split; [exact Hc | split; [| split]]]]].
  - subst refused. cbn [AppPart001.onLastMessage].
    destruct (JsString.optIncludes message "Session is full");
      [| cbn [orb] in Hinc; rewrite Hinc]; reflexivity.
  - subst refused. cbn [AppPart001.onLastMessage].
    destruct (JsString.optIncludes message "Session is full");
      [| cbn [orb] in Hinc; rewrite Hinc]; reflexivity.
  - subst refused. cbn [AppPart001.onLastMessage].
    destruct (JsString.optIncludes message "Session is full");
      [| cbn [orb] in Hinc; rewrite Hinc]; eexists; reflexivity.
  - subst refused. cbn [AppPart001.onLastMessage].
    destruct (JsString.optIncludes message "Session is full");
      [| cbn [orb] in Hinc; rewrite Hinc]; cbn; apply lookup_delete_eq.
  - unfold AppPart001.reconnectEffect. by rewrite Hc.
  - cbn [AppPart001.initial AppPart001.sessionCode]. by rewrite Hc.
Qed.

Lemma refusal_ends_the_session_witness :
  let st := AppPart001.storageSetItem AppPart001.SESSION_CODE_KEY "483920"
              (AppPart001.setView AppPart001.session
                 (AppPart001.initial ∅)) in
  let refused :=
    AppPart001.onLastMessage
      (Some (Wire.StatusMessage StatusType.error None
               (Some "Session not found") None)) st in
  AppPart001.view refused = AppPart001.landing /\
  AppPart001.localStorage refused !! AppPart001.SESSION_CODE_KEY = None.
Proof.
  intros st refused.
  destruct (refusal_ends_the_session (Some "wss://buzz.example/ws") st None
              (Some "Session not found") None eq_refl)
    as (Hv & _ & _ & Hc & _).
  exact (conj Hv Hc).
Defined.

(** ** The App of part_001: what every run keeps *)

Section AppRuns.
Import AppPart001.

Variable wsBaseUrl : option string.

Lemma run_invariant (P : State -> Prop) (events : list Event) :
  (forall st e, P st -> P (step wsBaseUrl st e)) ->
  forall st, P st -> P (run wsBaseUrl st events).
Proof.
  intros Hstep. unfold run.
  induction events as [| e events IH]; intros st Hst; [exact Hst |].
  cbn [fold_left]. apply IH, Hstep, Hst.
Qed.

(** The session view always has a code to show. *)
Lemma step_session_has_code (st : State) (e : Event) :
  (view st = session -> JsString.truthy (Some (sessionCode st)) = true) ->
  view (step wsBaseUrl st e) = session ->
  JsString.truthy (Some (sessionCode (step wsBaseUrl st e))) = true.
Proof.
  intros Hinv.
  destruct e as [m | | | | | code |]; cbn [step].
  - destruct m as [[p | t c | [] c text n] |]; cbn [onLastMessage];
      try exact Hinv.
    + destruct n; exact Hinv.
    + destruct n; exact Hinv.
    + destruct (JsString.truthy c) eqn:Hc; [| exact Hinv].
      intros _. destruct c as [c |]; [exact Hc | discriminate].
    + destruct (JsString.truthy c) eqn:Hc; [| exact Hinv].
      intros _. destruct c as [c |]; [exact Hc | discriminate].
    + destruct (JsString.optIncludes text "Session is full");
        [discriminate |].
      destruct (JsString.optIncludes text "Session not found");
        [discriminate | exact Hinv].
  - unfold sessionCodeEffect.
    destruct (JsString.truthy (Some (sessionCode st))) eqn:E;
      cbn [view sessionCode storageSetItem storageRemoveItem];
      rewrite ?E; exact Hinv.
  - unfold reconnectEffect.
    destruct (JsString.truthy (localStorage st !! SESSION_CODE_KEY)) eqn:Hs;
      [| exact Hinv].
    destruct (JsString.truthy wsBaseUrl); [| exact Hinv].
    destruct (negb (JsString.truthy (wsUrl st))); [| exact Hinv].
    destruct (isLanding (view st)); [| exact Hinv].
    intros _. cbn.
    destruct (localStorage st !! SESSION_CODE_KEY) as [c |];
      [exact Hs | discriminate].
  - unfold handleCreateSession.
    destruct (negb (JsString.truthy wsBaseUrl)); [exact Hinv | discriminate].
  - discriminate.
  - unfold handleJoinSession.
    destruct (negb (JsString.truthy wsBaseUrl)); exact Hinv.
  - discriminate.
Qed.

(** Two or more users means a partner. *)
Lemma step_partner_flag (st : State) (e : Event) :
  (2 <= userCount st -> partnerConnected st = true) ->
  2 <= userCount (step wsBaseUrl st e) ->
  partnerConnected (step wsBaseUrl st e) = true.
Proof.
  intros Hinv.
  destruct e as [m | | | | | code |]; cbn [step].
  - destruct m as [[p | t c | [] c text n] |]; cbn [onLastMessage];
      try exact Hinv.
    + destruct n; reflexivity.
    + destruct n as [n |]; cbn; intros H; apply Z.ltb_lt; lia.
    + destruct (JsString.truthy c); [cbn; lia | exact Hinv].
    + destruct (JsString.truthy c); exact Hinv.
    + destruct (JsString.optIncludes text "Session is full");
        [exact Hinv |].
      destruct (JsString.optIncludes text "Session not found"); exact Hinv.
  - unfold sessionCodeEffect.
    destruct (JsString.truthy (Some (sessionCode st))); exact Hinv.
  - unfold reconnectEffect.
    destruct (_ && _ && _ && _); exact Hinv.
  - unfold handleCreateSession.
    destruct (negb (JsString.truthy wsBaseUrl)); exact Hinv.
  - exact Hinv.
  - unfold handleJoinSession.
    destruct (negb (JsString.truthy wsBaseUrl)); exact Hinv.
  - cbn. lia.
Qed.

(** The count stays within 1..5 when the notices' counts do. *)
Lemma step_count_in_range (st : State) (e : Event) :
  countInRange e ->
  1 <= userCount st <= 5 ->
  1 <= userCount (step wsBaseUrl st e) <= 5.
Proof.
  intros He Hinv.
  destruct e as [m | | | | | code |]; cbn [step].
  - destruct m as [[p | t c | [] c text n] |]; cbn [onLastMessage];
      try exact Hinv.
    + destruct n as [n |]; cbn in He |- *; lia.
    + destruct n as [n |]; cbn in He |- *; lia.
    + destruct (JsString.truthy c); [cbn; lia | exact Hinv].
    + destruct (JsString.truthy c); exact Hinv.
    + destruct (JsString.optIncludes text "Session is full");
        [exact Hinv |].
      destruct (JsString.optIncludes text "Session not found"); exact Hinv.
  - unfold sessionCodeEffect.
    destruct (JsString.truthy (Some (sessionCode st))); exact Hinv.
  - unfold reconnectEffect.
    destruct (_ && _ && _ && _); exact Hinv.
  - unfold handleCreateSession.
    destruct (negb (JsString.truthy wsBaseUrl)); exact Hinv.
  - exact Hinv.
  - unfold handleJoinSession.
    destruct (negb (JsString.truthy wsBaseUrl)); exact Hinv.
  - cbn. lia.
Qed.

End AppRuns.

(** X17. The App never shows a blank page: whatever messages arrive and
    whatever the user clicks, in any order, starting from any content of
    [localStorage], whenever the view is [session] the session code is
    not empty, so the component returns one of its four screens and
    never [null]. *)
Theorem app_never_renders_nothing
  (wsBaseUrl : option string) (storage : gmap string string)
  (events : list AppPart001.Event) (hook : UseWebSocket.Hook) :
  let st := AppPart001.run wsBaseUrl (AppPart001.initial storage) events in
  (AppPart001.view st = AppPart001.session ->
   AppPart001.sessionCode st <> "") /\
  AppPart001.render hook st <> AppPart001.Nothing.
Proof.
  intros st.
  assert (Hinv : AppPart001.view st = AppPart001.session ->
                 JsString.truthy (Some (AppPart001.sessionCode st)) = true).
  { subst st.
    apply (run_invariant wsBaseUrl
             (fun st => AppPart001.view st = AppPart001.session ->
                        JsString.truthy (Some (AppPart001.sessionCode st)) = true)).
    - intros st e. apply step_session_has_code.
    - discriminate. }
  split.
  - intros Hv. by apply truthy_nonempty, Hinv.
  - unfold AppPart001.render.
    destruct (AppPart001.view st); try discriminate.
    by rewrite Hinv.
Qed.

(** X18. In every state the App reaches, a user count of two or more
    comes with [partnerConnected]; so whenever the buttons of the
    session view are enabled, the status line reads "<n> Users
    Connected" with the current count, never "Waiting for Others" or
    "Partner Connected". *)
Theorem enabled_buttons_show_user_count
  (wsBaseUrl : option string) (storage : gmap string string)
  (events : list AppPart001.Event) (connectionStatus : ConnectionStatus.t) :
  let st := AppPart001.run wsBaseUrl (AppPart001.initial storage) events in
  (2 <= AppPart001.userCount st -> AppPart001.partnerConnected st = true) /\
  (VibrationControl.disabled connectionStatus (AppPart001.userCount st) = false ->
   VibrationControl.getStatusText connectionStatus
     (AppPart001.partnerConnected st) (AppPart001.userCount st) =
     pretty (AppPart001.userCount st) +:+ " Users Connected").
Proof.
  intros st.
  assert (Hinv : 2 <= AppPart001.userCount st ->
                 AppPart001.partnerConnected st = true).
  { subst st.
    apply (run_invariant wsBaseUrl
             (fun st => 2 <= AppPart001.userCount st ->
                        AppPart001.partnerConnected st = true)).
    - intros st e. apply step_partner_flag.
    - cbn. lia. }
  split; [exact Hinv |].
  unfold VibrationControl.disabled, VibrationControl.getStatusText.
  destruct connectionStatus; cbn [VibrationControl.isConnected negb orb];
    try discriminate.
  intros Hlt%Z.ltb_ge. rewrite Hinv by exact Hlt.
  destruct (Z.ltb_spec 1 (AppPart001.userCount st)); [reflexivity | lia].
Qed.

(** X19. The user count the App shows stays between 1 and 5: from any
    content of [localStorage], over any run of messages and clicks in
    which the counts carried by [partner_connected] and
    [partner_disconnected] are between 1 and 5; a notice without a count
    moves it by one and never out of that range. *)
Theorem user_count_stays_in_range
  (wsBaseUrl : option string) (storage : gmap string string)
  (events : list AppPart001.Event) :
  Forall countInRange events ->
  1 <= AppPart001.userCount
         (AppPart001.run wsBaseUrl (AppPart001.initial storage) events) <= 5.
Proof.
  intros Hall.
  assert (Hgen : forall st, 1 <= AppPart001.userCount st <= 5 ->
            1 <= AppPart001.userCount (AppPart001.run wsBaseUrl st events) <= 5).
  { unfold AppPart001.run.
    induction Hall as [| e events He Hall IH]; intros st Hst; [exact Hst |].
    cbn [fold_left]. apply IH. by apply step_count_in_range. }
  apply Hgen. cbn. lia.
Qed.

Lemma user_count_stays_in_range_witness :
  let notice := Wire.StatusMessage StatusType.partner_connected None None None in
  1 <= AppPart001.userCount
         (AppPart001.run None (AppPart001.initial ∅)
            (replicate 7 (AppPart001.LastMessage (Some notice)))) <= 5.
Proof.
  intros notice.
  apply (user_count_stays_in_range None ∅).
  repeat constructor.
Defined.

(** ** The join form, the two Apps and the session view *)

Lemma removeNonDigits_id (s : string) :
  forallb JsString.isDigit (list_ascii_of_string s) = true ->
  JsString.removeNonDigits s = s.
Proof.
  induction s as [| c s IH]; cbn; [done |].
  intros [Hc Hs]%andb_true_iff. rewrite Hc. by rewrite IH.
Qed.

Lemma slice0_short (n : nat) : forall s,
  (String.length s <= n)%nat -> JsString.slice0 n s = s.
Proof.
  unfold JsString.slice0.
  induction n as [| n IH]; intros [| c s]; cbn; try done; try lia.
  intros H. rewrite IH by lia. done.
Qed.

(** X20. What is typed into the join form can be submitted exactly when
    the Join button is enabled: after any input the field holds the
    first six digits of what was typed, so [handleSubmit] passes the
    code on when the field has six characters and refuses it otherwise,
    the test [^\d{6}$] and the button's test on the length agree, and
    filtering the field's own content again changes nothing. *)
Theorem typed_code_submits_iff_enabled
  (value : string) (form : SessionJoin.State) :
  let typed := SessionJoin.onChange value form in
  snd (SessionJoin.handleSubmit typed) =
    (if SessionJoin.submitDisabled typed then None
     else Some (SessionJoin.sessionCode typed)) /\
  SessionJoin.submitDisabled typed =
    negb (six_digits (SessionJoin.sessionCode typed)) /\
  SessionJoin.onChange (SessionJoin.sessionCode typed) typed = typed.
Proof.
  intros typed.
  assert (Hdig : forallb JsString.isDigit
                   (list_ascii_of_string (SessionJoin.sessionCode typed)) = true)
    by apply slice0_digits, removeNonDigits_digits.
  assert (Hsix : six_digits (SessionJoin.sessionCode typed) =
                 (String.length (SessionJoin.sessionCode typed) =? 6)%nat).
  { unfold six_digits. rewrite <- forallb_isDigit, Hdig. apply andb_true_r. }
  split; [| split].
  - rewrite handleSubmit_cases. unfold SessionJoin.submitDisabled.
    rewrite Hsix.
    by destruct (String.length (SessionJoin.sessionCode typed) =? 6)%nat.
  - unfold SessionJoin.submitDisabled. by rewrite Hsix.
  - unfold SessionJoin.onChange at 1.
    rewrite removeNonDigits_id by exact Hdig.
    rewrite slice0_short by apply slice0_length.
    reflexivity.
Qed.

Lemma append_inj_l (s : string) : forall a b, s +:+ a = s +:+ b -> a = b.
Proof.
  induction s as [| c s IH]; intros a b H; [exact H |].
  injection H as H. by apply IH.
Qed.

(** X21. Joining and creating never meet: with the endpoint configured,
    [handleCreateSession] targets [<endpoint>/new] and
    [handleJoinSession] targets [<endpoint>/<code>], and the two targets
    are the same only for the code "new", which is not six digits; so a
    code that went through the join form never opens the socket that
    creates a session. *)
Theorem join_never_targets_create
  (rawWsUrl : option string) (base code : string)
  (st st' : AppPart001.State) :
  AppPart001.wsBaseUrl rawWsUrl = Some base ->
  AppPart001.wsUrl (AppPart001.handleCreateSession (Some base) st') =
    Some (base +:+ "/new") /\
  AppPart001.view (AppPart001.handleCreateSession (Some base) st') =
    AppPart001.create /\
  AppPart001.wsUrl (AppPart001.handleJoinSession (Some base) code st) =
    Some (base +:+ "/" +:+ code) /\
  (AppPart001.wsUrl (AppPart001.handleJoinSession (Some base) code st) =
   AppPart001.wsUrl (AppPart001.handleCreateSession (Some base) st') <->
   code = "new") /\
  (six_digits code = true ->
   AppPart001.wsUrl (AppPart001.handleJoinSession (Some base) code st) <>
   AppPart001.wsUrl (AppPart001.handleCreateSession (Some base) st')).
Proof.
  intros Hbase.
  destruct (wsBaseUrl_Some _ _ Hbase) as (_ & Ht & _).
  unfold AppPart001.handleCreateSession, AppPart001.handleJoinSession.
  rewrite Ht.
  cbn [negb AppPart001.wsUrl AppPart001.view AppPart001.setWsUrl
       AppPart001.setView].
  change (default "" (Some base)) with base.
  assert (Hiff : Some (base +:+ "/" +:+ code) = Some (base +:+ "/new") <->
                 code = "new").
  { split.
    - intros [= H]. apply append_inj_l in H.
      by apply (append_inj_l "/") in H.
    - by intros ->. }
  repeat split; try apply Hiff.
  intros Hsix Heq. apply Hiff in Heq. subst code. discriminate Hsix.
Qed.

Lemma join_never_targets_create_witness :
  AppPart001.wsUrl
    (AppPart001.handleJoinSession (Some "wss://buzz.example/ws") "483920"
       (AppPart001.initial ∅)) =
    Some "wss://buzz.example/ws/483920".
Proof.
  exact (proj1 (proj2 (proj2
           (join_never_targets_create (Some "wss://buzz.example/")
              "wss://buzz.example/ws" "483920"
              (AppPart001.initial ∅) (AppPart001.initial ∅) eq_refl)))).
Defined.

Lemma append_empty_r (s : string) : s +:+ "" = s.
Proof.
  induction s as [| c s IH]; [done |].
  change (String c s +:+ "") with (String c (s +:+ "")). by rewrite IH.
Qed.

Lemma append_assoc (a b c : string) : (a +:+ b) +:+ c = a +:+ (b +:+ c).
Proof.
  induction a as [| x a IH]; [done |].
  change ((String x a +:+ b) +:+ c) with (String x ((a +:+ b) +:+ c)).
  by rewrite IH.
Qed.

Lemma length_append (a b : string) :
  String.length (a +:+ b) = (String.length a + String.length b)%nat.
Proof.
  induction a as [| x a IH]; [done |].
  change (String x a +:+ b) with (String x (a +:+ b)). cbn [String.length].
  by rewrite IH.
Qed.

Lemma append_longer (a s : string) : a <> "" -> s <> a +:+ s.
Proof.
  intros Ha Heq. apply (f_equal String.length) in Heq.
  rewrite length_append in Heq.
  destruct a; [done |]. cbn [String.length] in Heq. lia.
Qed.

(** When the two Apps work with the same endpoint. *)
Lemma endpoints_coincide (viteWsUrl : option string) (dev : bool) :
  AppPart001.wsBaseUrl (AppPart001.rawWsUrl viteWsUrl dev) =
    Some (AppTsx.wsBaseUrl viteWsUrl) <->
  (JsString.truthy viteWsUrl = true /\
   JsString.endsWith (AppTsx.wsBaseUrl viteWsUrl) "/ws" = true) \/
  (JsString.truthy viteWsUrl = false /\ dev = true).
Proof.
  unfold AppPart001.rawWsUrl, AppTsx.wsBaseUrl.
  destruct (JsString.truthy viteWsUrl) eqn:Hv.
  - destruct viteWsUrl as [v |]; [| discriminate].
    change (default "" (Some v)) with v.
    unfold AppPart001.wsBaseUrl. rewrite Hv.
    change (default "" (Some v)) with v.
    destruct (JsString.endsWith v "/ws") eqn:Hws; [split; auto |].
    split; [| intros [[_ H] | [H _]]; discriminate H].
    destruct (JsString.endsWith v "/"); intros [= H]; exfalso.
    + rewrite <- (append_empty_r v) in H at 2.
      apply append_inj_l in H. discriminate H.
    + rewrite <- (append_empty_r v) in H at 2.
      apply append_inj_l in H. discriminate H.
  - destruct dev.
    + split; [auto | reflexivity].
    + split; [discriminate | intros [[H _] | [_ H]]; discriminate H].
Qed.

(** X22. The two revisions of the App handle the messages alike as far
    as the screen goes: starting from the same view, session code and
    socket target, every message leaves them with the same view, code
    and target, except an error naming a missing session, on which the
    earlier App goes to the join view and keeps the target while the
    current one goes to the landing view and drops it; and so does
    [handleBackToLanding]. Each App computes its own endpoint from
    [VITE_WS_URL]: the earlier one takes it as it is, or the local
    default when it is not set; the current one appends [/ws] where it
    is missing, and has none outside development when it is not set. The
    two endpoints coincide exactly when [VITE_WS_URL] is set and ends
    with [/ws], or is not set in development, and then
    [handleJoinSession] and [handleCreateSession] agree too; when
    [VITE_WS_URL] is set and does not end with [/ws] the two Apps open
    different targets, and when it is not set outside development the
    current App alerts where the earlier one targets the local
    default. *)
Theorem revisions_show_same_screen
  (lastMessage : option Wire.WebSocketMessage)
  (old : AppTsx.State) (cur : AppPart001.State)
  (viteWsUrl : option string) (dev : bool) (code : string) :
  sameScreen old cur ->
  let oldBase := AppTsx.wsBaseUrl viteWsUrl in
  let curBase := AppPart001.wsBaseUrl (AppPart001.rawWsUrl viteWsUrl dev) in
  (isNotFoundError lastMessage = false ->
   sameScreen (AppTsx.onLastMessage lastMessage old)
     (AppPart001.onLastMessage lastMessage cur)) /\
  (isNotFoundError lastMessage = true ->
   AppTsx.view (AppTsx.onLastMessage lastMessage old) = AppTsx.join /\
   AppTsx.wsUrl (AppTsx.onLastMessage lastMessage old) = AppTsx.wsUrl old /\
   AppPart001.view (AppPart001.onLastMessage lastMessage cur) =
     AppPart001.landing /\
   AppPart001.wsUrl (AppPart001.onLastMessage lastMessage cur) = None) /\
  sameScreen (AppTsx.handleBackToLanding old)
    (AppPart001.handleBackToLanding cur) /\
  (curBase = Some oldBase <->
   (JsString.truthy viteWsUrl = true /\
    JsString.endsWith oldBase "/ws" = true) \/
   (JsString.truthy viteWsUrl = false /\ dev = true)) /\
  (curBase = Some oldBase ->
   sameScreen (AppTsx.handleJoinSession oldBase code old)
     (AppPart001.handleJoinSession curBase code cur) /\
   sameScreen (AppTsx.handleCreateSession oldBase old)
     (AppPart001.handleCreateSession curBase cur)) /\
  (JsString.truthy viteWsUrl = true ->
   JsString.endsWith oldBase "/ws" = false ->
   AppTsx.wsUrl (AppTsx.handleJoinSession oldBase code old) <>
     AppPart001.wsUrl (AppPart001.handleJoinSession curBase code cur) /\
   AppTsx.wsUrl (AppTsx.handleCreateSession oldBase old) <>
     AppPart001.wsUrl (AppPart001.handleCreateSession curBase cur)) /\
  (JsString.truthy viteWsUrl = false ->
   dev = false ->
   AppTsx.wsUrl (AppTsx.handleCreateSession oldBase old) =
     Some "ws://localhost:8000/ws/new" /\
   AppPart001.handleCreateSession curBase cur =
     AppPart001.alert
       "WebSocket URL is not configured. Please set VITE_WS_URL environment variable in Vercel."
       cur /\
   AppPart001.handleJoinSession curBase code cur =
     AppPart001.alert
       "WebSocket URL is not configured. Please set VITE_WS_URL environment variable in Vercel."
       cur).
Proof.
  intros (Hv & Hc & Hu) oldBase curBase.
  split; [| split; [| split; [| split; [| split; [| split]]]]].
  - destruct lastMessage as [[p | t c | [] c text n] |];
      cbn [isNotFoundError AppTsx.onLastMessage AppPart001.onLastMessage];
      intros Hnf; try (by repeat split).
    + destruct n; by repeat split.
    + destruct n; by repeat split.
    + destruct (JsString.truthy c); by repeat split.
    + destruct (JsString.truthy c); by repeat split.
    + destruct (JsString.optIncludes text "Session is full");
        [by repeat split |].
      cbn [negb andb] in Hnf. rewrite Hnf. by repeat split.
  - destruct lastMessage as [[p | t c | [] c text n] |];
      cbn [isNotFoundError]; try discriminate.
    cbn [AppTsx.onLastMessage AppPart001.onLastMessage].
    destruct (JsString.optIncludes text "Session is full");
      [discriminate |].
    cbn [negb andb]. intros ->. by repeat split.
  - by repeat split.
  - apply endpoints_coincide.
  - intros Heq. rewrite Heq.
    destruct (wsBaseUrl_Some _ _ Heq) as (_ & Ht & _).
    unfold AppPart001.handleJoinSession, AppPart001.handleCreateSession.
    rewrite Ht. by repeat split.
  - intros Hvite Hws.
    assert (Hcur : curBase = Some (oldBase +:+ "ws") \/
                   curBase = Some (oldBase +:+ "/ws")).
    { subst curBase oldBase. unfold AppPart001.rawWsUrl, AppTsx.wsBaseUrl in *.
      rewrite Hvite in *. destruct viteWsUrl as [v |]; [| discriminate].
      change (default "" (Some v)) with v in *.
      unfold AppPart001.wsBaseUrl. rewrite Hvite.
      change (default "" (Some v)) with v. rewrite Hws.
      destruct (JsString.endsWith v "/"); auto. }
    assert (Ht : JsString.truthy (Some oldBase) = true).
    { subst oldBase. unfold AppTsx.wsBaseUrl. rewrite Hvite.
      by destruct viteWsUrl. }
    unfold AppPart001.handleJoinSession, AppPart001.handleCreateSession,
      AppTsx.handleJoinSession, AppTsx.handleCreateSession.
    destruct Hcur as [-> | ->];
      rewrite (truthy_app _ _ Ht);
      cbn [negb AppTsx.wsUrl AppTsx.setWsUrl AppPart001.wsUrl
           AppPart001.setWsUrl AppPart001.setView];
      match goal with
      | |- context [default "" (Some ?b)] =>
          change (default "" (Some b)) with b
      end;
      rewrite !append_assoc; split; intros [= H];
      apply append_inj_l in H.
    + discriminate H.
    + discriminate H.
    + injection H as H. by apply (append_longer "ws/") in H.
    + discriminate H.
  - intros Hvite ->.
    subst curBase oldBase. unfold AppPart001.rawWsUrl, AppTsx.wsBaseUrl.
    rewrite Hvite. by repeat split.
Qed.

Lemma revisions_show_same_screen_witness :
  sameScreen
    (AppTsx.onLastMessage (Some session_full_error) AppTsx.initial)
    (AppPart001.onLastMessage (Some session_full_error)
       (AppPart001.initial ∅)).
Proof.
  refine (proj1 (revisions_show_same_screen (Some session_full_error)
                   AppTsx.initial (AppPart001.initial ∅) None true "" _)
            eq_refl).
  by repeat split.
Defined.

(** With [VITE_WS_URL] set to a host without [/ws], the two Apps create
    a session through different targets. *)
Example endpoints_differ_without_ws :
  let vite := Some "wss://buzz.example" in
  AppTsx.wsUrl
    (AppTsx.handleCreateSession (AppTsx.wsBaseUrl vite) AppTsx.initial) =
    Some "wss://buzz.example/new" /\
  AppPart001.wsUrl
    (AppPart001.handleCreateSession
       (AppPart001.wsBaseUrl (AppPart001.rawWsUrl vite false))
       (AppPart001.initial ∅)) =
    Some "wss://buzz.example/ws/new".
Proof. split; reflexivity. Qed.

(** X23. The buttons of the session view are enabled exactly when the
    status dot is green, that is, when the socket is connected and at
    least two users are in the session; a click on a disabled button
    changes nothing and sends nothing, and a click on an enabled one
    calls [sendMessage] once, with a [vibrate] message carrying the
    button's pattern, and marks the button as pressed for 300 ms. *)
Theorem buttons_enabled_iff_green
  (b : VibrationControl.Button) (readyStateOpen sendOk : bool)
  (app : AppPart001.State) (hook : UseWebSocket.Hook)
  (vc : VibrationControl.State) :
  let status := UseWebSocket.connectionStatus hook in
  let count := AppPart001.userCount app in
  VibrationControl.disabled status count =
    negb (String.eqb (VibrationControl.getStatusColor status count)
            "bg-green-500") /\
  (VibrationControl.disabled status count = false <->
   status = ConnectionStatus.connected /\ 2 <= count) /\
  (VibrationControl.disabled status count = true ->
   pressButton b readyStateOpen sendOk app hook vc = (vc, hook, None)) /\
  (VibrationControl.disabled status count = false ->
   pressButton b readyStateOpen sendOk app hook vc =
     ({| VibrationControl.pressedButton := Some (VibrationControl.pattern b);
         VibrationControl.receivedVibration :=
           VibrationControl.receivedVibration vc;
         VibrationControl.timers :=
           VibrationControl.timers vc ++ [VibrationControl.ClearPressedButton 300] |},
      fst (UseWebSocket.sendMessage readyStateOpen sendOk
             (Wire.VibrateMessage (VibrationControl.pattern b)) hook),
      snd (UseWebSocket.sendMessage readyStateOpen sendOk
             (Wire.VibrateMessage (VibrationControl.pattern b)) hook))).
Proof.
  intros status count.
  split; [| split; [| split]].
  - unfold VibrationControl.disabled, VibrationControl.getStatusColor.
    destruct status; cbn [VibrationControl.isConnected negb orb];
      try reflexivity.
    destruct (Z.ltb_spec count 2), (Z.leb_spec 2 count); try lia; reflexivity.
  - unfold VibrationControl.disabled.
    destruct status; cbn [VibrationControl.isConnected negb orb];
      try (split; [discriminate | intros [? _]; discriminate]).
    rewrite Z.ltb_ge. tauto.
  - intros Hd. unfold pressButton, VibrationControl.click.
    fold status count. by rewrite Hd.
  - intros Hd. unfold pressButton, VibrationControl.click.
    fold status count. rewrite Hd.
    cbn [VibrationControl.handleButtonClick]. unfold AppPart001.handleVibrate.
    by destruct (UseWebSocket.sendMessage _ _ _ _).
Qed.

(** X24. From a button to the partner's device. Each of the four
    buttons carries a pattern [n] between 1 and 4 and says so in its
    description ("[n] vibrations"). Pressed while enabled, with the
    socket open, it sends exactly the message
    [{type: "vibrate", pattern: n}] and leaves the hook as it was. A
    session view that receives this message shows the indicator for the
    pattern and calls [triggerHaptic], which, on a device with the
    Vibration API and no Capacitor that accepts the call, hands
    [navigator.vibrate] the array of [n] pulses of 200 ms, in either
    revision, and makes no other device call. *)
Theorem button_press_vibrates_partner
  (b : VibrationControl.Button)
  (app : AppPart001.State) (hook : UseWebSocket.Hook)
  (vc received : VibrationControl.State)
  (env : HapticEnv.Platform) (indicatorMs : Z) :
  b ∈ VibrationControl.buttons ->
  UseWebSocket.connectionStatus hook = ConnectionStatus.connected ->
  2 <= AppPart001.userCount app ->
  UseWebSocket.wsRef hook <> None ->
  HapticEnv.isCapacitor env = false ->
  HapticEnv.isVibrationAPISupported env = true ->
  (forall arr, HapticEnv.vibrate env 0%nat arr = Some true) ->
  exists n : nat,
    (1 <= n <= 4)%nat /\
    VibrationControl.pattern b = HapticEnv.numberOfNat n /\
    VibrationControl.description b = describeCount n /\
    HapticEnv.getVibrationCount (pulses n) = n /\
    let frame := Wire.VibrateMessage (VibrationControl.pattern b) in
    snd (pressButton b true true app hook vc) = Some frame /\
    snd (fst (pressButton b true true app hook vc)) = hook /\
    Wire.fields frame =
      [("type", Wire.JsonString); ("pattern", Wire.JsonNumber)] /\
    VibrationControl.receivedVibration
      (fst (VibrationControl.onLastMessage indicatorMs (Some frame) received)) =
      Some (VibrationControl.pattern b) /\
    deviceCalls
      (Js.trace (snd (receive Haptic1.triggerHaptic env indicatorMs
                        (Some frame) received))) =
      [Js.NavigatorVibrate (pulses n)] /\
    deviceCalls
      (Js.trace (snd (receive Haptic2.triggerHaptic env indicatorMs
                        (Some frame) received))) =
      [Js.NavigatorVibrate (pulses n)].
Proof.
  intros Hb Hstatus Hcount Hws Hcap Hvib Hacc.
  assert (Hpress : forall p,
    VibrationControl.pattern b = p ->
    snd (pressButton b true true app hook vc) = Some (Wire.VibrateMessage p) /\
    snd (fst (pressButton b true true app hook vc)) = hook).
  { intros p <-.
    unfold pressButton, VibrationControl.click, VibrationControl.disabled.
    rewrite Hstatus. cbn [VibrationControl.isConnected negb orb].
    destruct (Z.ltb_spec (AppPart001.userCount app) 2) as [Hlt | _]; [lia |].
    cbn [VibrationControl.handleButtonClick].
    unfold AppPart001.handleVibrate, UseWebSocket.sendMessage.
    destruct (UseWebSocket.wsRef hook); [split; reflexivity | done]. }
  assert (Hrecv : forall (p : float) arr1 n1 arr2 n2,
    JsNumber.truthy p = true ->
    Haptic1.decode (inl p) = (arr1, n1) ->
    Haptic2.decode (inl p) = (arr2, n2) ->
    VibrationControl.receivedVibration
      (fst (VibrationControl.onLastMessage indicatorMs
              (Some (Wire.VibrateMessage p)) received)) = Some p /\
    deviceCalls
      (Js.trace (snd (receive Haptic1.triggerHaptic env indicatorMs
                        (Some (Wire.VibrateMessage p)) received))) =
      [Js.NavigatorVibrate arr1] /\
    deviceCalls
      (Js.trace (snd (receive Haptic2.triggerHaptic env indicatorMs
                        (Some (Wire.VibrateMessage p)) received))) =
      [Js.NavigatorVibrate arr2]).
  { intros p arr1 n1 arr2 n2 Hp H1 H2.
    unfold receive. cbn [VibrationControl.onLastMessage]. rewrite Hp.
    cbn [fst snd VibrationControl.receivedVibration].
    unfold Haptic1.triggerHaptic, Haptic2.triggerHaptic.
    rewrite H1, H2.
    unfold Haptic1.capacitorBranch, Haptic2.capacitorBranch,
      Haptic1.vibrationBranch, Haptic2.vibrationBranch,
      HapticEnv.navigatorVibrate.
    rewrite Hcap, Hvib, !Hacc.
    destruct (HapticEnv.isIOS env); repeat split; reflexivity. }
  unfold VibrationControl.buttons in Hb.
  repeat (apply elem_of_cons in Hb as [-> | Hb]);
    [exists 1%nat | exists 2%nat | exists 3%nat | exists 4%nat
     | by apply elem_of_nil in Hb];
    (split; [lia |]); (split; [reflexivity |]); (split; [reflexivity |]);
    (split; [reflexivity |]); cbv zeta;
    cbn [VibrationControl.pattern];
    (destruct (Hpress _ eq_refl) as [Hsent Hhook]);
    (split; [exact Hsent |]); (split; [exact Hhook |]);
    (split; [reflexivity |]);
    match goal with
    | |- context [Wire.VibrateMessage ?p] =>
        apply (Hrecv p _ _ _ _ eq_refl eq_refl eq_refl)
    end.
Qed.

Lemma button_press_vibrates_partner_witness :
  let env := {| HapticEnv.isCapacitor := false;
                HapticEnv.hapticsImport := false;
                HapticEnv.impactOk := fun _ => false;
                HapticEnv.isVibrationAPISupported := true;
                HapticEnv.vibrate := fun _ _ => Some true;
                HapticEnv.isIOS := false |} in
  let hook := UseWebSocket.onopen
                (UseWebSocket.connect (Some "wss://buzz.example/ws/483920")
                   true UseWebSocket.initial) in
  let app := AppPart001.setUserCount (fun _ => 2) (AppPart001.initial ∅) in
  let b := {| VibrationControl.label := "C";
              VibrationControl.pattern := 3;
              VibrationControl.description := "3 vibrations" |} in
  exists n : nat,
    (1 <= n <= 4)%nat /\
    VibrationControl.pattern b = HapticEnv.numberOfNat n /\
    VibrationControl.description b = describeCount n.
Proof.
  intros env hook app b.
  assert (Hb : b ∈ VibrationControl.buttons).
  { apply list_elem_of_further, list_elem_of_further, list_elem_of_here. }
  destruct (button_press_vibrates_partner b app hook VibrationControl.initial
              VibrationControl.initial env 2000 Hb eq_refl
              ltac:(cbn; lia) ltac:(discriminate) eq_refl eq_refl
              (fun _ => eq_refl))
    as (n & Hn & Hp & Hd & _).
  exists n. exact (conj Hn (conj Hp Hd)).
Defined.

(** ** The App of part_001: the saved session type, the alerts, a join *)

Section SavedSessionType.
Import AppPart001.

Variable wsBaseUrl : option string.

Lemma saved_code_same (a b : gmap string string) :
  delete SESSION_TYPE_KEY a = delete SESSION_TYPE_KEY b ->
  a !! SESSION_CODE_KEY = b !! SESSION_CODE_KEY.
Proof.
  intros H.
  rewrite <- (lookup_delete_ne a SESSION_TYPE_KEY SESSION_CODE_KEY)
    by (apply not_eq_sym, keys_differ).
  rewrite <- (lookup_delete_ne b SESSION_TYPE_KEY SESSION_CODE_KEY)
    by (apply not_eq_sym, keys_differ).
  by rewrite H.
Qed.

Lemma set_type_same (v : string) (a b : gmap string string) :
  delete SESSION_TYPE_KEY a = delete SESSION_TYPE_KEY b ->
  delete SESSION_TYPE_KEY (<[SESSION_TYPE_KEY := v]> a) =
    delete SESSION_TYPE_KEY (<[SESSION_TYPE_KEY := v]> b).
Proof. intros H. by rewrite !delete_insert_eq. Qed.

Lemma set_code_same (v : string) (a b : gmap string string) :
  delete SESSION_TYPE_KEY a = delete SESSION_TYPE_KEY b ->
  delete SESSION_TYPE_KEY (<[SESSION_CODE_KEY := v]> a) =
    delete SESSION_TYPE_KEY (<[SESSION_CODE_KEY := v]> b).
Proof.
  intros H. rewrite !delete_insert_ne by (apply not_eq_sym, keys_differ).
  by rewrite H.
Qed.

Lemma remove_both_same (a b : gmap string string) :
  delete SESSION_TYPE_KEY a = delete SESSION_TYPE_KEY b ->
  delete SESSION_TYPE_KEY
    (delete SESSION_TYPE_KEY (delete SESSION_CODE_KEY a)) =
  delete SESSION_TYPE_KEY
    (delete SESSION_TYPE_KEY (delete SESSION_CODE_KEY b)).
Proof.
  intros H. rewrite !delete_delete_eq.
  rewrite (delete_delete a), (delete_delete b). by rewrite H.
Qed.

Lemma step_sameButSessionType (a b : State) (e : Event) :
  sameButSessionType a b ->
  sameButSessionType (step wsBaseUrl a e) (step wsBaseUrl b e).
Proof.
  destruct a as [va ca pa na ua la aa], b as [vb cb pb nb ub lb ab].
  unfold sameButSessionType.
  cbn [view sessionCode partnerConnected userCount wsUrl alerts localStorage].
  intros (<- & <- & <- & <- & <- & <- & Hl).
  pose proof (saved_code_same _ _ Hl) as Hcode.
  pose proof (remove_both_same _ _ Hl) as Hboth.
  destruct e as [m | | | | | code |]; cbn [step].
  - destruct m as [[p | t c | [] c text n] |]; cbn [onLastMessage];
      try (by repeat split).
    + destruct n; by repeat split.
    + destruct n; by repeat split.
    + destruct (JsString.truthy c); [| by repeat split].
      cbn. repeat split. by apply set_type_same.
    + destruct (JsString.truthy c); [| by repeat split].
      cbn. repeat split. by apply set_type_same.
    + destruct (JsString.optIncludes text "Session is full");
        [cbn; by repeat split |].
      destruct (JsString.optIncludes text "Session not found");
        cbn; by repeat split.
  - unfold sessionCodeEffect.
    cbn [sessionCode].
    destruct (JsString.truthy (Some ca)); cbn; repeat split;
      [by apply set_code_same | exact Hboth].
  - unfold reconnectEffect. cbn [localStorage wsUrl view].
    rewrite Hcode.
    destruct (_ && _ && _ && _); cbn; by repeat split.
  - unfold handleCreateSession.
    destruct (negb (JsString.truthy wsBaseUrl)); cbn; by repeat split.
  - cbn. by repeat split.
  - unfold handleJoinSession.
    destruct (negb (JsString.truthy wsBaseUrl)); cbn; by repeat split.
  - cbn. repeat split. exact Hboth.
Qed.

(** What an event adds to the alerts. *)
Lemma step_alerts (st : State) (e : Event) :
  exists new,
    alerts (step wsBaseUrl st e) = alerts st ++ new /\
    Forall (fun text => text ∈ alertTexts) new /\
    (JsString.truthy wsBaseUrl = true ->
     length new = if isRefusal e then 1%nat else 0%nat).
Proof.
  assert (Hnone : exists new : list string,
            alerts st = alerts st ++ new /\
            Forall (fun text => text ∈ alertTexts) new /\
            (JsString.truthy wsBaseUrl = true -> length new = 0%nat)).
  { exists []. rewrite app_nil_r. by repeat split. }
  destruct e as [m | | | | | code |]; cbn [step isRefusal].
  - destruct m as [[p | t c | [] c text n] |]; cbn [onLastMessage];
      try exact Hnone.
    + destruct n; exact Hnone.
    + destruct n; exact Hnone.
    + destruct (JsString.truthy c); exact Hnone.
    + destruct (JsString.truthy c); exact Hnone.
    + destruct (JsString.optIncludes text "Session is full");
        [| destruct (JsString.optIncludes text "Session not found")];
        cbn [orb]; [| | exact Hnone]; eexists; (split; [reflexivity |]);
        (split; [| done]); apply Forall_singleton; unfold alertTexts;
        repeat first [apply list_elem_of_here | apply list_elem_of_further].
  - unfold sessionCodeEffect.
    destruct (JsString.truthy (Some (sessionCode st))); exact Hnone.
  - unfold reconnectEffect. destruct (_ && _ && _ && _); exact Hnone.
  - unfold handleCreateSession.
    destruct (JsString.truthy wsBaseUrl); cbn [negb]; [exact Hnone |].
    eexists. split; [reflexivity |]. split; [| done].
    apply Forall_singleton. unfold alertTexts.
    repeat first [apply list_elem_of_here | apply list_elem_of_further].
  - exact Hnone.
  - unfold handleJoinSession.
    destruct (JsString.truthy wsBaseUrl); cbn [negb]; [exact Hnone |].
    eexists. split; [reflexivity |]. split; [| done].
    apply Forall_singleton. unfold alertTexts.
    repeat first [apply list_elem_of_here | apply list_elem_of_further].
  - exact Hnone.
Qed.

Lemma run_alerts (events : list Event) : forall st,
  exists new,
    alerts (run wsBaseUrl st events) = alerts st ++ new /\
    Forall (fun text => text ∈ alertTexts) new /\
    (JsString.truthy wsBaseUrl = true ->
     length new = length (List.filter isRefusal events)).
Proof.
  unfold run.
  induction events as [| e events IH]; intros st.
  - exists []. rewrite app_nil_r. by repeat split.
  - cbn [fold_left List.filter].
    destruct (step_alerts st e) as (new1 & H1 & Hin1 & Hlen1).
    destruct (IH (step wsBaseUrl st e)) as (new2 & H2 & Hin2 & Hlen2).
    exists (new1 ++ new2). rewrite H2, H1, app_assoc.
    split; [reflexivity |]. split; [by apply Forall_app |].
    intros Ht. rewrite length_app, Hlen1, Hlen2 by exact Ht.
    by destruct (isRefusal e).
Qed.

End SavedSessionType.

(** X25. The session type the App saves under [buzz_session_type]
    ("created" or "joined") is written and removed but never read: two
    Apps that start from [localStorage] contents differing at most under
    that key go through the same views, codes, counts, socket targets
    and alerts on every run of messages, effects and clicks, render the
    same screen, and leave storages that still differ at most under that
    key. *)
Theorem session_type_is_never_read
  (wsBaseUrl : option string) (storage : gmap string string)
  (saved : option string) (events : list AppPart001.Event)
  (hook : UseWebSocket.Hook) :
  let other :=
    partial_alter (fun _ => saved) AppPart001.SESSION_TYPE_KEY storage in
  let a := AppPart001.run wsBaseUrl (AppPart001.initial storage) events in
  let b := AppPart001.run wsBaseUrl (AppPart001.initial other) events in
  sameButSessionType a b /\
  AppPart001.render hook a = AppPart001.render hook b.
Proof.
  intros other a b.
  assert (Hsame : sameButSessionType a b).
  { subst a b.
    assert (Hgen : forall x y, sameButSessionType x y ->
              sameButSessionType (AppPart001.run wsBaseUrl x events)
                (AppPart001.run wsBaseUrl y events)).
    { unfold AppPart001.run.
      induction events as [| e events IH]; intros x y Hxy; [exact Hxy |].
      cbn [fold_left]. by apply IH, step_sameButSessionType. }
    apply Hgen. unfold sameButSessionType, AppPart001.initial.
    cbn [AppPart001.view AppPart001.sessionCode AppPart001.partnerConnected
         AppPart001.userCount AppPart001.wsUrl AppPart001.alerts
         AppPart001.localStorage].
    assert (Hdel : delete AppPart001.SESSION_TYPE_KEY storage =
                   delete AppPart001.SESSION_TYPE_KEY other).
    { subst other. symmetry. apply map_eq. intros k.
      destruct (decide (k = AppPart001.SESSION_TYPE_KEY)) as [-> | Hk].
      - by rewrite !lookup_delete_eq.
      - rewrite !lookup_delete_ne by done.
        by rewrite lookup_partial_alter_ne. }
    rewrite (saved_code_same _ _ Hdel). by repeat split. }
  split; [exact Hsame |].
  destruct Hsame as (Hv & Hc & Hp & Hn & _).
  unfold AppPart001.render. by rewrite Hv, Hc, Hp, Hn.
Qed.

(** X26. The App's dialogs: every [alert] it ever shows has one of three
    texts (session full, session not found, endpoint not configured),
    and with the endpoint configured it shows exactly one alert per
    [error] message naming a full or a missing session, and no other
    alert, over any run of messages, effects and clicks. *)
Theorem one_alert_per_refusal
  (wsBaseUrl : option string) (storage : gmap string string)
  (events : list AppPart001.Event) :
  let st := AppPart001.run wsBaseUrl (AppPart001.initial storage) events in
  Forall (fun text => text ∈ alertTexts) (AppPart001.alerts st) /\
  (JsString.truthy wsBaseUrl = true ->
   length (AppPart001.alerts st) = length (List.filter isRefusal events)).
Proof.
  intros st.
  destruct (run_alerts wsBaseUrl events (AppPart001.initial storage))
    as (new & Hnew & Hin & Hlen).
  fold st in Hnew. cbn [AppPart001.initial AppPart001.alerts app] in Hnew.
  rewrite Hnew. split; [exact Hin | exact Hlen].
Qed.

(** X27. Joining a session, from the keyboard to the session view. With
    the endpoint configured, a value typed into the join form whose
    digits are a six-digit [code] is submitted as that code; the App
    targets [<endpoint>/<code>] and the hook opens exactly one socket,
    to that target; when the relay answers [session_joined] with the
    code, the App shows the session view for it, with one user and no
    partner yet, and [localStorage] holds the code and the type
    "joined". *)
Theorem typed_code_joins_session
  (rawWsUrl : option string) (base value code : string)
  (storage : gmap string string) (text : option string) (count : option Z) :
  AppPart001.wsBaseUrl rawWsUrl = Some base ->
  SessionJoin.sessionCode (SessionJoin.onChange value SessionJoin.initial) =
    code ->
  String.length code = 6%nat ->
  let form := SessionJoin.onChange value SessionJoin.initial in
  let app0 := AppPart001.step (Some base) (AppPart001.initial storage)
                AppPart001.ClickJoinSession in
  let app1 := snd (submitJoin (Some base) form app0) in
  let url := base +:+ "/" +:+ code in
  let hook1 := UseWebSocket.onUrlChange (AppPart001.wsUrl app1) true
                 UseWebSocket.initial in
  let joined :=
    Wire.StatusMessage StatusType.session_joined (Some code) text count in
  let hook2 := UseWebSocket.run (Some url) hook1
                 [UseWebSocket.SocketOpens;
                  UseWebSocket.SocketMessage (Some joined)] in
  let app2 := AppPart001.run (Some base) app1
                [AppPart001.LastMessage (UseWebSocket.lastMessage hook2);
                 AppPart001.SessionCodeEffect] in
  AppPart001.wsUrl app1 = Some url /\
  UseWebSocket.opened hook2 = [url] /\
  AppPart001.render hook2 app2 =
    AppPart001.SessionView code ConnectionStatus.connected false 1
      (Some joined) /\
  AppPart001.localStorage app2 !! AppPart001.SESSION_CODE_KEY = Some code /\
  AppPart001.localStorage app2 !! AppPart001.SESSION_TYPE_KEY = Some "joined".
Proof.
  intros Hbase Hcode Hlen form app0 app1 url hook1 joined hook2 app2.
  destruct (wsBaseUrl_Some _ _ Hbase) as (_ & Htb & _).
  assert (Htu : JsString.truthy (Some url) = true) by by apply truthy_app.
  assert (Htc : JsString.truthy (Some code) = true).
  { apply truthy_nonempty. intros ->. discriminate Hlen. }
  assert (Hsix : six_digits code = true).
  { unfold six_digits. rewrite Hlen. cbn [Nat.eqb andb].
    rewrite <- forallb_isDigit, <- Hcode.
    apply slice0_digits, removeNonDigits_digits. }
  assert (Happ1 : app1 = AppPart001.setWsUrl (Some url) app0).
  { assert (Hform : SessionJoin.sessionCode form = code) by exact Hcode.
    subst app1. unfold submitJoin. rewrite handleSubmit_cases.
    rewrite Hform, Hsix. cbn [snd]. unfold AppPart001.handleJoinSession.
    by rewrite Htb. }
  assert (Hhook1 : hook1 = UseWebSocket.connect (Some url) true
                             UseWebSocket.initial).
  { subst hook1. rewrite Happ1. cbn [AppPart001.wsUrl AppPart001.setWsUrl].
    unfold UseWebSocket.onUrlChange. by rewrite Htu. }
  assert (Hhook2 : UseWebSocket.opened hook2 = [url] /\
                   UseWebSocket.connectionStatus hook2 =
                     ConnectionStatus.connected /\
                   UseWebSocket.lastMessage hook2 = Some joined).
  { subst hook2. rewrite Hhook1. unfold UseWebSocket.run.
    cbn [fold_left UseWebSocket.step]. rewrite connect_opens by exact Htu.
    by repeat split. }
  destruct Hhook2 as (Hopened & Hstatus & Hlast).
  assert (Happ2 : app2 =
    AppPart001.storageSetItem AppPart001.SESSION_CODE_KEY code
      (AppPart001.setView AppPart001.session
         (AppPart001.storageSetItem AppPart001.SESSION_TYPE_KEY "joined"
            (AppPart001.setSessionCode code app1)))).
  { subst app2. unfold AppPart001.run. cbn [fold_left AppPart001.step].
    rewrite Hlast. subst joined. cbn [AppPart001.onLastMessage].
    rewrite Htc. unfold AppPart001.sessionCodeEffect.
    change (default "" (Some code)) with code.
    cbn [AppPart001.sessionCode AppPart001.setView AppPart001.storageSetItem
         AppPart001.setSessionCode].
    by rewrite Htc. }
  split; [by rewrite Happ1 |]. split; [exact Hopened |].
  rewrite Happ2, Happ1. split; [| split].
  - unfold AppPart001.render.
    cbn [AppPart001.view AppPart001.sessionCode AppPart001.partnerConnected
         AppPart001.userCount AppPart001.storageSetItem AppPart001.setView
         AppPart001.setSessionCode AppPart001.setWsUrl app0 AppPart001.step
         AppPart001.initial].
    by rewrite Htc, Hstatus, Hlast.
  - apply lookup_insert_eq.
  - cbn [AppPart001.localStorage AppPart001.storageSetItem AppPart001.setView].
    rewrite lookup_insert_ne by apply keys_differ. apply lookup_insert_eq.
Qed.

Lemma typed_code_joins_session_witness :
  let form := SessionJoin.onChange "48 39-20" SessionJoin.initial in
  let app0 := AppPart001.step (Some "wss://buzz.example/ws")
                (AppPart001.initial ∅) AppPart001.ClickJoinSession in
  AppPart001.wsUrl (snd (submitJoin (Some "wss://buzz.example/ws") form app0)) =
    Some "wss://buzz.example/ws/483920".
Proof.
  intros form app0.
  exact (proj1 (typed_code_joins_session (Some "wss://buzz.example")
                  "wss://buzz.example/ws" "48 39-20" "483920" ∅ None None
                  eq_refl eq_refl eq_refl)).
Defined.

(** X28. Creating a session, from the click to the session view. With
    the endpoint configured, "Create Session" shows the create view and
    targets [<endpoint>/new], and the hook opens exactly one socket, to
    that target; when the relay answers [session_created] with a
    non-empty code, the App shows the session view for it with one user
    and no partner, whatever the counts were before, and [localStorage]
    holds the code and the type "created"; a reload then comes back to
    the session through [<endpoint>/<code>]. *)
Theorem created_session_is_shown
  (rawWsUrl : option string) (base code : string)
  (st : AppPart001.State) (text : option string) (count : option Z) :
  AppPart001.wsBaseUrl rawWsUrl = Some base ->
  code <> "" ->
  let app1 := AppPart001.handleCreateSession (Some base) st in
  let url := base +:+ "/new" in
  let hook1 := UseWebSocket.onUrlChange (AppPart001.wsUrl app1) true
                 UseWebSocket.initial in
  let created :=
    Wire.StatusMessage StatusType.session_created (Some code) text count in
  let hook2 := UseWebSocket.run (Some url) hook1
                 [UseWebSocket.SocketOpens;
                  UseWebSocket.SocketMessage (Some created)] in
  let app2 := AppPart001.run (Some base) app1
                [AppPart001.LastMessage (UseWebSocket.lastMessage hook2);
                 AppPart001.SessionCodeEffect] in
  let reloaded := AppPart001.reconnectEffect (Some base)
                    (AppPart001.initial (AppPart001.localStorage app2)) in
  AppPart001.render hook1 app1 =
    AppPart001.CreatingPage "Creating session..." None /\
  UseWebSocket.opened hook2 = [url] /\
  AppPart001.render hook2 app2 =
    AppPart001.SessionView code ConnectionStatus.connected false 1
      (Some created) /\
  AppPart001.localStorage app2 !! AppPart001.SESSION_CODE_KEY = Some code /\
  AppPart001.localStorage app2 !! AppPart001.SESSION_TYPE_KEY =
    Some "created" /\
  AppPart001.wsUrl reloaded = Some (base +:+ "/" +:+ code).
Proof.
  intros Hbase Hcode app1 url hook1 created hook2 app2 reloaded.
  destruct (wsBaseUrl_Some _ _ Hbase) as (_ & Htb & _).
  assert (Htu : JsString.truthy (Some url) = true) by by apply truthy_app.
  assert (Htc : JsString.truthy (Some code) = true) by by apply truthy_nonempty.
  assert (Happ1 : app1 = AppPart001.setWsUrl (Some url)
                           (AppPart001.setView AppPart001.create st)).
  { subst app1. unfold AppPart001.handleCreateSession. by rewrite Htb. }
  assert (Hhook1 : hook1 = UseWebSocket.connect (Some url) true
                             UseWebSocket.initial).
  { subst hook1. rewrite Happ1. cbn [AppPart001.wsUrl AppPart001.setWsUrl].
    unfold UseWebSocket.onUrlChange. by rewrite Htu. }
  assert (Hhook2 : UseWebSocket.opened hook2 = [url] /\
                   UseWebSocket.connectionStatus hook2 =
                     ConnectionStatus.connected /\
                   UseWebSocket.lastMessage hook2 = Some created).
  { subst hook2. rewrite Hhook1. unfold UseWebSocket.run.
    cbn [fold_left UseWebSocket.step]. rewrite connect_opens by exact Htu.
    by repeat split. }
  destruct Hhook2 as (Hopened & Hstatus & Hlast).
  assert (Happ2 : app2 =
    AppPart001.storageSetItem AppPart001.SESSION_CODE_KEY code
      (AppPart001.setView AppPart001.session
         (AppPart001.storageSetItem AppPart001.SESSION_TYPE_KEY "created"
            (AppPart001.setPartnerConnected false
               (AppPart001.setUserCount (fun _ => 1)
                  (AppPart001.setSessionCode code app1)))))).
  { subst app2. unfold AppPart001.run. cbn [fold_left AppPart001.step].
    rewrite Hlast. subst created. cbn [AppPart001.onLastMessage].
    rewrite Htc. unfold AppPart001.sessionCodeEffect.
    change (default "" (Some code)) with code.
    cbn [AppPart001.sessionCode AppPart001.setView AppPart001.storageSetItem
         AppPart001.setSessionCode AppPart001.setPartnerConnected
         AppPart001.setUserCount].
    by rewrite Htc. }
  assert (Hsaved : AppPart001.localStorage app2 !! AppPart001.SESSION_CODE_KEY
                   = Some code).
  { rewrite Happ2. apply lookup_insert_eq. }
  split; [| split; [exact Hopened | split; [| split; [exact Hsaved | split]]]].
  - rewrite Happ1, Hhook1. unfold AppPart001.render.
    cbn [AppPart001.view AppPart001.setWsUrl AppPart001.setView].
    rewrite connect_opens by exact Htu. reflexivity.
  - rewrite Happ2. unfold AppPart001.render.
    cbn [AppPart001.view AppPart001.sessionCode AppPart001.partnerConnected
         AppPart001.userCount AppPart001.storageSetItem AppPart001.setView
         AppPart001.setPartnerConnected AppPart001.setUserCount
         AppPart001.setSessionCode].
    by rewrite Htc, Hstatus, Hlast.
  - rewrite Happ2.
    cbn [AppPart001.localStorage AppPart001.storageSetItem AppPart001.setView].
    rewrite lookup_insert_ne by apply keys_differ. apply lookup_insert_eq.
  - subst reloaded. unfold AppPart001.reconnectEffect.
    cbn [AppPart001.initial AppPart001.localStorage AppPart001.wsUrl
         AppPart001.view AppPart001.isLanding].
    rewrite Hsaved, Htb, Htc. reflexivity.
Qed.

Lemma created_session_is_shown_witness :
  let app1 := AppPart001.handleCreateSession (Some "wss://buzz.example/ws")
                (AppPart001.initial ∅) in
  let hook1 := UseWebSocket.onUrlChange (AppPart001.wsUrl app1) true
                 UseWebSocket.initial in
  AppPart001.render hook1 app1 =
    AppPart001.CreatingPage "Creating session..." None.
Proof.
  intros app1 hook1.
  refine (proj1 (created_session_is_shown (Some "wss://buzz.example")
                   "wss://buzz.example/ws" "483920" (AppPart001.initial ∅)
                   None None eq_refl _)).
  discriminate.
Defined.
